(** * tlshd: kernel-TLS initialisation and the server-side handshake

    A shallow embedding of [src/tlshd/ktls.c] and [src/tlshd/server.c],
    and the properties of the two files.

    The C code talks to three outside parties: the GnuTLS library, the
    kernel (through [setsockopt] and the keyring calls) and the rest of
    tlshd.  Their answers are collected in a record [environment]; what
    the program does to them is recorded as a list of [event]s.  The
    program itself is written in a small state-and-failure monad over
    the file-scope variables of the two C files, where failure stands
    for behaviour C leaves undefined (reading or writing outside an
    array).  Conditional compilation is a record [build_config].

    The file has the constants and data first, then the two C files,
    then the vocabulary of the properties and the sample environments,
    then the lemmas and theorems, and at the end runs on concrete
    environments. *)

From Stdlib Require Import String.
From Stdlib Require Import ZArith List Bool Lia Arith.
From Stdlib Require Import Strings.Byte DecimalString.
Import ListNotations.
Local Open Scope Z_scope.

Notation "a +++ b" := (String.append a b)
  (at level 60, right associativity).

(** ** Constants of the system and library headers *)

(** <errno.h> *)
Definition ENOENT : Z := 2.
Definition EIO : Z := 5.
Definition EBADF : Z := 9.
Definition EINVAL : Z := 22.
Definition ENOTSOCK : Z := 88.
Definition ENOPROTOOPT : Z := 92.

(** <netinet/tcp.h>, <linux/tls.h>: socket levels and option names *)
Definition SOL_TCP : Z := 6.
Definition TCP_ULP : Z := 31.
Definition SOL_TLS : Z := 282.
Definition TLS_TX : Z := 1.
Definition TLS_RX : Z := 2.

(** <linux/tls.h>: protocol versions and cipher descriptions *)
Definition TLS_1_2_VERSION : Z := 0x0303.
Definition TLS_1_3_VERSION : Z := 0x0304.

Definition TLS_CIPHER_AES_GCM_128 : Z := 51.
Definition TLS_CIPHER_AES_GCM_128_IV_SIZE : nat := 8.
Definition TLS_CIPHER_AES_GCM_128_KEY_SIZE : nat := 16.
Definition TLS_CIPHER_AES_GCM_128_SALT_SIZE : nat := 4.
Definition TLS_CIPHER_AES_GCM_128_REC_SEQ_SIZE : nat := 8.

Definition TLS_CIPHER_AES_GCM_256 : Z := 52.
Definition TLS_CIPHER_AES_GCM_256_IV_SIZE : nat := 8.
Definition TLS_CIPHER_AES_GCM_256_KEY_SIZE : nat := 32.
Definition TLS_CIPHER_AES_GCM_256_SALT_SIZE : nat := 4.
Definition TLS_CIPHER_AES_GCM_256_REC_SEQ_SIZE : nat := 8.

Definition TLS_CIPHER_AES_CCM_128 : Z := 53.
Definition TLS_CIPHER_AES_CCM_128_IV_SIZE : nat := 8.
Definition TLS_CIPHER_AES_CCM_128_KEY_SIZE : nat := 16.
Definition TLS_CIPHER_AES_CCM_128_SALT_SIZE : nat := 4.
Definition TLS_CIPHER_AES_CCM_128_REC_SEQ_SIZE : nat := 8.

Definition TLS_CIPHER_CHACHA20_POLY1305 : Z := 54.
Definition TLS_CIPHER_CHACHA20_POLY1305_IV_SIZE : nat := 12.
Definition TLS_CIPHER_CHACHA20_POLY1305_KEY_SIZE : nat := 32.
Definition TLS_CIPHER_CHACHA20_POLY1305_SALT_SIZE : nat := 0.
Definition TLS_CIPHER_CHACHA20_POLY1305_REC_SEQ_SIZE : nat := 8.

(** <gnutls/gnutls.h> *)
Definition GNUTLS_E_SUCCESS : Z := 0.
Definition GNUTLS_E_CERTIFICATE_ERROR : Z := -43.
Definition GNUTLS_E_NO_CERTIFICATE_FOUND : Z := -49.
Definition GNUTLS_E_UNIMPLEMENTED_FEATURE : Z := -1250.

Definition GNUTLS_KTLS_RECV : Z := Z.shiftl 1 0.
Definition GNUTLS_KTLS_SEND : Z := Z.shiftl 1 1.

Definition GNUTLS_TLS1_2 : Z := 4.
Definition GNUTLS_TLS1_3 : Z := 5.

Definition GNUTLS_CRT_X509 : Z := 1.

Definition GNUTLS_CIPHER_AES_128_GCM : Z := 10.
Definition GNUTLS_CIPHER_AES_256_GCM : Z := 11.
Definition GNUTLS_CIPHER_AES_128_CCM : Z := 19.
Definition GNUTLS_CIPHER_CHACHA20_POLY1305 : Z := 23.

(** tlshd.h, netlink.h (handshake parameters) *)
Definition TLS_NO_CERT : Z := 0.
Definition TLS_NO_PRIVKEY : Z := 0.

Inductive handshake_auth : Type :=
| HANDSHAKE_AUTH_UNSPEC
| HANDSHAKE_AUTH_UNAUTH
| HANDSHAKE_AUTH_PSK
| HANDSHAKE_AUTH_X509.

(** ** Build configuration

    Each cipher path of ktls.c is compiled only when <linux/tls.h>
    defines the cipher, and the query for library-side offload only
    when configure found [gnutls_transport_is_ktls_enabled]. *)

Record build_config : Type := {
  HAVE_GNUTLS_TRANSPORT_IS_KTLS_ENABLED : bool;
  defined_TLS_CIPHER_AES_GCM_128 : bool;
  defined_TLS_CIPHER_AES_GCM_256 : bool;
  defined_TLS_CIPHER_AES_CCM_128 : bool;
  defined_TLS_CIPHER_CHACHA20_POLY1305 : bool
}.

Definition full_build : build_config :=
  {| HAVE_GNUTLS_TRANSPORT_IS_KTLS_ENABLED := true;
     defined_TLS_CIPHER_AES_GCM_128 := true;
     defined_TLS_CIPHER_AES_GCM_256 := true;
     defined_TLS_CIPHER_AES_CCM_128 := true;
     defined_TLS_CIPHER_CHACHA20_POLY1305 := true |}.

(** ** Data *)

(** [gnutls_datum_t]: the bytes behind [data], [size] being their number. *)
Definition gnutls_datum_t : Type := list byte.

(** [key_serial_t] is [int32_t], and the keyring calls of libkeyutils
    return [long]: a result stored in a [key_serial_t] is narrowed, by
    GCC and Clang modulo 2^32. *)
Definition to_key_serial_t (v : Z) : Z := (v + 2 ^ 31) mod 2 ^ 32 - 2 ^ 31.

(** [gnutls_pcert_st], a structure of the library, by the certificate
    it holds: no bytes when it is zeroed.  [gnutls_privkey_t] is a
    pointer to an object of the library: 0 is NULL. *)
Definition gnutls_pcert_st : Type := gnutls_datum_t.
Definition gnutls_privkey_t : Type := Z.

(** Where [*pcert] points after [tlshd_x509_retrieve_key_cb]. *)
Inductive pcert_ptr : Type :=
| PtrTlshdServerCert.

(** What [tlshd_x509_retrieve_key_cb] stores through its output
    parameters [pcert], [pcert_length] and [privkey]. *)
Record retrieved_key : Type := {
  pcert : pcert_ptr;
  pcert_length : Z;
  privkey : gnutls_privkey_t
}.

(** What [gnutls_record_get_state] stores through its output pointers. *)
Record record_state : Type := {
  rs_mac_key : gnutls_datum_t;
  rs_iv : gnutls_datum_t;
  rs_cipher_key : gnutls_datum_t;
  rs_seq_number : list byte
}.

(** [struct tls_crypto_info] *)
Record tls_crypto_info : Type := {
  version : Z;
  cipher_type : Z
}.

(** [struct tls12_crypto_info_aes_gcm_128], [_aes_gcm_256], [_aes_ccm_128]
    and [_chacha20_poly1305]: the four structures have the same fields in
    the same order and differ in the sizes of the arrays. *)
Record tls12_crypto_info : Type := {
  info : tls_crypto_info;
  iv : list byte;
  key : list byte;
  salt : list byte;
  rec_seq : list byte
}.

Definition sizeof_crypto_info (i : tls12_crypto_info) : Z :=
  4 + Z.of_nat (length (iv i) + length (key i) + length (salt i)
                + length (rec_seq i)).

Inductive optval : Type :=
| OptString (s : string)
| OptCryptoInfo (i : tls12_crypto_info).

Inductive log_level : Type := LOG_DEBUG | LOG_ERROR.

Definition handle : Type := nat.

(** What the program does to the outside world, in order. *)
Inductive event : Type :=
| EvSetsockopt (fd level optname : Z) (val : optval) (len : Z)
| EvRecordGetState (read : bool)
| EvLog (lvl : log_level) (msg : string)
| EvPerror (msg : string) (errno : Z)
| EvGnutlsError (code : Z)
| EvPriorityInit (priorities : option string) (ret : Z)
| EvPriorityDeinit (p : option handle)
| EvPrioritySet (p : option handle)
| EvGlobalInit
| EvGlobalDeinit
| EvCredAlloc
| EvCredFree
| EvSessionInit
| EvSessionDeinit
| EvTransportSetInt (fd : Z)
| EvHandshake (ret : Z)
| EvKeyctlSearch (username : string)
| EvKeyringCreateCert (cert : gnutls_datum_t) (serial : Z)
| EvKeyringGetCert (serial : Z) (ret : bool)
| EvConfigGetServerCert (ret : bool)
| EvKeyringGetPrivkey (serial : Z) (privkey : gnutls_privkey_t) (ret : bool)
| EvConfigGetServerPrivkey (ret : bool).

Definition is_setsockopt (e : event) : bool :=
  match e with EvSetsockopt _ _ _ _ _ => true | _ => false end.

Definition is_record_get_state (e : event) : bool :=
  match e with EvRecordGetState _ => true | _ => false end.

Definition is_session_init (e : event) : bool :=
  match e with EvSessionInit => true | _ => false end.

(** The socket-option calls among a list of events. *)
Definition sockopt_calls (evs : list event) : list event :=
  filter is_setsockopt evs.

(** ** The outside world *)

(** A callback that the library runs in the middle of a handshake. *)
Inductive hs_callback : Type :=
| CbRetrieveKey (req_ca_rdn : list (option string))
| CbVerifyPeer
| CbPskLookup (username : string).

(** [key_serial_t *remote_peerid] in the handshake parameters points
    either where the caller left it or at the array of server.c. *)
Inductive peerid_ptr : Type :=
| PtrCaller (addr : Z)
| PtrTlshdRemotePeerid.

(** [struct tlshd_handshake_parms], the fields the two files use. *)
Record tlshd_handshake_parms : Type := {
  sockfd : Z;
  auth_mode : handshake_auth;
  x509_cert : Z;
  x509_privkey : Z;
  num_remote_peerids : Z;
  remote_peerid : peerid_ptr
}.

(** The answers of GnuTLS, the kernel, the keyring and the other files
    of tlshd.  An [int] result is the value the C function returns;
    output parameters are further components.  The four calls that
    obtain the server's certificate and private key are defined in
    files that are not among the sources: each answers with its return
    value and, where it is handed a pointer, with what it stores through
    the pointer, if anything. *)
Record environment : Type := {
  (* completed session, as ktls.c queries it *)
  gnutls_transport_is_ktls_enabled : Z;
  gnutls_record_get_state : bool -> Z * record_state;
  gnutls_protocol_get_version : Z;
  gnutls_cipher_get : Z;
  gnutls_transport_get_int : Z;
  gnutls_transport_get_int2 : Z * Z;            (* (sockin, sockout) *)
  (* the kernel: history so far, fd, level, option, value, length;
     answers with the return value and errno *)
  setsockopt : list event -> Z -> Z -> Z -> optval -> Z -> Z * Z;
  (* priority strings *)
  gnutls_priority_init : option string -> Z;
  gnutls_priority_cipher_list : Z * list Z;     (* (ret, ciphers) *)
  gnutls_priority_set : option handle -> Z;
  (* server side *)
  gnutls_global_init : Z;
  gnutls_certificate_allocate_credentials : Z;
  gnutls_certificate_set_x509_system_trust : Z;
  tlshd_keyring_get_cert : Z -> bool * option gnutls_pcert_st;
  tlshd_config_get_server_cert : bool * option gnutls_pcert_st;
  tlshd_keyring_get_privkey : Z -> gnutls_privkey_t -> bool;
  tlshd_config_get_server_privkey : bool * option gnutls_privkey_t;
  gnutls_psk_allocate_server_credentials : Z;
  gnutls_init : Z;
  gnutls_session_get_ptr : option string;       (* hostname *)
  gnutls_certificate_verify_peers3 : Z * Z;     (* (ret, status) *)
  gnutls_certificate_type_get : Z;
  gnutls_certificate_verification_status_print : Z -> Z -> string;
  (* NULL with the size untouched, or the list with its size *)
  gnutls_certificate_get_peers : option (list gnutls_datum_t);
  tlshd_keyring_create_cert : gnutls_datum_t -> option string -> Z;
  keyctl_search : string -> Z;                  (* a [long] *)
  tlshd_keyring_get_psk_key : Z -> option gnutls_datum_t;
  (* the handshake: the callbacks the library runs, in order, the
     result when none of them objects, and the error when one does *)
  hs_callbacks : list hs_callback;
  hs_result : Z;
  hs_abort : positive
}.

(** ** Program state *)

Record state : Type := mkState {
  trace : list event;
  (* server.c *)
  tlshd_num_remote_peerids : Z;
  tlshd_remote_peerid : list Z;
  (* ktls.c *)
  tlshd_gnutls_priority : option handle;
  tlshd_gnutls_priority_psk : option handle;
  (* compiled priority objects GnuTLS has allocated and not released *)
  live_priorities : list handle;
  next_handle : handle;
  (* server.c, the server's own credentials *)
  tlshd_server_privkey : gnutls_privkey_t;
  tlshd_server_cert : gnutls_pcert_st
}.

(** File-scope variables start out zeroed. *)
Definition initial_state : state :=
  {| trace := [];
     tlshd_num_remote_peerids := 0;
     tlshd_remote_peerid := repeat 0 10;
     tlshd_gnutls_priority := None;
     tlshd_gnutls_priority_psk := None;
     live_priorities := [];
     next_handle := 1%nat;
     tlshd_server_privkey := 0;
     tlshd_server_cert := [] |}.

Definition with_trace (s : state) (t : list event) : state :=
  mkState t (tlshd_num_remote_peerids s) (tlshd_remote_peerid s)
          (tlshd_gnutls_priority s) (tlshd_gnutls_priority_psk s)
          (live_priorities s) (next_handle s)
          (tlshd_server_privkey s) (tlshd_server_cert s).

Definition with_num_remote_peerids (s : state) (n : Z) : state :=
  mkState (trace s) n (tlshd_remote_peerid s)
          (tlshd_gnutls_priority s) (tlshd_gnutls_priority_psk s)
          (live_priorities s) (next_handle s)
          (tlshd_server_privkey s) (tlshd_server_cert s).

Definition with_remote_peerid (s : state) (a : list Z) : state :=
  mkState (trace s) (tlshd_num_remote_peerids s) a
          (tlshd_gnutls_priority s) (tlshd_gnutls_priority_psk s)
          (live_priorities s) (next_handle s)
          (tlshd_server_privkey s) (tlshd_server_cert s).

Definition with_priority (s : state) (p : option handle) : state :=
  mkState (trace s) (tlshd_num_remote_peerids s) (tlshd_remote_peerid s)
          p (tlshd_gnutls_priority_psk s)
          (live_priorities s) (next_handle s)
          (tlshd_server_privkey s) (tlshd_server_cert s).

Definition with_priority_psk (s : state) (p : option handle) : state :=
  mkState (trace s) (tlshd_num_remote_peerids s) (tlshd_remote_peerid s)
          (tlshd_gnutls_priority s) p
          (live_priorities s) (next_handle s)
          (tlshd_server_privkey s) (tlshd_server_cert s).

Definition with_heap (s : state) (l : list handle) (n : handle) : state :=
  mkState (trace s) (tlshd_num_remote_peerids s) (tlshd_remote_peerid s)
          (tlshd_gnutls_priority s) (tlshd_gnutls_priority_psk s) l n
          (tlshd_server_privkey s) (tlshd_server_cert s).

Definition with_server_privkey (s : state) (k : gnutls_privkey_t) : state :=
  mkState (trace s) (tlshd_num_remote_peerids s) (tlshd_remote_peerid s)
          (tlshd_gnutls_priority s) (tlshd_gnutls_priority_psk s)
          (live_priorities s) (next_handle s)
          k (tlshd_server_cert s).

Definition with_server_cert (s : state) (c : gnutls_pcert_st) : state :=
  mkState (trace s) (tlshd_num_remote_peerids s) (tlshd_remote_peerid s)
          (tlshd_gnutls_priority s) (tlshd_gnutls_priority_psk s)
          (live_priorities s) (next_handle s)
          (tlshd_server_privkey s) c.

(** ** The monad: state, and [None] for undefined behaviour *)

Definition M (A : Type) : Type := state -> option (A * state).

Definition ret {A} (a : A) : M A := fun s => Some (a, s).

Definition bind {A B} (m : M A) (k : A -> M B) : M B :=
  fun s => match m s with
           | Some (a, s') => k a s'
           | None => None
           end.

Definition undefined {A} : M A := fun _ => None.

Definition get : M state := fun s => Some (s, s).

Definition put (s : state) : M unit := fun _ => Some (tt, s).

Definition emit (e : event) : M unit :=
  fun s => Some (tt, with_trace s (trace s ++ [e])).

Declare Scope tlshd_scope.
Delimit Scope tlshd_scope with tlshd.

Notation "x <- m ;; k" := (bind m (fun x => k))
  (at level 61, m at next level, right associativity) : tlshd_scope.
Notation "m ;; k" := (bind m (fun _ => k))
  (at level 61, right associativity) : tlshd_scope.

Local Open Scope tlshd_scope.

(** [a && b] of C: [b] runs only when [a] gave true. *)
Definition and_then (a b : M bool) : M bool :=
  x <- a ;; if x then b else ret false.

(** [memcpy(dst, src, n)] into an array field: the first [n] bytes of
    [dst] are replaced.  Undefined when either side is shorter. *)
Definition memcpy (dst src : list byte) (n : nat) : M (list byte) :=
  if ((n <=? length src) && (n <=? length dst))%nat
  then ret (firstn n src ++ skipn n dst)
  else undefined.

(** [strcat(dst, src)] into [char dst[cap]], terminating NUL included. *)
Definition strcat (cap : nat) (dst src : string) : M string :=
  if (String.length dst + String.length src + 1 <=? cap)%nat
  then ret (dst +++ src)
  else undefined.

(** [a[i] = v] *)
Definition array_set (a : list Z) (i : nat) (v : Z) : M (list Z) :=
  if (i <? length a)%nat
  then ret (firstn i a ++ v :: skipn (S i) a)
  else undefined.

(** [a[i]] *)
Definition array_get {A} (a : list A) (i : nat) : M A :=
  match nth_error a i with
  | Some x => ret x
  | None => undefined
  end.

(** The logging functions of tlshd.  A line is recorded by its format
    string, with a string argument filled in where the model has it and
    a number left as its conversion; the index of an issuer line, which
    tells the lines of [tlshd_x509_log_issuers] apart, is filled in. *)
Definition tlshd_log_debug (msg : string) : M unit :=
  emit (EvLog LOG_DEBUG msg).

Definition tlshd_log_error (msg : string) : M unit :=
  emit (EvLog LOG_ERROR msg).

Definition tlshd_log_perror (msg : string) (errno : Z) : M unit :=
  emit (EvPerror msg errno).

Definition tlshd_log_gnutls_error (code : Z) : M unit :=
  emit (EvGnutlsError code).

Section Program.

Variable cfg : build_config.
Variable env : environment.

(** ** ktls.c *)

(** The [setsockopt] system call: recorded, and answered by the kernel
    with its return value and errno. *)
Definition sys_setsockopt (fd level optname : Z) (val : optval) (len : Z)
  : M (Z * Z) :=
  s <- get ;;
  emit (EvSetsockopt fd level optname val len) ;;
  ret (setsockopt env (trace s) fd level optname val len).

Definition tlshd_is_ktls_enabled (read : bool) : M bool :=
  if HAVE_GNUTLS_TRANSPORT_IS_KTLS_ENABLED cfg then
    let r := gnutls_transport_is_ktls_enabled env in
    if r =? GNUTLS_E_UNIMPLEMENTED_FEATURE then ret false
    else if read then
      if Z.land r GNUTLS_KTLS_RECV =? 0 then ret false
      else
        tlshd_log_debug "Library has enabled receive kTLS for this session." ;;
        ret true
    else
      if Z.land r GNUTLS_KTLS_SEND =? 0 then ret false
      else
        tlshd_log_debug "Library has enabled send kTLS for this session." ;;
        ret true
  else ret false.

Definition tlshd_setsockopt (sock : Z) (read : bool)
    (i : tls12_crypto_info) (infolen : Z) : M bool :=
  r <- sys_setsockopt sock SOL_TLS (if read then TLS_RX else TLS_TX)
                      (OptCryptoInfo i) infolen ;;
  let '(r, errno) := r in
  if r =? 0 then ret true
  else
    (if (errno =? EBADF) || (errno =? ENOTSOCK) then
       tlshd_log_error
         "The kernel's socket file descriptor is no longer valid."
     else if (errno =? EINVAL) || (errno =? ENOENT) || (errno =? ENOPROTOOPT)
     then
       tlshd_log_error
         "The kernel does not support the requested algorithm."
     else tlshd_log_perror "setsockopt" errno) ;;
    ret false.

(** [tlshd_set_aes_gcm128_info], [tlshd_set_aes_gcm256_info] and
    [tlshd_set_aes_ccm128_info] are the same text up to the cipher in
    the names of the structure and of the TLS_CIPHER_ constants; this is
    that text, with the constants as parameters. *)
Definition tlshd_set_aes_info (CIPHER : Z)
    (IV_SIZE KEY_SIZE SALT_SIZE REC_SEQ_SIZE : nat)
    (sock : Z) (read : bool) : M bool :=
  enabled <- tlshd_is_ktls_enabled read ;;
  if enabled then ret true
  else
    emit (EvRecordGetState read) ;;
    let '(r, rs) := gnutls_record_get_state env read in
    if negb (r =? GNUTLS_E_SUCCESS) then
      tlshd_log_gnutls_error r ;; ret false
    else
      (* TLSv1.2 generates iv in the kernel *)
      let tls12 := gnutls_protocol_get_version env =? GNUTLS_TLS1_2 in
      info_iv <- (if tls12
                  then memcpy (repeat x00 IV_SIZE) (rs_seq_number rs) IV_SIZE
                  else memcpy (repeat x00 IV_SIZE)
                              (skipn SALT_SIZE (rs_iv rs)) IV_SIZE) ;;
      info_salt <- memcpy (repeat x00 SALT_SIZE) (rs_iv rs) SALT_SIZE ;;
      info_key <- memcpy (repeat x00 KEY_SIZE) (rs_cipher_key rs) KEY_SIZE ;;
      info_rec_seq <- memcpy (repeat x00 REC_SEQ_SIZE) (rs_seq_number rs)
                             REC_SEQ_SIZE ;;
      let i :=
        {| info := {| version := if tls12 then TLS_1_2_VERSION
                                 else TLS_1_3_VERSION;
                      cipher_type := CIPHER |};
           iv := info_iv; key := info_key; salt := info_salt;
           rec_seq := info_rec_seq |} in
      tlshd_setsockopt sock read i (sizeof_crypto_info i).

Definition tlshd_set_aes_gcm128_info : Z -> bool -> M bool :=
  tlshd_set_aes_info TLS_CIPHER_AES_GCM_128
    TLS_CIPHER_AES_GCM_128_IV_SIZE TLS_CIPHER_AES_GCM_128_KEY_SIZE
    TLS_CIPHER_AES_GCM_128_SALT_SIZE TLS_CIPHER_AES_GCM_128_REC_SEQ_SIZE.

Definition tlshd_set_aes_gcm256_info : Z -> bool -> M bool :=
  tlshd_set_aes_info TLS_CIPHER_AES_GCM_256
    TLS_CIPHER_AES_GCM_256_IV_SIZE TLS_CIPHER_AES_GCM_256_KEY_SIZE
    TLS_CIPHER_AES_GCM_256_SALT_SIZE TLS_CIPHER_AES_GCM_256_REC_SEQ_SIZE.

Definition tlshd_set_aes_ccm128_info : Z -> bool -> M bool :=
  tlshd_set_aes_info TLS_CIPHER_AES_CCM_128
    TLS_CIPHER_AES_CCM_128_IV_SIZE TLS_CIPHER_AES_CCM_128_KEY_SIZE
    TLS_CIPHER_AES_CCM_128_SALT_SIZE TLS_CIPHER_AES_CCM_128_REC_SEQ_SIZE.

Definition tlshd_set_chacha20_poly1305_info (sock : Z) (read : bool)
  : M bool :=
  enabled <- tlshd_is_ktls_enabled read ;;
  if enabled then ret true
  else
    emit (EvRecordGetState read) ;;
    let '(r, rs) := gnutls_record_get_state env read in
    if negb (r =? GNUTLS_E_SUCCESS) then
      tlshd_log_gnutls_error r ;; ret false
    else
      let tls12 := gnutls_protocol_get_version env =? GNUTLS_TLS1_2 in
      info_iv <- memcpy (repeat x00 TLS_CIPHER_CHACHA20_POLY1305_IV_SIZE)
                        (rs_iv rs) TLS_CIPHER_CHACHA20_POLY1305_IV_SIZE ;;
      info_key <- memcpy (repeat x00 TLS_CIPHER_CHACHA20_POLY1305_KEY_SIZE)
                         (rs_cipher_key rs)
                         TLS_CIPHER_CHACHA20_POLY1305_KEY_SIZE ;;
      info_rec_seq <- memcpy
                        (repeat x00 TLS_CIPHER_CHACHA20_POLY1305_REC_SEQ_SIZE)
                        (rs_seq_number rs)
                        TLS_CIPHER_CHACHA20_POLY1305_REC_SEQ_SIZE ;;
      let i :=
        {| info := {| version := if tls12 then TLS_1_2_VERSION
                                 else TLS_1_3_VERSION;
                      cipher_type := TLS_CIPHER_CHACHA20_POLY1305 |};
           iv := info_iv; key := info_key;
           salt := repeat x00 TLS_CIPHER_CHACHA20_POLY1305_SALT_SIZE;
           rec_seq := info_rec_seq |} in
      tlshd_setsockopt sock read i (sizeof_crypto_info i).

(** [set(sockout, 0) && set(sockin, 1) ? 0 : EIO] *)
Definition both_directions (set : Z -> bool -> M bool) (sockin sockout : Z)
  : M Z :=
  ok <- and_then (set sockout false) (set sockin true) ;;
  ret (if ok then 0 else EIO).

Definition unsupported_cipher : M Z :=
  tlshd_log_error "tlshd does not support the requested cipher." ;;
  ret EIO.

Definition tlshd_initialize_ktls : M Z :=
  r <- sys_setsockopt (gnutls_transport_get_int env) SOL_TCP TCP_ULP
                      (OptString "tls") 4 ;;
  if fst r =? -1 then
    tlshd_log_perror "setsockopt(TLS_ULP)" (snd r) ;;
    ret EIO
  else
    let '(sockin, sockout) := gnutls_transport_get_int2 env in
    let c := gnutls_cipher_get env in
    if (c =? GNUTLS_CIPHER_AES_128_GCM) && defined_TLS_CIPHER_AES_GCM_128 cfg
    then both_directions tlshd_set_aes_gcm128_info sockin sockout
    else if (c =? GNUTLS_CIPHER_AES_256_GCM)
            && defined_TLS_CIPHER_AES_GCM_256 cfg
    then both_directions tlshd_set_aes_gcm256_info sockin sockout
    else if (c =? GNUTLS_CIPHER_AES_128_CCM)
            && defined_TLS_CIPHER_AES_CCM_128 cfg
    then both_directions tlshd_set_aes_ccm128_info sockin sockout
    else if (c =? GNUTLS_CIPHER_CHACHA20_POLY1305)
            && defined_TLS_CIPHER_CHACHA20_POLY1305 cfg
    then both_directions tlshd_set_chacha20_poly1305_info sockin sockout
    else unsupported_cipher.

(** [emit_cipher_string]: a case of the switch exists only when its
    cipher is defined. *)
Definition emit_cipher_string (pstring : string) (cipher : Z) : M string :=
  if (cipher =? GNUTLS_CIPHER_CHACHA20_POLY1305)
     && defined_TLS_CIPHER_CHACHA20_POLY1305 cfg
  then strcat 1024 pstring ":+CHACHA20-POLY1305"
  else if (cipher =? GNUTLS_CIPHER_AES_256_GCM)
          && defined_TLS_CIPHER_AES_GCM_256 cfg
  then strcat 1024 pstring ":+AES-256-GCM"
  else if (cipher =? GNUTLS_CIPHER_AES_128_GCM)
          && defined_TLS_CIPHER_AES_GCM_128 cfg
  then strcat 1024 pstring ":+AES-128-GCM"
  else if (cipher =? GNUTLS_CIPHER_AES_128_CCM)
          && defined_TLS_CIPHER_AES_CCM_128 cfg
  then strcat 1024 pstring ":+AES-128-CCM"
  else ret pstring.

(** [gnutls_priority_init(&p, priorities, &errpos)]: on success a new
    object is allocated and stored in [p]; on failure nothing stays
    allocated and [p] is NULL. *)
Definition lib_priority_init (priorities : option string)
  : M (Z * option handle) :=
  let r := gnutls_priority_init env priorities in
  emit (EvPriorityInit priorities r) ;;
  if r =? GNUTLS_E_SUCCESS then
    s <- get ;;
    let h := next_handle s in
    put (with_heap s (h :: live_priorities s) (S h)) ;;
    ret (r, Some h)
  else ret (r, None).

(** [gnutls_priority_deinit(p)]: nothing for NULL; releasing an object
    that is not allocated is undefined. *)
Definition lib_priority_deinit (p : option handle) : M unit :=
  emit (EvPriorityDeinit p) ;;
  match p with
  | None => ret tt
  | Some h =>
      s <- get ;;
      if existsb (Nat.eqb h) (live_priorities s) then
        put (with_heap s (remove Nat.eq_dec h (live_priorities s))
                       (next_handle s))
      else undefined
  end.

Definition set_tlshd_gnutls_priority (p : option handle) : M unit :=
  s <- get ;; put (with_priority s p).

Definition set_tlshd_gnutls_priority_psk (p : option handle) : M unit :=
  s <- get ;; put (with_priority_psk s p).

(** [for (i = 0; i < ret; ++i) emit_cipher_string(pstring, ciphers[i]);]
    with [n] the iterations that remain. *)
Fixpoint emit_cipher_loop (ciphers : list Z) (i n : nat) (pstring : string)
  : M string :=
  match n with
  | O => ret pstring
  | S n' =>
      c <- array_get ciphers i ;;
      pstring' <- emit_cipher_string pstring c ;;
      emit_cipher_loop ciphers (S i) n' pstring'
  end.

Definition newline : string := String (Ascii.ascii_of_nat 10) EmptyString.

Definition tlshd_gnutls_priority_init : M Z :=
  r <- lib_priority_init None ;;
  set_tlshd_gnutls_priority (snd r) ;;
  if negb (fst r =? GNUTLS_E_SUCCESS) then
    tlshd_log_gnutls_error (fst r) ;; ret (- EIO)
  else
    let '(r, ciphers) := gnutls_priority_cipher_list env in
    if r <? 0 then
      tlshd_log_gnutls_error r ;; ret (- EIO)
    else
      pstring <- strcat 1024 "" "SECURE256:+SECURE128:-COMP-ALL" ;;
      (* All kernel TLS consumers require TLS v1.3 or newer. *)
      pstring <- strcat 1024 pstring
                        ":-VERS-ALL:+VERS-TLS1.3:%NO_TICKETS" ;;
      pstring <- strcat 1024 pstring ":-CIPHER-ALL" ;;
      pstring <- emit_cipher_loop ciphers 0 (Z.to_nat r) pstring ;;
      tlshd_log_debug ("Normal priority string: " +++ pstring +++ newline) ;;
      s <- get ;;
      lib_priority_deinit (tlshd_gnutls_priority s) ;;
      r <- lib_priority_init (Some pstring) ;;
      set_tlshd_gnutls_priority (snd r) ;;
      if negb (fst r =? GNUTLS_E_SUCCESS) then
        tlshd_log_gnutls_error (fst r) ;; ret (- EIO)
      else
        pstring <- strcat 1024 pstring ":+PSK:+DHE-PSK:+ECDHE-PSK" ;;
        tlshd_log_debug ("PSK priority string: " +++ pstring +++ newline) ;;
        r <- lib_priority_init (Some pstring) ;;
        set_tlshd_gnutls_priority_psk (snd r) ;;
        if negb (fst r =? GNUTLS_E_SUCCESS) then
          s <- get ;;
          lib_priority_deinit (tlshd_gnutls_priority s) ;;
          tlshd_log_gnutls_error (fst r) ;;
          ret (- EIO)
        else ret 0.

Definition tlshd_gnutls_priority_set (parms : tlshd_handshake_parms) : M Z :=
  s <- get ;;
  let p := match auth_mode parms with
           | HANDSHAKE_AUTH_PSK => tlshd_gnutls_priority_psk s
           | _ => tlshd_gnutls_priority s
           end in
  emit (EvPrioritySet p) ;;
  ret (gnutls_priority_set env p).

Definition tlshd_gnutls_priority_deinit : M unit :=
  s <- get ;;
  lib_priority_deinit (tlshd_gnutls_priority s) ;;
  s <- get ;;
  lib_priority_deinit (tlshd_gnutls_priority_psk s).

(** ** The handshake of the library *)

(** A session, as far as the handshake is concerned: the callbacks that
    were registered with its credentials. *)
Record gnutls_session_t : Type := {
  retrieve_function
    : option (list (option string) -> M (Z * option retrieved_key));
  verify_function : option (M Z);
  psk_server_credentials_function
    : option (string -> M (Z * option gnutls_datum_t))
}.

(** [gnutls_handshake]: the library runs the callbacks the peer's
    messages call for, and gives up with an error as soon as one of them
    returns non-zero. *)
Definition run_callback (session : gnutls_session_t) (cb : hs_callback)
  : M Z :=
  match cb with
  | CbRetrieveKey rdn =>
      match retrieve_function session with
      | Some f => r <- f rdn ;; ret (fst r)
      | None => ret 0
      end
  | CbVerifyPeer =>
      match verify_function session with
      | Some f => f
      | None => ret 0
      end
  | CbPskLookup username =>
      match psk_server_credentials_function session with
      | Some f => r <- f username ;; ret (fst r)
      | None => ret 0
      end
  end.

Fixpoint run_callbacks (session : gnutls_session_t) (cbs : list hs_callback)
  : M Z :=
  match cbs with
  | [] => ret (hs_result env)
  | cb :: rest =>
      r <- run_callback session cb ;;
      if r =? 0 then run_callbacks session rest
      else ret (Z.neg (hs_abort env))
  end.

Definition gnutls_handshake (session : gnutls_session_t) : M Z :=
  r <- run_callbacks session (hs_callbacks env) ;;
  emit (EvHandshake r) ;;
  ret r.

(** Modelled from the spec: [tlshd_start_tls_handshake], the shared
    helper that runs the handshake, is defined in a file that is not
    among the sources.  The specification says that it binds the session
    to the socket, selects and applies the priority configuration,
    performs the protocol handshake to completion or failure, and on
    success invokes the offload installer before returning. *)
Definition tlshd_start_tls_handshake (session : gnutls_session_t)
    (parms : tlshd_handshake_parms) : M unit :=
  emit (EvTransportSetInt (sockfd parms)) ;;
  tlshd_gnutls_priority_set parms ;;
  r <- gnutls_handshake session ;;
  if r =? GNUTLS_E_SUCCESS then
    tlshd_initialize_ktls ;; ret tt
  else ret tt.

End Program.

(** ** server.c *)

Section Server.

Variable env : environment.

(** [tlshd_start_tls_handshake] is declared in tlshd.h and defined in a
    file that is not among the sources.  server.c is embedded for any
    function in its place, of which the one modelled from the spec above
    is one; it works on the session and the program state, and leaves
    alone the fields of the parameters that server.c uses. *)
Variable start_tls_handshake
  : gnutls_session_t -> tlshd_handshake_parms -> M unit.

Definition set_tlshd_server_cert (c : gnutls_pcert_st) : M unit :=
  s <- get ;; put (with_server_cert s c).

Definition set_tlshd_server_privkey (k : gnutls_privkey_t) : M unit :=
  s <- get ;; put (with_server_privkey s k).

(** What a call stores through the pointer it is handed, if anything. *)
Definition store {A} (set : A -> M unit) (out : option A) : M unit :=
  match out with
  | Some v => set v
  | None => ret tt
  end.

(* XXX: After this point, tlshd_server_cert should be deinited on error. *)
Definition tlshd_x509_server_get_cert (parms : tlshd_handshake_parms)
  : M bool :=
  if negb (x509_cert parms =? TLS_NO_CERT) then
    let '(r, out) := tlshd_keyring_get_cert env (x509_cert parms) in
    emit (EvKeyringGetCert (x509_cert parms) r) ;;
    store set_tlshd_server_cert out ;;
    ret r
  else
    let '(r, out) := tlshd_config_get_server_cert env in
    emit (EvConfigGetServerCert r) ;;
    store set_tlshd_server_cert out ;;
    ret r.

(* XXX: After this point, tlshd_server_privkey should be deinited on
   error. *)
(** [tlshd_keyring_get_privkey] is handed [tlshd_server_privkey] itself,
    not its address: whatever it does, the variable keeps its value. *)
Definition tlshd_x509_server_get_privkey (parms : tlshd_handshake_parms)
  : M bool :=
  if negb (x509_privkey parms =? TLS_NO_PRIVKEY) then
    s <- get ;;
    let r := tlshd_keyring_get_privkey env (x509_privkey parms)
                                       (tlshd_server_privkey s) in
    emit (EvKeyringGetPrivkey (x509_privkey parms) (tlshd_server_privkey s)
                              r) ;;
    ret r
  else
    let '(r, out) := tlshd_config_get_server_privkey env in
    emit (EvConfigGetServerPrivkey r) ;;
    store set_tlshd_server_privkey out ;;
    ret r.

(** [printf]'s [%d] of an index. *)
Definition decimal (i : nat) : string :=
  NilZero.string_of_uint (Nat.to_uint i).

(** The loop of [tlshd_x509_log_issuers] from index [i] on; [None]
    stands for a name [gnutls_x509_rdn_get] could not render. *)
Fixpoint log_issuers (req_ca_rdn : list (option string)) (i : nat) : M unit :=
  match req_ca_rdn with
  | [] => ret tt
  | Some issuer_dn :: rest =>
      tlshd_log_debug ("   [" +++ decimal i +++ "]: " +++ issuer_dn) ;;
      log_issuers rest (S i)
  | None :: rest => log_issuers rest (S i)
  end.

Definition tlshd_x509_log_issuers (req_ca_rdn : list (option string))
  : M unit :=
  if (length req_ca_rdn <? 1)%nat then ret tt
  else
    tlshd_log_debug "Server's trusted authorities:" ;;
    log_issuers req_ca_rdn 0.

(** The return value, and the output parameters when they are set. *)
Definition tlshd_x509_retrieve_key_cb (req_ca_rdn : list (option string))
  : M (Z * option retrieved_key) :=
  tlshd_x509_log_issuers req_ca_rdn ;;
  if negb (gnutls_certificate_type_get env =? GNUTLS_CRT_X509)
  then ret (-1, None)
  else
    s <- get ;;
    ret (0, Some {| pcert := PtrTlshdServerCert;
                    pcert_length := 1;
                    privkey := tlshd_server_privkey s |}).

Definition ARRAY_SIZE_tlshd_remote_peerid : Z := 10.

Definition set_tlshd_num_remote_peerids (n : Z) : M unit :=
  s <- get ;; put (with_num_remote_peerids s n).

(** [tlshd_remote_peerid[i] = v] *)
Definition set_tlshd_remote_peerid (i : nat) (v : Z) : M unit :=
  s <- get ;;
  a <- array_set (tlshd_remote_peerid s) i v ;;
  s <- get ;;
  put (with_remote_peerid s a).

(** The body of the loop over the peer's certificates, for index [i],
    with [n] iterations remaining. *)
Fixpoint import_peer_certs (peercerts : list gnutls_datum_t)
    (hostname : option string) (i n : nat) : M unit :=
  match n with
  | O => ret tt
  | S n' =>
      cert <- array_get peercerts i ;;
      let serial := tlshd_keyring_create_cert env cert hostname in
      emit (EvKeyringCreateCert cert serial) ;;
      set_tlshd_remote_peerid i serial ;;
      import_peer_certs peercerts hostname (S i) n'
  end.

Definition tlshd_server_x509_verify_function : M Z :=
  let hostname := gnutls_session_get_ptr env in
  let '(r, status) := gnutls_certificate_verify_peers3 env in
  if r =? GNUTLS_E_SUCCESS then
    let type := gnutls_certificate_type_get env in
    tlshd_log_debug
      (gnutls_certificate_verification_status_print env status type) ;;
    if negb (status =? 0) then ret GNUTLS_E_CERTIFICATE_ERROR
    else
      let peercerts := gnutls_certificate_get_peers env in
      match peercerts with
      | Some l => set_tlshd_num_remote_peerids (Z.of_nat (length l))
      | None => ret tt
      end ;;
      s <- get ;;
      if match peercerts with None => true | Some _ => false end
         || (tlshd_num_remote_peerids s =? 0)
      then
        tlshd_log_debug ("The peer cert list is empty." +++ newline) ;;
        ret GNUTLS_E_CERTIFICATE_ERROR
      else
        tlshd_log_debug ("The peer offered %d certificate(s)." +++ newline) ;;
        (if tlshd_num_remote_peerids s >? ARRAY_SIZE_tlshd_remote_peerid
         then set_tlshd_num_remote_peerids ARRAY_SIZE_tlshd_remote_peerid
         else ret tt) ;;
        s <- get ;;
        import_peer_certs (match peercerts with Some l => l | None => [] end)
                          hostname 0 (Z.to_nat (tlshd_num_remote_peerids s)) ;;
        ret GNUTLS_E_SUCCESS
  else if r =? GNUTLS_E_NO_CERTIFICATE_FOUND then
    tlshd_log_debug ("The peer offered no certificate." +++ newline) ;;
    ret GNUTLS_E_SUCCESS
  else
    tlshd_log_gnutls_error r ;;
    ret GNUTLS_E_CERTIFICATE_ERROR.

Definition tlshd_server_x509_handshake (parms : tlshd_handshake_parms)
  : M unit :=
  let r := gnutls_certificate_allocate_credentials env in
  if negb (r =? GNUTLS_E_SUCCESS) then tlshd_log_gnutls_error r
  else
    emit EvCredAlloc ;;
    (let r := gnutls_certificate_set_x509_system_trust env in
     if r <? 0 then tlshd_log_gnutls_error r
     else
       tlshd_log_debug "System trust: Loaded %d certificate(s)." ;;
       got_cert <- tlshd_x509_server_get_cert parms ;;
       if negb got_cert then ret tt
       else
         got_privkey <- tlshd_x509_server_get_privkey parms ;;
         if negb got_privkey then ret tt
         else
           let r := gnutls_init env in
           if negb (r =? GNUTLS_E_SUCCESS) then tlshd_log_gnutls_error r
           else
             emit EvSessionInit ;;
             emit (EvTransportSetInt (sockfd parms)) ;;
             let session :=
               {| retrieve_function := Some tlshd_x509_retrieve_key_cb;
                  verify_function := Some tlshd_server_x509_verify_function;
                  psk_server_credentials_function := None |} in
             start_tls_handshake session parms ;;
             emit EvSessionDeinit) ;;
    (* out_free_creds: *)
    emit EvCredFree.

Definition tlshd_server_psk_cb (username : string)
  : M (Z * option gnutls_datum_t) :=
  emit (EvKeyctlSearch username) ;;
  let psk := to_key_serial_t (keyctl_search env username) in
  if psk <? 0 then
    tlshd_log_error "failed to search key" ;;
    ret (-1, None)
  else
    match tlshd_keyring_get_psk_key env psk with
    | None =>
        tlshd_log_error "failed to load key" ;;
        ret (-1, None)
    | Some key =>
        (* PSK uses the same identity for both client and server *)
        set_tlshd_remote_peerid 0 psk ;;
        set_tlshd_num_remote_peerids 1 ;;
        ret (0, Some key)
    end.

Definition tlshd_server_psk_handshake (parms : tlshd_handshake_parms)
  : M unit :=
  let r := gnutls_psk_allocate_server_credentials env in
  if negb (r =? GNUTLS_E_SUCCESS) then tlshd_log_gnutls_error r
  else
    emit EvCredAlloc ;;
    (let r := gnutls_init env in
     if negb (r =? GNUTLS_E_SUCCESS) then tlshd_log_gnutls_error r
     else
       emit EvSessionInit ;;
       emit (EvTransportSetInt (sockfd parms)) ;;
       let session :=
         {| retrieve_function := None;
            verify_function := None;
            psk_server_credentials_function := Some tlshd_server_psk_cb |} in
       start_tls_handshake session parms ;;
       emit EvSessionDeinit) ;;
    (* out_free_creds: *)
    emit EvCredFree.

Definition tlshd_serverhello_handshake (parms : tlshd_handshake_parms)
  : M tlshd_handshake_parms :=
  let r := gnutls_global_init env in
  if negb (r =? GNUTLS_E_SUCCESS) then
    tlshd_log_gnutls_error r ;; ret parms
  else
    emit EvGlobalInit ;;
    tlshd_log_debug "System config file: %s" ;;
    match auth_mode parms with
    | HANDSHAKE_AUTH_X509 => tlshd_server_x509_handshake parms
    | HANDSHAKE_AUTH_PSK => tlshd_server_psk_handshake parms
    | _ => tlshd_log_debug "Unrecognized auth mode (%d)"
    end ;;
    s <- get ;;
    let parms' :=
      if negb (tlshd_num_remote_peerids s =? 0) then
        {| sockfd := sockfd parms;
           auth_mode := auth_mode parms;
           x509_cert := x509_cert parms;
           x509_privkey := x509_privkey parms;
           num_remote_peerids := tlshd_num_remote_peerids s;
           remote_peerid := PtrTlshdRemotePeerid |}
      else parms in
    emit EvGlobalDeinit ;;
    ret parms'.

End Server.

(** * Properties

    ** Vocabulary *)

(** *** The installer *)

Definition is_tls_install (e : event) : bool :=
  match e with
  | EvSetsockopt _ level _ _ _ => level =? SOL_TLS
  | _ => false
  end.

Definition tls_option (read : bool) : Z := if read then TLS_RX else TLS_TX.

(** The call that sets TCP_ULP. *)
Definition ulp_call (env : environment) : event :=
  EvSetsockopt (gnutls_transport_get_int env) SOL_TCP TCP_ULP
               (OptString "tls") 4.

(** The kernel's answer to the TCP_ULP call made in state [s]. *)
Definition ulp_answer (env : environment) (s : state) : Z * Z :=
  setsockopt env (trace s) (gnutls_transport_get_int env) SOL_TCP TCP_ULP
             (OptString "tls") 4.

(** The ciphers the kernel offload path knows. *)
Definition ktls_ciphers : list Z :=
  [GNUTLS_CIPHER_AES_128_GCM; GNUTLS_CIPHER_AES_256_GCM;
   GNUTLS_CIPHER_AES_128_CCM; GNUTLS_CIPHER_CHACHA20_POLY1305].

Definition is_ktls_cipher (c : Z) : bool := existsb (Z.eqb c) ktls_ciphers.

(** Those of them this build can hand to the kernel. *)
Definition ktls_supported (cfg : build_config) (c : Z) : bool :=
  (c =? GNUTLS_CIPHER_AES_128_GCM) && defined_TLS_CIPHER_AES_GCM_128 cfg
  || (c =? GNUTLS_CIPHER_AES_256_GCM) && defined_TLS_CIPHER_AES_GCM_256 cfg
  || (c =? GNUTLS_CIPHER_AES_128_CCM) && defined_TLS_CIPHER_AES_CCM_128 cfg
  || (c =? GNUTLS_CIPHER_CHACHA20_POLY1305)
     && defined_TLS_CIPHER_CHACHA20_POLY1305 cfg.

Definition all_ciphers_defined (cfg : build_config) : bool :=
  defined_TLS_CIPHER_AES_GCM_128 cfg && defined_TLS_CIPHER_AES_GCM_256 cfg
  && defined_TLS_CIPHER_AES_CCM_128 cfg
  && defined_TLS_CIPHER_CHACHA20_POLY1305 cfg.

(** Installing the key material of one direction for cipher [c]: the
    function the switch of [tlshd_initialize_ktls] calls for [c]. *)
Definition install_direction (cfg : build_config) (env : environment) (c : Z)
  : Z -> bool -> M bool :=
  if c =? GNUTLS_CIPHER_AES_128_GCM then tlshd_set_aes_gcm128_info cfg env
  else if c =? GNUTLS_CIPHER_AES_256_GCM then tlshd_set_aes_gcm256_info cfg env
  else if c =? GNUTLS_CIPHER_AES_128_CCM then tlshd_set_aes_ccm128_info cfg env
  else tlshd_set_chacha20_poly1305_info cfg env.

(** What the library says about offload in one direction: the flag of
    that direction is set in the value of
    [gnutls_transport_is_ktls_enabled], which is not the error of a
    library that lacks the feature. *)
Definition library_reports_ktls (env : environment) (read : bool) : bool :=
  negb (gnutls_transport_is_ktls_enabled env =? GNUTLS_E_UNIMPLEMENTED_FEATURE)
  && negb (Z.land (gnutls_transport_is_ktls_enabled env)
                  (if read then GNUTLS_KTLS_RECV else GNUTLS_KTLS_SEND) =? 0).

Definition ktls_enabled_message (read : bool) : string :=
  if read then "Library has enabled receive kTLS for this session."
  else "Library has enabled send kTLS for this session.".

Definition is_aes_gcm_or_ccm (c : Z) : bool :=
  (c =? GNUTLS_CIPHER_AES_128_GCM) || (c =? GNUTLS_CIPHER_AES_256_GCM)
  || (c =? GNUTLS_CIPHER_AES_128_CCM).

Definition salt_size_of (c : Z) : nat :=
  if c =? GNUTLS_CIPHER_AES_128_GCM then TLS_CIPHER_AES_GCM_128_SALT_SIZE
  else if c =? GNUTLS_CIPHER_AES_256_GCM then TLS_CIPHER_AES_GCM_256_SALT_SIZE
  else if c =? GNUTLS_CIPHER_AES_128_CCM then TLS_CIPHER_AES_CCM_128_SALT_SIZE
  else TLS_CIPHER_CHACHA20_POLY1305_SALT_SIZE.

Definition iv_size_of (c : Z) : nat :=
  if c =? GNUTLS_CIPHER_AES_128_GCM then TLS_CIPHER_AES_GCM_128_IV_SIZE
  else if c =? GNUTLS_CIPHER_AES_256_GCM then TLS_CIPHER_AES_GCM_256_IV_SIZE
  else if c =? GNUTLS_CIPHER_AES_128_CCM then TLS_CIPHER_AES_CCM_128_IV_SIZE
  else TLS_CIPHER_CHACHA20_POLY1305_IV_SIZE.

Definition key_size_of (c : Z) : nat :=
  if c =? GNUTLS_CIPHER_AES_128_GCM then TLS_CIPHER_AES_GCM_128_KEY_SIZE
  else if c =? GNUTLS_CIPHER_AES_256_GCM then TLS_CIPHER_AES_GCM_256_KEY_SIZE
  else if c =? GNUTLS_CIPHER_AES_128_CCM then TLS_CIPHER_AES_CCM_128_KEY_SIZE
  else TLS_CIPHER_CHACHA20_POLY1305_KEY_SIZE.

(** The bytes of the IV datum that the code for cipher [c] reads: for
    TLS 1.2 with AES only the salt, otherwise the salt and the IV. *)
Definition iv_bytes_read (env : environment) (c : Z) : nat :=
  if is_aes_gcm_or_ccm c && (gnutls_protocol_get_version env =? GNUTLS_TLS1_2)
  then salt_size_of c
  else (salt_size_of c + iv_size_of c)%nat.

(** GnuTLS hands out the key material of the negotiated cipher in full:
    an 8-byte sequence number, and an IV and a key at least as long as
    what the code for that cipher reads. *)
Definition key_material_complete (env : environment) : Prop :=
  forall read rs,
    gnutls_record_get_state env read = (GNUTLS_E_SUCCESS, rs) ->
    length (rs_seq_number rs) = 8%nat /\
    (iv_bytes_read env (gnutls_cipher_get env) <= length (rs_iv rs))%nat /\
    (key_size_of (gnutls_cipher_get env) <= length (rs_cipher_key rs))%nat.

(** The kernel's name for a cipher of GnuTLS: the TLS_CIPHER_ constant
    of the case that [tlshd_initialize_ktls] has for it. *)
Definition kernel_cipher (c : Z) : Z :=
  if c =? GNUTLS_CIPHER_AES_128_GCM then TLS_CIPHER_AES_GCM_128
  else if c =? GNUTLS_CIPHER_AES_256_GCM then TLS_CIPHER_AES_GCM_256
  else if c =? GNUTLS_CIPHER_AES_128_CCM then TLS_CIPHER_AES_CCM_128
  else TLS_CIPHER_CHACHA20_POLY1305.

(** The events with which tlshd reports an error. *)
Definition is_error_event (e : event) : bool :=
  match e with
  | EvLog LOG_ERROR _ => true
  | EvPerror _ _ => true
  | EvGnutlsError _ => true
  | _ => false
  end.

(** A direction that this build can tell the library has offloaded. *)
Definition offloaded (cfg : build_config) (env : environment) (read : bool)
  : bool :=
  HAVE_GNUTLS_TRANSPORT_IS_KTLS_ENABLED cfg && library_reports_ktls env read.

(** Descriptor, level and option of the socket-option calls among a list
    of events. *)
Definition sockopt_targets (evs : list event) : list (Z * Z * Z) :=
  flat_map (fun e => match e with
                     | EvSetsockopt fd level optname _ _ => [(fd, level, optname)]
                     | _ => []
                     end) evs.

(** What [tlshd_setsockopt] logs when the kernel refuses with [errno]. *)
Definition setsockopt_failure (errno : Z) : event :=
  if (errno =? EBADF) || (errno =? ENOTSOCK) then
    EvLog LOG_ERROR "The kernel's socket file descriptor is no longer valid."
  else if (errno =? EINVAL) || (errno =? ENOENT) || (errno =? ENOPROTOOPT) then
    EvLog LOG_ERROR "The kernel does not support the requested algorithm."
  else EvPerror "setsockopt" errno.

(** The structure the code for cipher [c] fills in from the record
    state [rs]. *)
Definition filled_info (env : environment) (c : Z) (rs : record_state)
  : tls12_crypto_info :=
  let tls12 := gnutls_protocol_get_version env =? GNUTLS_TLS1_2 in
  {| info := {| version := if tls12 then TLS_1_2_VERSION else TLS_1_3_VERSION;
                cipher_type := kernel_cipher c |};
     iv := if is_aes_gcm_or_ccm c && tls12
           then firstn (iv_size_of c) (rs_seq_number rs)
           else firstn (iv_size_of c) (skipn (salt_size_of c) (rs_iv rs));
     key := firstn (key_size_of c) (rs_cipher_key rs);
     salt := firstn (salt_size_of c) (rs_iv rs);
     rec_seq := firstn 8 (rs_seq_number rs) |}.

(** Installing one direction, as a result and the events it adds to the
    history [hist]: nothing but a debug line for a direction the library
    has offloaded; otherwise the extraction of the key material and,
    when that succeeds, one call to the kernel. *)
Definition direction_outcome (cfg : build_config) (env : environment)
    (c sock : Z) (read : bool) (hist : list event) : bool * list event :=
  if offloaded cfg env read then
    (true, [EvLog LOG_DEBUG (ktls_enabled_message read)])
  else
    let '(r, rs) := gnutls_record_get_state env read in
    if r =? GNUTLS_E_SUCCESS then
      let i := filled_info env c rs in
      let answer := setsockopt env (hist ++ [EvRecordGetState read]) sock
                               SOL_TLS (tls_option read) (OptCryptoInfo i)
                               (sizeof_crypto_info i) in
      (fst answer =? 0,
       EvRecordGetState read
       :: EvSetsockopt sock SOL_TLS (tls_option read) (OptCryptoInfo i)
                       (sizeof_crypto_info i)
       :: (if fst answer =? 0 then [] else [setsockopt_failure (snd answer)]))
    else (false, [EvRecordGetState read; EvGnutlsError r]).

(** *** Priority strings *)

(** [l] with some elements left out, the others in place. *)
Inductive sublist {A} : list A -> list A -> Prop :=
| sublist_nil : sublist [] []
| sublist_skip x l1 l2 : sublist l1 l2 -> sublist l1 (x :: l2)
| sublist_keep x l1 l2 : sublist l1 l2 -> sublist (x :: l1) (x :: l2).

(** The keyword a cipher of the kernel's set has in a priority string. *)
Definition cipher_keyword (c : Z) : string :=
  if c =? GNUTLS_CIPHER_CHACHA20_POLY1305 then ":+CHACHA20-POLY1305"
  else if c =? GNUTLS_CIPHER_AES_256_GCM then ":+AES-256-GCM"
  else if c =? GNUTLS_CIPHER_AES_128_GCM then ":+AES-128-GCM"
  else if c =? GNUTLS_CIPHER_AES_128_CCM then ":+AES-128-CCM"
  else "".

(** The keywords of a list of ciphers, one after the other. *)
Fixpoint cipher_segment (l : list Z) : string :=
  match l with
  | [] => ""
  | c :: l' => cipher_keyword c +++ cipher_segment l'
  end.

Definition priority_prefix : string :=
  "SECURE256:+SECURE128:-COMP-ALL:-VERS-ALL:+VERS-TLS1.3:%NO_TICKETS:-CIPHER-ALL".

Definition psk_suffix : string := ":+PSK:+DHE-PSK:+ECDHE-PSK".

(** The strings handed to [gnutls_priority_init], in order ([None] for
    the NULL that asks for the library's default). *)
Definition compiled_strings (evs : list event) : list (option string) :=
  flat_map (fun e => match e with
                     | EvPriorityInit p _ => [p]
                     | _ => []
                     end) evs.

(** The priority objects that the calls of [gnutls_priority_init] among
    [evs] allocated, the first of them being [h], each with the string
    it was compiled from. *)
Fixpoint allocations (h : handle) (evs : list event)
  : list (handle * option string) :=
  match evs with
  | [] => []
  | EvPriorityInit p r :: rest =>
      if r =? GNUTLS_E_SUCCESS then (h, p) :: allocations (S h) rest
      else allocations h rest
  | _ :: rest => allocations h rest
  end.

(** The releases of the priority object [h]. *)
Definition releases (h : handle) (e : event) : bool :=
  match e with
  | EvPriorityDeinit (Some h') => Nat.eqb h h'
  | _ => false
  end.

(** No live priority object has a handle the library has yet to hand
    out. *)
Definition heap_fresh (s : state) : Prop :=
  forall h, In h (live_priorities s) -> (h < next_handle s)%nat.

(** *** The server handshake *)

(** The identities the loop stores for the certificates [certs]. *)
Definition peer_serials (env : environment) (certs : list gnutls_datum_t)
  : list Z :=
  map (fun c => tlshd_keyring_create_cert env c (gnutls_session_get_ptr env))
      certs.

Definition keyring_events (env : environment) (certs : list gnutls_datum_t)
  : list event :=
  map (fun c => EvKeyringCreateCert c
                  (tlshd_keyring_create_cert env c (gnutls_session_get_ptr env)))
      certs.

(** The two sessions server.c sets up. *)
Definition x509_session (env : environment) : gnutls_session_t :=
  {| retrieve_function := Some (tlshd_x509_retrieve_key_cb env);
     verify_function := Some (tlshd_server_x509_verify_function env);
     psk_server_credentials_function := None |}.

Definition psk_session (env : environment) : gnutls_session_t :=
  {| retrieve_function := None;
     verify_function := None;
     psk_server_credentials_function := Some (tlshd_server_psk_cb env) |}.

Definition server_session (env : environment) (session : gnutls_session_t)
  : Prop :=
  session = x509_session env \/ session = psk_session env.

(** The parameters as [tlshd_serverhello_handshake] leaves them when it
    reports [n] identities. *)
Definition with_peerids (parms : tlshd_handshake_parms) (n : Z)
  : tlshd_handshake_parms :=
  {| sockfd := sockfd parms;
     auth_mode := auth_mode parms;
     x509_cert := x509_cert parms;
     x509_privkey := x509_privkey parms;
     num_remote_peerids := n;
     remote_peerid := PtrTlshdRemotePeerid |}.

(** The priority [tlshd_gnutls_priority_set] selects. *)
Definition selected_priority (parms : tlshd_handshake_parms) (s : state)
  : option handle :=
  match auth_mode parms with
  | HANDSHAKE_AUTH_PSK => tlshd_gnutls_priority_psk s
  | _ => tlshd_gnutls_priority s
  end.

(** The handshake [tlshd_serverhello_handshake] runs for the
    authentication mode of [parms]. *)
Definition handshake_of_mode (env : environment)
    (helper : gnutls_session_t -> tlshd_handshake_parms -> M unit)
    (parms : tlshd_handshake_parms) : M unit :=
  match auth_mode parms with
  | HANDSHAKE_AUTH_X509 => tlshd_server_x509_handshake env helper parms
  | HANDSHAKE_AUTH_PSK => tlshd_server_psk_handshake env helper parms
  | _ => tlshd_log_debug "Unrecognized auth mode (%d)"
  end.

(** What a PSK lookup leaves in the trace: its search of the keyring,
    and an error line when it fails. *)
Definition is_psk_lookup_event (e : event) : bool :=
  match e with
  | EvKeyctlSearch _ => true
  | EvLog LOG_ERROR _ => true
  | _ => false
  end.

(** The imports of a peer certificate into the keyring. *)
Definition is_keyring_create (e : event) : bool :=
  match e with EvKeyringCreateCert _ _ => true | _ => false end.

(** The value of a variable after a call that was handed its address. *)
Definition stored {A} (old : A) (out : option A) : A :=
  match out with
  | Some v => v
  | None => old
  end.

(** The call that obtains the server's certificate for [parms]: its
    answer, and the event it leaves. *)
Definition server_cert_answer (env : environment)
    (parms : tlshd_handshake_parms) : bool * option gnutls_pcert_st :=
  if x509_cert parms =? TLS_NO_CERT then tlshd_config_get_server_cert env
  else tlshd_keyring_get_cert env (x509_cert parms).

Definition server_cert_event (env : environment)
    (parms : tlshd_handshake_parms) : event :=
  if x509_cert parms =? TLS_NO_CERT
  then EvConfigGetServerCert (fst (tlshd_config_get_server_cert env))
  else EvKeyringGetCert (x509_cert parms)
                        (fst (tlshd_keyring_get_cert env (x509_cert parms))).

(** The same for the private key, [k] being the value of
    [tlshd_server_privkey] at the call.  The call into the keyring is
    handed [k] and no pointer, and stores nothing. *)
Definition server_privkey_answer (env : environment)
    (parms : tlshd_handshake_parms) (k : gnutls_privkey_t)
  : bool * option gnutls_privkey_t :=
  if x509_privkey parms =? TLS_NO_PRIVKEY
  then tlshd_config_get_server_privkey env
  else (tlshd_keyring_get_privkey env (x509_privkey parms) k, None).

Definition server_privkey_event (env : environment)
    (parms : tlshd_handshake_parms) (k : gnutls_privkey_t) : event :=
  if x509_privkey parms =? TLS_NO_PRIVKEY
  then EvConfigGetServerPrivkey (fst (tlshd_config_get_server_privkey env))
  else EvKeyringGetPrivkey
         (x509_privkey parms) k
         (tlshd_keyring_get_privkey env (x509_privkey parms) k).

(** The events that allocate or release what the library hands out to
    server.c, its global state, credentials and sessions, and the calls
    that obtained the server's certificate or private key. *)
Definition lifecycle (e : event) : bool :=
  match e with
  | EvGlobalInit | EvGlobalDeinit => true
  | EvCredAlloc | EvCredFree => true
  | EvSessionInit | EvSessionDeinit => true
  | EvKeyringGetCert _ r | EvConfigGetServerCert r => r
  | EvKeyringGetPrivkey _ _ r | EvConfigGetServerPrivkey r => r
  | _ => false
  end.

(** The lines [tlshd_x509_log_issuers] logs: one for each name that
    could be rendered, with the index of the name in the request. *)
Definition issuer_lines (req_ca_rdn : list (option string)) : list event :=
  flat_map (fun io : nat * option string =>
              match snd io with
              | Some issuer_dn =>
                  [EvLog LOG_DEBUG
                         ("   [" +++ decimal (fst io) +++ "]: " +++ issuer_dn)]
              | None => []
              end)
           (combine (seq 0 (length req_ca_rdn)) req_ca_rdn).

(** *** Runs *)

(** [m] always returns, and changes nothing but the trace. *)
Definition emits_only {A} (m : M A) : Prop :=
  forall s, exists a evs, m s = Some (a, with_trace s (trace s ++ evs)).

(** The array of server.c has its ten entries and the count is within
    it. *)
Definition wf (s : state) : Prop :=
  length (tlshd_remote_peerid s) = 10%nat /\
  0 <= tlshd_num_remote_peerids s <= 10.

(** From a well-formed state [m] always returns. *)
Definition returns {A} (m : M A) : Prop :=
  forall s, wf s -> exists a s', m s = Some (a, s').

(** From a well-formed state [m] always returns, in a well-formed
    state. *)
Definition safe {A} (m : M A) : Prop :=
  forall s, wf s -> exists a s', m s = Some (a, s') /\ wf s'.

(** [m] returns from a well-formed state, and adds to the trace without
    allocating or releasing anything. *)
Definition lifecycle_neutral {A} (m : M A) : Prop :=
  forall s, wf s ->
    exists a s' evs, m s = Some (a, s') /\ trace s' = trace s ++ evs /\
                     filter lifecycle evs = [].

(** ** Sample environments *)

Definition bytes_from (b : byte) (n : nat) : list byte := repeat b n.

(** A TLS 1.3 record state: 12 bytes of IV, a 32-byte key. *)
Definition sample_record_state : record_state :=
  {| rs_mac_key := [];
     rs_iv := bytes_from x0a 4 ++ bytes_from x0b 8;
     rs_cipher_key := bytes_from x0c 32;
     rs_seq_number := [x00; x00; x00; x00; x00; x00; x00; x07] |}.

(** A TLS 1.2 record state for AES-128-GCM: GnuTLS hands out the 4-byte
    implicit part of the IV. *)
Definition tls12_record_state : record_state :=
  {| rs_mac_key := [];
     rs_iv := bytes_from x0a 4;
     rs_cipher_key := bytes_from x0c 16;
     rs_seq_number := [x00; x00; x00; x00; x00; x00; x00; x07] |}.

Definition kernel_accepts : list event -> Z -> Z -> Z -> optval -> Z -> Z * Z :=
  fun _ _ _ _ _ _ => (0, 0).

Definition kernel_refuses (errno : Z)
  : list event -> Z -> Z -> Z -> optval -> Z -> Z * Z :=
  fun _ _ _ _ _ _ => (-1, errno).

(** The server's certificate, and the address of its private key. *)
Definition sample_server_cert : gnutls_pcert_st := bytes_from x30 64.

Definition sample_server_privkey : gnutls_privkey_t := 4096.

(** An environment in which everything not listed succeeds. *)
Definition sample_env (ktls_enabled tls_version cipher : Z)
    (rs : record_state)
    (kernel : list event -> Z -> Z -> Z -> optval -> Z -> Z * Z)
    (cipher_list : Z * list Z)
    (verify : Z * Z) (peers : option (list gnutls_datum_t))
    (search : string -> Z) (callbacks : list hs_callback) : environment :=
  {| gnutls_transport_is_ktls_enabled := ktls_enabled;
     gnutls_record_get_state := fun _ => (GNUTLS_E_SUCCESS, rs);
     gnutls_protocol_get_version := tls_version;
     gnutls_cipher_get := cipher;
     gnutls_transport_get_int := 3;
     gnutls_transport_get_int2 := (3, 3);
     setsockopt := kernel;
     gnutls_priority_init := fun _ => GNUTLS_E_SUCCESS;
     gnutls_priority_cipher_list := cipher_list;
     gnutls_priority_set := fun _ => GNUTLS_E_SUCCESS;
     gnutls_global_init := GNUTLS_E_SUCCESS;
     gnutls_certificate_allocate_credentials := GNUTLS_E_SUCCESS;
     gnutls_certificate_set_x509_system_trust := 140;
     tlshd_keyring_get_cert := fun _ => (true, Some sample_server_cert);
     tlshd_config_get_server_cert := (true, Some sample_server_cert);
     tlshd_keyring_get_privkey := fun _ _ => true;
     tlshd_config_get_server_privkey := (true, Some sample_server_privkey);
     gnutls_psk_allocate_server_credentials := GNUTLS_E_SUCCESS;
     gnutls_init := GNUTLS_E_SUCCESS;
     gnutls_session_get_ptr := None;
     gnutls_certificate_verify_peers3 := verify;
     gnutls_certificate_type_get := GNUTLS_CRT_X509;
     gnutls_certificate_verification_status_print := fun _ _ => "status"%string;
     gnutls_certificate_get_peers := peers;
     tlshd_keyring_create_cert :=
       fun cert _ => 1000 + Z.of_nat (length cert);
     keyctl_search := search;
     tlshd_keyring_get_psk_key := fun _ => Some (bytes_from x5a 16);
     hs_callbacks := callbacks;
     hs_result := GNUTLS_E_SUCCESS;
     hs_abort := 1%positive |}.

(** TLS 1.3 with AES-128-GCM, nothing offloaded by the library. *)
Definition tls13_env (ktls_enabled : Z)
    (kernel : list event -> Z -> Z -> Z -> optval -> Z -> Z * Z)
    (cipher_list : Z * list Z)
    (verify : Z * Z) (peers : option (list gnutls_datum_t))
    (search : string -> Z) (callbacks : list hs_callback) : environment :=
  sample_env ktls_enabled GNUTLS_TLS1_3 GNUTLS_CIPHER_AES_128_GCM
             sample_record_state kernel cipher_list verify peers search
             callbacks.

Definition plain_env
    (kernel : list event -> Z -> Z -> Z -> optval -> Z -> Z * Z)
  : environment :=
  tls13_env 0 kernel (0, []) (GNUTLS_E_SUCCESS, 0) None (fun _ => 77) [].

(** A kernel with the tls module but without the cipher. *)
Definition kernel_without_cipher
  : list event -> Z -> Z -> Z -> optval -> Z -> Z * Z :=
  fun _ _ level _ _ _ => if level =? SOL_TLS then (-1, ENOPROTOOPT) else (0, 0).

(** TLS 1.3 with ChaCha20-Poly1305, and with a cipher the kernel does
    not know (AES-256-CCM). *)
Definition chacha_env : environment :=
  sample_env 0 GNUTLS_TLS1_3 GNUTLS_CIPHER_CHACHA20_POLY1305
             sample_record_state kernel_accepts (0, [])
             (GNUTLS_E_SUCCESS, 0) None (fun _ => 77) [].

Definition aes256ccm_env : environment :=
  sample_env 0 GNUTLS_TLS1_3 20 sample_record_state kernel_accepts (0, [])
             (GNUTLS_E_SUCCESS, 0) None (fun _ => 77) [].

(** The structure for AES-128-GCM from [sample_record_state]. *)
Definition sample_gcm128_info : tls12_crypto_info :=
  {| info := {| version := TLS_1_3_VERSION;
                cipher_type := TLS_CIPHER_AES_GCM_128 |};
     iv := bytes_from x0b 8;
     key := bytes_from x0c 16;
     salt := bytes_from x0a 4;
     rec_seq := [x00; x00; x00; x00; x00; x00; x00; x07] |}.

(** The library has offloaded both directions itself. *)
Definition offloaded_env : environment :=
  tls13_env (Z.lor GNUTLS_KTLS_RECV GNUTLS_KTLS_SEND) kernel_accepts
            (0, []) (GNUTLS_E_SUCCESS, 0) None (fun _ => 77) [].

(** TLS 1.2 with AES-128-GCM. *)
Definition tls12_env : environment :=
  sample_env 0 GNUTLS_TLS1_2 GNUTLS_CIPHER_AES_128_GCM tls12_record_state
             kernel_accepts (0, []) (GNUTLS_E_SUCCESS, 0) None
             (fun _ => 77) [].

(** A library list with ciphers the kernel does not know in between. *)
Definition library_ciphers : list Z :=
  [GNUTLS_CIPHER_AES_256_GCM; 20; GNUTLS_CIPHER_CHACHA20_POLY1305; 5;
   GNUTLS_CIPHER_AES_128_GCM; 4; GNUTLS_CIPHER_AES_128_CCM; 21].

Definition priority_env : environment :=
  tls13_env 0 kernel_accepts (8, library_ciphers) (GNUTLS_E_SUCCESS, 0) None
            (fun _ => 77) [].

(** A list in which one cipher of the kernel's set comes sixty times. *)
Definition repeated_ciphers : list Z :=
  repeat GNUTLS_CIPHER_CHACHA20_POLY1305 60.

Definition repeated_env : environment :=
  tls13_env 0 kernel_accepts (60, repeated_ciphers) (GNUTLS_E_SUCCESS, 0)
            None (fun _ => 77) [].

(** A verified peer offers fifteen certificates. *)
Definition fifteen_certs : list gnutls_datum_t :=
  map (fun n => bytes_from x30 n) (seq 1 15).

Definition fifteen_env : environment :=
  tls13_env 0 kernel_accepts (0, []) (GNUTLS_E_SUCCESS, 0)
            (Some fifteen_certs) (fun _ => 77) [CbVerifyPeer].

(** Verification succeeds but GnuTLS has no certificate list. *)
Definition no_list_env : environment :=
  tls13_env 0 kernel_accepts (0, []) (GNUTLS_E_SUCCESS, 0) None
            (fun _ => 77) [CbVerifyPeer].

(** The peer offered no certificate. *)
Definition no_cert_env : environment :=
  tls13_env 0 kernel_accepts (0, []) (GNUTLS_E_NO_CERTIFICATE_FOUND, 0) None
            (fun _ => 77) [CbVerifyPeer].

(** The client claims to be alice, of whom the keyring knows nothing. *)
Definition alice_env : environment :=
  tls13_env 0 kernel_accepts (0, []) (GNUTLS_E_SUCCESS, 0) None
            (fun _ => -1) [CbPskLookup "alice"].

(** The client offers the identities bob and alice; the keyring knows
    bob only. *)
Definition bob_then_alice_env : environment :=
  tls13_env 0 kernel_accepts (0, []) (GNUTLS_E_SUCCESS, 0) None
            (fun u => if String.eqb u "alice" then -1 else 77)
            [CbPskLookup "bob"; CbPskLookup "alice"].

(** A keyring whose search answers with a serial that does not fit
    [key_serial_t]. *)
Definition wide_serial_env : environment :=
  tls13_env 0 kernel_accepts (0, []) (GNUTLS_E_SUCCESS, 0) None
            (fun _ => 2147483725) [CbPskLookup "carol"].

Definition sample_parms (mode : handshake_auth) : tlshd_handshake_parms :=
  {| sockfd := 3; auth_mode := mode;
     x509_cert := TLS_NO_CERT; x509_privkey := TLS_NO_PRIVKEY;
     num_remote_peerids := 0; remote_peerid := PtrCaller 0 |}.

Definition fifteen_parms : tlshd_handshake_parms :=
  with_peerids (sample_parms HANDSHAKE_AUTH_X509) 10.

(** A build against kernel headers that lack ChaCha20-Poly1305. *)
Definition build_without_chacha : build_config :=
  {| HAVE_GNUTLS_TRANSPORT_IS_KTLS_ENABLED := true;
     defined_TLS_CIPHER_AES_GCM_128 := true;
     defined_TLS_CIPHER_AES_GCM_256 := true;
     defined_TLS_CIPHER_AES_CCM_128 := true;
     defined_TLS_CIPHER_CHACHA20_POLY1305 := false |}.

(** [env] with other answers from the session: whether the library has
    offloaded, the result of [gnutls_record_get_state], and the
    descriptors of the transport. *)
Definition with_session (env : environment) (ktls_enabled state_code : Z)
    (fd sockin sockout : Z) : environment :=
  {| gnutls_transport_is_ktls_enabled := ktls_enabled;
     gnutls_record_get_state :=
       fun read => (state_code, snd (gnutls_record_get_state env read));
     gnutls_protocol_get_version := gnutls_protocol_get_version env;
     gnutls_cipher_get := gnutls_cipher_get env;
     gnutls_transport_get_int := fd;
     gnutls_transport_get_int2 := (sockin, sockout);
     setsockopt := setsockopt env;
     gnutls_priority_init := gnutls_priority_init env;
     gnutls_priority_cipher_list := gnutls_priority_cipher_list env;
     gnutls_priority_set := gnutls_priority_set env;
     gnutls_global_init := gnutls_global_init env;
     gnutls_certificate_allocate_credentials :=
       gnutls_certificate_allocate_credentials env;
     gnutls_certificate_set_x509_system_trust :=
       gnutls_certificate_set_x509_system_trust env;
     tlshd_keyring_get_cert := tlshd_keyring_get_cert env;
     tlshd_config_get_server_cert := tlshd_config_get_server_cert env;
     tlshd_keyring_get_privkey := tlshd_keyring_get_privkey env;
     tlshd_config_get_server_privkey := tlshd_config_get_server_privkey env;
     gnutls_psk_allocate_server_credentials :=
       gnutls_psk_allocate_server_credentials env;
     gnutls_init := gnutls_init env;
     gnutls_session_get_ptr := gnutls_session_get_ptr env;
     gnutls_certificate_verify_peers3 := gnutls_certificate_verify_peers3 env;
     gnutls_certificate_type_get := gnutls_certificate_type_get env;
     gnutls_certificate_verification_status_print :=
       gnutls_certificate_verification_status_print env;
     gnutls_certificate_get_peers := gnutls_certificate_get_peers env;
     tlshd_keyring_create_cert := tlshd_keyring_create_cert env;
     keyctl_search := keyctl_search env;
     tlshd_keyring_get_psk_key := tlshd_keyring_get_psk_key env;
     hs_callbacks := hs_callbacks env;
     hs_result := hs_result env;
     hs_abort := hs_abort env |}.

(** [env] with another priority compiler. *)
Definition with_priority_compiler (env : environment)
    (compile : option string -> Z) : environment :=
  {| gnutls_transport_is_ktls_enabled := gnutls_transport_is_ktls_enabled env;
     gnutls_record_get_state := gnutls_record_get_state env;
     gnutls_protocol_get_version := gnutls_protocol_get_version env;
     gnutls_cipher_get := gnutls_cipher_get env;
     gnutls_transport_get_int := gnutls_transport_get_int env;
     gnutls_transport_get_int2 := gnutls_transport_get_int2 env;
     setsockopt := setsockopt env;
     gnutls_priority_init := compile;
     gnutls_priority_cipher_list := gnutls_priority_cipher_list env;
     gnutls_priority_set := gnutls_priority_set env;
     gnutls_global_init := gnutls_global_init env;
     gnutls_certificate_allocate_credentials :=
       gnutls_certificate_allocate_credentials env;
     gnutls_certificate_set_x509_system_trust :=
       gnutls_certificate_set_x509_system_trust env;
     tlshd_keyring_get_cert := tlshd_keyring_get_cert env;
     tlshd_config_get_server_cert := tlshd_config_get_server_cert env;
     tlshd_keyring_get_privkey := tlshd_keyring_get_privkey env;
     tlshd_config_get_server_privkey := tlshd_config_get_server_privkey env;
     gnutls_psk_allocate_server_credentials :=
       gnutls_psk_allocate_server_credentials env;
     gnutls_init := gnutls_init env;
     gnutls_session_get_ptr := gnutls_session_get_ptr env;
     gnutls_certificate_verify_peers3 := gnutls_certificate_verify_peers3 env;
     gnutls_certificate_type_get := gnutls_certificate_type_get env;
     gnutls_certificate_verification_status_print :=
       gnutls_certificate_verification_status_print env;
     gnutls_certificate_get_peers := gnutls_certificate_get_peers env;
     tlshd_keyring_create_cert := tlshd_keyring_create_cert env;
     keyctl_search := keyctl_search env;
     tlshd_keyring_get_psk_key := tlshd_keyring_get_psk_key env;
     hs_callbacks := hs_callbacks env;
     hs_result := hs_result env;
     hs_abort := hs_abort env |}.

(** [env] with other answers while a handshake is set up. *)
Definition with_server_setup (env : environment)
    (global alloc trust : Z)
    (keyring_cert config_cert : bool * option gnutls_pcert_st)
    (keyring_privkey : bool)
    (config_privkey : bool * option gnutls_privkey_t)
    (psk_alloc init : Z) : environment :=
  {| gnutls_transport_is_ktls_enabled := gnutls_transport_is_ktls_enabled env;
     gnutls_record_get_state := gnutls_record_get_state env;
     gnutls_protocol_get_version := gnutls_protocol_get_version env;
     gnutls_cipher_get := gnutls_cipher_get env;
     gnutls_transport_get_int := gnutls_transport_get_int env;
     gnutls_transport_get_int2 := gnutls_transport_get_int2 env;
     setsockopt := setsockopt env;
     gnutls_priority_init := gnutls_priority_init env;
     gnutls_priority_cipher_list := gnutls_priority_cipher_list env;
     gnutls_priority_set := gnutls_priority_set env;
     gnutls_global_init := global;
     gnutls_certificate_allocate_credentials := alloc;
     gnutls_certificate_set_x509_system_trust := trust;
     tlshd_keyring_get_cert := fun _ => keyring_cert;
     tlshd_config_get_server_cert := config_cert;
     tlshd_keyring_get_privkey := fun _ _ => keyring_privkey;
     tlshd_config_get_server_privkey := config_privkey;
     gnutls_psk_allocate_server_credentials := psk_alloc;
     gnutls_init := init;
     gnutls_session_get_ptr := gnutls_session_get_ptr env;
     gnutls_certificate_verify_peers3 := gnutls_certificate_verify_peers3 env;
     gnutls_certificate_type_get := gnutls_certificate_type_get env;
     gnutls_certificate_verification_status_print :=
       gnutls_certificate_verification_status_print env;
     gnutls_certificate_get_peers := gnutls_certificate_get_peers env;
     tlshd_keyring_create_cert := tlshd_keyring_create_cert env;
     keyctl_search := keyctl_search env;
     tlshd_keyring_get_psk_key := tlshd_keyring_get_psk_key env;
     hs_callbacks := hs_callbacks env;
     hs_result := hs_result env;
     hs_abort := hs_abort env |}.

(** The library cannot hand out the key material. *)
Definition no_record_state_env : environment :=
  with_session (plain_env kernel_accepts) 0 (-50) 3 3 3.

(** The library has offloaded sending only, and the session reads from
    descriptor 4 and writes to descriptor 5. *)
Definition send_offloaded_env : environment :=
  with_session (plain_env kernel_accepts) GNUTLS_KTLS_SEND GNUTLS_E_SUCCESS
               3 4 5.

(** TLS 1.3 with AES-128-GCM, but an IV datum of four bytes. *)
Definition short_iv_env : environment :=
  sample_env 0 GNUTLS_TLS1_3 GNUTLS_CIPHER_AES_128_GCM tls12_record_state
             kernel_accepts (0, []) (GNUTLS_E_SUCCESS, 0) None
             (fun _ => 77) [].

(** A library that compiles no string of more than a hundred
    characters: with an empty cipher list the normal string compiles
    and the PSK string does not. *)
Definition psk_refused_env : environment :=
  with_priority_compiler (plain_env kernel_accepts)
    (fun p => match p with
              | Some str => if (100 <? String.length str)%nat then -50
                            else GNUTLS_E_SUCCESS
              | None => GNUTLS_E_SUCCESS
              end).

(** The chain of the peer verifies with a non-zero status. *)
Definition bad_status_env : environment :=
  tls13_env 0 kernel_accepts (0, []) (GNUTLS_E_SUCCESS, 2)
            (Some fifteen_certs) (fun _ => 77) [CbVerifyPeer].

(** The keyring cannot supply a certificate; the configuration has
    one. *)
Definition no_keyring_cert_env : environment :=
  with_server_setup (plain_env kernel_accepts) GNUTLS_E_SUCCESS
                    GNUTLS_E_SUCCESS 140
                    (false, None) (true, Some sample_server_cert)
                    true (true, Some sample_server_privkey)
                    GNUTLS_E_SUCCESS GNUTLS_E_SUCCESS.

(** Parameters that name a certificate and a private key in the
    keyring. *)
Definition keyring_parms : tlshd_handshake_parms :=
  {| sockfd := 3; auth_mode := HANDSHAKE_AUTH_X509;
     x509_cert := 1234; x509_privkey := 1235;
     num_remote_peerids := 0; remote_peerid := PtrCaller 0 |}.

(** The library cannot create a session. *)
Definition no_session_env : environment :=
  with_server_setup (plain_env kernel_accepts) GNUTLS_E_SUCCESS
                    GNUTLS_E_SUCCESS 140
                    (true, Some sample_server_cert)
                    (true, Some sample_server_cert)
                    true (true, Some sample_server_privkey)
                    GNUTLS_E_SUCCESS (-25).

(** The library cannot be initialised. *)
Definition no_library_env : environment :=
  with_server_setup (plain_env kernel_accepts) (-50)
                    GNUTLS_E_SUCCESS 140
                    (true, Some sample_server_cert)
                    (true, Some sample_server_cert)
                    true (true, Some sample_server_privkey)
                    GNUTLS_E_SUCCESS GNUTLS_E_SUCCESS.

(** A handshake helper that does nothing. *)
Definition idle_helper (session : gnutls_session_t)
    (parms : tlshd_handshake_parms) : M unit :=
  ret tt.

(** ** Lemmas and theorems *)

(** *** Reasoning about runs *)

Lemma with_trace_same s : with_trace s (trace s) = s.
Proof. destruct s; reflexivity. Qed.

Lemma bind_run {A B} (m : M A) (k : A -> M B) (s s1 : state) (a : A) :
  m s = Some (a, s1) -> bind m k s = k a s1.
Proof. intros H. unfold bind. rewrite H. reflexivity. Qed.

Lemma bind_bind {A B C} (m : M A) (k : A -> M B) (h : B -> M C) (s : state) :
  bind (bind m k) h s = bind m (fun a => bind (k a) h) s.
Proof. unfold bind. destruct (m s) as [[a s1]|]; reflexivity. Qed.

(** Normalise a state built by the field updates. *)
Ltac norm :=
  cbn [trace tlshd_num_remote_peerids tlshd_remote_peerid
       tlshd_gnutls_priority tlshd_gnutls_priority_psk live_priorities
       next_handle tlshd_server_privkey tlshd_server_cert
       with_trace with_heap with_priority with_priority_psk
       with_num_remote_peerids with_remote_peerid
       with_server_privkey with_server_cert fst snd].

Tactic Notation "norm" "in" hyp(H) :=
  cbn [trace tlshd_num_remote_peerids tlshd_remote_peerid
       tlshd_gnutls_priority tlshd_gnutls_priority_psk live_priorities
       next_handle tlshd_server_privkey tlshd_server_cert
       with_trace with_heap with_priority with_priority_psk
       with_num_remote_peerids with_remote_peerid
       with_server_privkey with_server_cert fst snd] in H.

(** Run the first action of a sequence: by computation, or with a
    lemma about that action. *)
Ltac step := rewrite ?bind_bind; erewrite bind_run; [|reflexivity].

Tactic Notation "step" "by" tactic(t) :=
  rewrite ?bind_bind; erewrite bind_run; [|solve [t]].

Lemma strcat_run (cap : nat) (a b : string) (s : state) :
  (String.length a + String.length b + 1 <= cap)%nat ->
  strcat cap a b s = Some (a +++ b, s).
Proof.
  intros H. unfold strcat. rewrite (proj2 (Nat.leb_le _ _) H). reflexivity.
Qed.

Lemma memcpy_zeroed (src : list byte) (n : nat) (s : state) :
  (n <= length src)%nat ->
  memcpy (repeat x00 n) src n s = Some (firstn n src, s).
Proof.
  intros H. unfold memcpy. rewrite repeat_length.
  rewrite (proj2 (Nat.leb_le n (length src)) H), Nat.leb_refl. cbn.
  unfold ret. rewrite skipn_all2 by (rewrite repeat_length; lia).
  rewrite app_nil_r. reflexivity.
Qed.

Lemma array_set_run (a : list Z) (i : nat) (v : Z) (s : state) :
  (i < length a)%nat ->
  array_set a i v s = Some (firstn i a ++ v :: skipn (S i) a, s).
Proof.
  intros H. unfold array_set. rewrite (proj2 (Nat.ltb_lt _ _) H). reflexivity.
Qed.

Lemma length_array_update (a : list Z) (i : nat) (v : Z) :
  (i < length a)%nat -> length (firstn i a ++ v :: skipn (S i) a) = length a.
Proof.
  intros H. rewrite length_app, length_firstn. cbn [length].
  rewrite length_skipn. lia.
Qed.

Lemma skipn_cons_nth {A} (l : list A) (i : nat) (c : A) :
  nth_error l i = Some c -> skipn i l = c :: skipn (S i) l.
Proof.
  revert i. induction l as [|x l IH]; intros [|i] H; cbn in *;
    try discriminate.
  - inversion H. reflexivity.
  - apply IH. exact H.
Qed.

Lemma string_length_append (a b : string) :
  String.length (a +++ b) = (String.length a + String.length b)%nat.
Proof. induction a as [|c a IH]; cbn; [reflexivity|]. rewrite IH. reflexivity. Qed.

Lemma string_append_assoc (a b c : string) : (a +++ b) +++ c = a +++ (b +++ c).
Proof. induction a as [|x a IH]; cbn; [reflexivity|]. rewrite IH. reflexivity. Qed.

Lemma string_append_empty_r (a : string) : a +++ EmptyString = a.
Proof. induction a as [|x a IH]; cbn; [reflexivity|]. rewrite IH. reflexivity. Qed.

Lemma sublist_filter {A} (f : A -> bool) (l : list A) : sublist (filter f l) l.
Proof.
  induction l as [|x l IH]; cbn; [constructor|].
  destruct (f x); constructor; exact IH.
Qed.

(** *** Actions that only add events, and actions that keep the state
    well formed *)

Lemma emits_only_ret {A} (a : A) : emits_only (ret a).
Proof.
  intros s. exists a, []. unfold ret. rewrite app_nil_r, with_trace_same.
  reflexivity.
Qed.

Lemma emits_only_emit (e : event) : emits_only (emit e).
Proof. intros s. exists tt, [e]. reflexivity. Qed.

Lemma emits_only_get : emits_only get.
Proof.
  intros s. exists s, []. unfold get. rewrite app_nil_r, with_trace_same.
  reflexivity.
Qed.

Lemma emits_only_bind {A B} (m : M A) (k : A -> M B) :
  emits_only m -> (forall a, emits_only (k a)) -> emits_only (bind m k).
Proof.
  intros Hm Hk s. destruct (Hm s) as (a & evs & Hrun).
  destruct (Hk a (with_trace s (trace s ++ evs))) as (b & evs' & Hrun').
  exists b, (evs ++ evs'). unfold bind. rewrite Hrun, Hrun'. norm.
  rewrite app_assoc. reflexivity.
Qed.

Lemma emits_only_memcpy (dst src : list byte) (n : nat) :
  (n <= length src)%nat -> (n <= length dst)%nat ->
  emits_only (memcpy dst src n).
Proof.
  intros H1 H2. unfold memcpy.
  rewrite (proj2 (Nat.leb_le _ _) H1), (proj2 (Nat.leb_le _ _) H2).
  apply emits_only_ret.
Qed.

Ltac emits :=
  repeat first
    [ apply emits_only_ret | apply emits_only_emit | apply emits_only_get
    | apply emits_only_bind; [|intros ?]
    | match goal with
      | |- emits_only (if ?b then _ else _) => destruct b
      | |- emits_only (let '(_, _) := ?p in _) => destruct p
      | |- emits_only (match ?x with Some _ => _ | None => _ end) => destruct x
      end ].

Lemma safe_ret {A} (a : A) : safe (ret a).
Proof. intros s H. exists a, s. auto. Qed.

Lemma safe_bind {A B} (m : M A) (k : A -> M B) :
  safe m -> (forall a, safe (k a)) -> safe (bind m k).
Proof.
  intros Hm Hk s Hs. destruct (Hm s Hs) as (a & s1 & Hrun & H1).
  destruct (Hk a s1 H1) as (b & s2 & Hrun' & H2).
  exists b, s2. unfold bind. rewrite Hrun. auto.
Qed.

Lemma emits_only_safe {A} (m : M A) : emits_only m -> safe m.
Proof.
  intros Hm s Hs. destruct (Hm s) as (a & evs & Hrun).
  exists a, (with_trace s (trace s ++ evs)). split; [exact Hrun|exact Hs].
Qed.

Lemma safe_returns {A} (m : M A) : safe m -> returns m.
Proof.
  intros Hm s Hs. destruct (Hm s Hs) as (a & s' & Hrun & _). eauto.
Qed.

Lemma emits_only_returns {A} (m : M A) : emits_only m -> returns m.
Proof. intros Hm. apply safe_returns, emits_only_safe, Hm. Qed.

Lemma returns_after_emits {A B} (m : M A) (k : A -> M B) :
  emits_only m -> (forall a, returns (k a)) -> returns (bind m k).
Proof.
  intros Hm Hk s Hs. destruct (Hm s) as (a & evs & Hrun).
  destruct (Hk a (with_trace s (trace s ++ evs)) Hs) as (b & s' & Hrun').
  exists b, s'. unfold bind. rewrite Hrun. exact Hrun'.
Qed.

Lemma returns_then_emits {A B} (m : M A) (k : A -> M B) :
  returns m -> (forall a, emits_only (k a)) -> returns (bind m k).
Proof.
  intros Hm Hk s Hs. destruct (Hm s Hs) as (a & s1 & Hrun).
  destruct (Hk a s1) as (b & evs & Hrun').
  exists b, (with_trace s1 (trace s1 ++ evs)). unfold bind.
  rewrite Hrun. exact Hrun'.
Qed.

Ltac sizes :=
  unfold TLS_CIPHER_AES_GCM_128_IV_SIZE, TLS_CIPHER_AES_GCM_128_KEY_SIZE,
    TLS_CIPHER_AES_GCM_128_SALT_SIZE, TLS_CIPHER_AES_GCM_128_REC_SEQ_SIZE,
    TLS_CIPHER_AES_GCM_256_IV_SIZE, TLS_CIPHER_AES_GCM_256_KEY_SIZE,
    TLS_CIPHER_AES_GCM_256_SALT_SIZE, TLS_CIPHER_AES_GCM_256_REC_SEQ_SIZE,
    TLS_CIPHER_AES_CCM_128_IV_SIZE, TLS_CIPHER_AES_CCM_128_KEY_SIZE,
    TLS_CIPHER_AES_CCM_128_SALT_SIZE, TLS_CIPHER_AES_CCM_128_REC_SEQ_SIZE,
    TLS_CIPHER_CHACHA20_POLY1305_IV_SIZE,
    TLS_CIPHER_CHACHA20_POLY1305_KEY_SIZE,
    TLS_CIPHER_CHACHA20_POLY1305_SALT_SIZE,
    TLS_CIPHER_CHACHA20_POLY1305_REC_SEQ_SIZE in *;
  lia.

(** *** The installer *)

Section Installer.

Variable cfg : build_config.
Variable env : environment.

Lemma is_ktls_enabled_true (read : bool) (s : state) :
  HAVE_GNUTLS_TRANSPORT_IS_KTLS_ENABLED cfg = true ->
  library_reports_ktls env read = true ->
  tlshd_is_ktls_enabled cfg env read s
  = Some (true, with_trace s (trace s
                              ++ [EvLog LOG_DEBUG (ktls_enabled_message read)])).
Proof.
  intros Hcfg H. unfold tlshd_is_ktls_enabled. rewrite Hcfg.
  unfold library_reports_ktls in H.
  apply andb_true_iff in H. destruct H as [H1 H2].
  apply negb_true_iff in H1. apply negb_true_iff in H2.
  rewrite H1. destruct read; rewrite H2; reflexivity.
Qed.

Lemma is_ktls_enabled_false (read : bool) (s : state) :
  HAVE_GNUTLS_TRANSPORT_IS_KTLS_ENABLED cfg && library_reports_ktls env read
  = false ->
  tlshd_is_ktls_enabled cfg env read s = Some (false, s).
Proof.
  intros H. unfold tlshd_is_ktls_enabled.
  destruct (HAVE_GNUTLS_TRANSPORT_IS_KTLS_ENABLED cfg); [|reflexivity].
  rewrite andb_true_l in H. unfold library_reports_ktls in H.
  destruct (gnutls_transport_is_ktls_enabled env
            =? GNUTLS_E_UNIMPLEMENTED_FEATURE); [reflexivity|].
  rewrite andb_true_l in H. apply negb_false_iff in H.
  destruct read; rewrite H; reflexivity.
Qed.

Lemma tlshd_setsockopt_run (sock : Z) (read : bool) (i : tls12_crypto_info)
    (len : Z) (s : state) :
  exists b evs,
    tlshd_setsockopt env sock read i len s
    = Some (b, with_trace s
                 (trace s ++ EvSetsockopt sock SOL_TLS (tls_option read)
                                          (OptCryptoInfo i) len :: evs)) /\
    sockopt_calls evs = [].
Proof.
  unfold tlshd_setsockopt, sys_setsockopt.
  unfold bind at 1 2 3. unfold get, emit, ret at 1. cbn.
  fold (tls_option read).
  destruct (setsockopt env (trace s) sock SOL_TLS (tls_option read)
                       (OptCryptoInfo i) len) as [r errno].
  destruct (r =? 0).
  - exists true, []. split; reflexivity.
  - destruct ((errno =? EBADF) || (errno =? ENOTSOCK));
      [|destruct ((errno =? EINVAL) || (errno =? ENOENT)
                  || (errno =? ENOPROTOOPT))];
      eexists false, [_]; (split; [cbn; rewrite <- app_assoc|]; reflexivity).
Qed.

(** The text shared by the three AES functions: with the key material
    extracted, the structure is filled in as follows and passed to the
    kernel in a single call. *)
Lemma tlshd_set_aes_info_run (CIPHER : Z)
    (IV_SIZE KEY_SIZE SALT_SIZE REC_SEQ_SIZE : nat)
    (sock : Z) (read : bool) (s : state) (rs : record_state) :
  HAVE_GNUTLS_TRANSPORT_IS_KTLS_ENABLED cfg && library_reports_ktls env read
  = false ->
  gnutls_record_get_state env read = (GNUTLS_E_SUCCESS, rs) ->
  (IV_SIZE <= length (rs_seq_number rs))%nat ->
  (REC_SEQ_SIZE <= length (rs_seq_number rs))%nat ->
  (SALT_SIZE <= length (rs_iv rs))%nat ->
  (gnutls_protocol_get_version env <> GNUTLS_TLS1_2 ->
   SALT_SIZE + IV_SIZE <= length (rs_iv rs))%nat ->
  (KEY_SIZE <= length (rs_cipher_key rs))%nat ->
  let tls12 := gnutls_protocol_get_version env =? GNUTLS_TLS1_2 in
  let i :=
    {| info := {| version := if tls12 then TLS_1_2_VERSION
                             else TLS_1_3_VERSION;
                  cipher_type := CIPHER |};
       iv := if tls12 then firstn IV_SIZE (rs_seq_number rs)
             else firstn IV_SIZE (skipn SALT_SIZE (rs_iv rs));
       key := firstn KEY_SIZE (rs_cipher_key rs);
       salt := firstn SALT_SIZE (rs_iv rs);
       rec_seq := firstn REC_SEQ_SIZE (rs_seq_number rs) |} in
  exists b evs,
    tlshd_set_aes_info cfg env CIPHER IV_SIZE KEY_SIZE SALT_SIZE REC_SEQ_SIZE
                       sock read s
    = Some (b, with_trace s (trace s ++ evs)) /\
    sockopt_calls evs
    = [EvSetsockopt sock SOL_TLS (tls_option read) (OptCryptoInfo i)
                    (sizeof_crypto_info i)].
Proof.
  intros Hoff Hst Hseq1 Hseq2 Hsalt Hiv Hkey tls12 i.
  unfold tlshd_set_aes_info. unfold bind at 1.
  rewrite (is_ktls_enabled_false read s Hoff).
  unfold bind at 1. unfold emit at 1. rewrite Hst. cbn [negb Z.eqb GNUTLS_E_SUCCESS].
  fold tls12.
  set (s1 := with_trace s (trace s ++ [EvRecordGetState read])).
  assert (Hivrun :
    (if tls12
     then memcpy (repeat x00 IV_SIZE) (rs_seq_number rs) IV_SIZE
     else memcpy (repeat x00 IV_SIZE) (skipn SALT_SIZE (rs_iv rs)) IV_SIZE) s1
    = Some (iv i, s1)).
  { subst i. cbn [iv]. destruct tls12 eqn:E.
    - apply memcpy_zeroed; assumption.
    - apply memcpy_zeroed. rewrite length_skipn.
      assert (gnutls_protocol_get_version env <> GNUTLS_TLS1_2) as Hne
        by (apply Z.eqb_neq; exact E).
      specialize (Hiv Hne). lia. }
  unfold bind at 1. rewrite Hivrun.
  unfold bind at 1. rewrite (memcpy_zeroed _ _ s1 Hsalt).
  unfold bind at 1. rewrite (memcpy_zeroed _ _ s1 Hkey).
  unfold bind at 1. rewrite (memcpy_zeroed _ _ s1 Hseq2).
  fold i.
  destruct (tlshd_setsockopt_run sock read i (sizeof_crypto_info i) s1)
    as (b & evs & Hrun & Hevs).
  exists b, (EvRecordGetState read
             :: EvSetsockopt sock SOL_TLS (tls_option read) (OptCryptoInfo i)
                             (sizeof_crypto_info i) :: evs).
  split.
  - transitivity (tlshd_setsockopt env sock read i (sizeof_crypto_info i) s1);
      [reflexivity|].
    rewrite Hrun. subst s1. cbn. rewrite <- app_assoc. reflexivity.
  - unfold sockopt_calls in *. cbn. rewrite Hevs. reflexivity.
Qed.

Lemma tlshd_set_chacha20_poly1305_info_run
    (sock : Z) (read : bool) (s : state) (rs : record_state) :
  HAVE_GNUTLS_TRANSPORT_IS_KTLS_ENABLED cfg && library_reports_ktls env read
  = false ->
  gnutls_record_get_state env read = (GNUTLS_E_SUCCESS, rs) ->
  (TLS_CIPHER_CHACHA20_POLY1305_REC_SEQ_SIZE
   <= length (rs_seq_number rs))%nat ->
  (TLS_CIPHER_CHACHA20_POLY1305_IV_SIZE <= length (rs_iv rs))%nat ->
  (TLS_CIPHER_CHACHA20_POLY1305_KEY_SIZE <= length (rs_cipher_key rs))%nat ->
  let tls12 := gnutls_protocol_get_version env =? GNUTLS_TLS1_2 in
  let i :=
    {| info := {| version := if tls12 then TLS_1_2_VERSION
                             else TLS_1_3_VERSION;
                  cipher_type := TLS_CIPHER_CHACHA20_POLY1305 |};
       iv := firstn TLS_CIPHER_CHACHA20_POLY1305_IV_SIZE (rs_iv rs);
       key := firstn TLS_CIPHER_CHACHA20_POLY1305_KEY_SIZE (rs_cipher_key rs);
       salt := [];
       rec_seq := firstn TLS_CIPHER_CHACHA20_POLY1305_REC_SEQ_SIZE
                         (rs_seq_number rs) |} in
  exists b evs,
    tlshd_set_chacha20_poly1305_info cfg env sock read s
    = Some (b, with_trace s (trace s ++ evs)) /\
    sockopt_calls evs
    = [EvSetsockopt sock SOL_TLS (tls_option read) (OptCryptoInfo i)
                    (sizeof_crypto_info i)].
Proof.
  intros Hoff Hst Hseq Hiv Hkey tls12 i.
  unfold tlshd_set_chacha20_poly1305_info. unfold bind at 1.
  rewrite (is_ktls_enabled_false read s Hoff).
  unfold bind at 1. unfold emit at 1. rewrite Hst. cbn [negb Z.eqb GNUTLS_E_SUCCESS].
  fold tls12.
  set (s1 := with_trace s (trace s ++ [EvRecordGetState read])).
  unfold bind at 1. rewrite (memcpy_zeroed _ _ s1 Hiv).
  unfold bind at 1. rewrite (memcpy_zeroed _ _ s1 Hkey).
  unfold bind at 1. rewrite (memcpy_zeroed _ _ s1 Hseq).
  change (repeat x00 TLS_CIPHER_CHACHA20_POLY1305_SALT_SIZE)
    with (@nil byte).
  fold i.
  destruct (tlshd_setsockopt_run sock read i (sizeof_crypto_info i) s1)
    as (b & evs & Hrun & Hevs).
  exists b, (EvRecordGetState read
             :: EvSetsockopt sock SOL_TLS (tls_option read) (OptCryptoInfo i)
                             (sizeof_crypto_info i) :: evs).
  split.
  - transitivity (tlshd_setsockopt env sock read i (sizeof_crypto_info i) s1);
      [reflexivity|].
    rewrite Hrun. subst s1. cbn. rewrite <- app_assoc. reflexivity.
  - unfold sockopt_calls in *. cbn. rewrite Hevs. reflexivity.
Qed.

Lemma install_direction_offloaded (c sock : Z) (read : bool) (s : state) :
  HAVE_GNUTLS_TRANSPORT_IS_KTLS_ENABLED cfg = true ->
  library_reports_ktls env read = true ->
  install_direction cfg env c sock read s
  = Some (true, with_trace s (trace s
                              ++ [EvLog LOG_DEBUG (ktls_enabled_message read)])).
Proof.
  intros Hcfg H. unfold install_direction.
  destruct (c =? GNUTLS_CIPHER_AES_128_GCM);
    [|destruct (c =? GNUTLS_CIPHER_AES_256_GCM);
      [|destruct (c =? GNUTLS_CIPHER_AES_128_CCM)]];
    unfold tlshd_set_aes_gcm128_info, tlshd_set_aes_gcm256_info,
      tlshd_set_aes_ccm128_info, tlshd_set_aes_info,
      tlshd_set_chacha20_poly1305_info;
    unfold bind at 1; rewrite (is_ktls_enabled_true read s Hcfg H);
    reflexivity.
Qed.

Lemma initialize_ktls_ulp_failure (s : state) :
  fst (ulp_answer env s) = -1 ->
  tlshd_initialize_ktls cfg env s
  = Some (EIO,
          with_trace s
            (trace s
             ++ [EvSetsockopt (gnutls_transport_get_int env) SOL_TCP TCP_ULP
                              (OptString "tls") 4;
                 EvPerror "setsockopt(TLS_ULP)" (snd (ulp_answer env s))])).
Proof.
  intros H.
  unfold tlshd_initialize_ktls, sys_setsockopt, bind, get, emit, ret.
  cbn. fold (ulp_answer env s). rewrite H. cbn.
  unfold tlshd_log_perror, emit. cbn. rewrite <- app_assoc. reflexivity.
Qed.

Lemma initialize_ktls_unsupported (s : state) :
  fst (ulp_answer env s) <> -1 ->
  ktls_supported cfg (gnutls_cipher_get env) = false ->
  tlshd_initialize_ktls cfg env s
  = Some (EIO,
          with_trace s
            (trace s
             ++ [EvSetsockopt (gnutls_transport_get_int env) SOL_TCP TCP_ULP
                              (OptString "tls") 4;
                 EvLog LOG_ERROR
                       "tlshd does not support the requested cipher."])).
Proof.
  intros Hulp Hsup.
  unfold tlshd_initialize_ktls, sys_setsockopt.
  unfold bind at 1 2 3. unfold get, emit, ret at 1. cbn.
  fold (ulp_answer env s).
  destruct (Z.eqb_spec (fst (ulp_answer env s)) (-1)) as [E|_];
    [contradiction|].
  destruct (gnutls_transport_get_int2 env) as [sockin sockout].
  unfold ktls_supported in Hsup.
  apply orb_false_iff in Hsup. destruct Hsup as [Hsup H4].
  apply orb_false_iff in Hsup. destruct Hsup as [Hsup H3].
  apply orb_false_iff in Hsup. destruct Hsup as [H1 H2].
  rewrite H1, H2, H3, H4.
  unfold unsupported_cipher, tlshd_log_error, bind, emit, ret. cbn.
  rewrite <- app_assoc. reflexivity.
Qed.

Lemma initialize_ktls_dispatch (s : state) :
  fst (ulp_answer env s) <> -1 ->
  ktls_supported cfg (gnutls_cipher_get env) = true ->
  tlshd_initialize_ktls cfg env s
  = both_directions (install_direction cfg env (gnutls_cipher_get env))
      (fst (gnutls_transport_get_int2 env))
      (snd (gnutls_transport_get_int2 env))
      (with_trace s (trace s ++ [ulp_call env])).
Proof.
  intros Hulp Hsup.
  unfold tlshd_initialize_ktls, sys_setsockopt.
  unfold bind at 1 2 3. unfold get, emit, ret at 1. cbn.
  fold (ulp_answer env s).
  destruct (Z.eqb_spec (fst (ulp_answer env s)) (-1)) as [E|_]; [contradiction|].
  destruct (gnutls_transport_get_int2 env) as [sockin sockout]. cbn [fst snd].
  unfold ktls_supported in Hsup. unfold install_direction.
  set (c := gnutls_cipher_get env) in *.
  destruct (c =? GNUTLS_CIPHER_AES_128_GCM) eqn:E1.
  { destruct (defined_TLS_CIPHER_AES_GCM_128 cfg); [reflexivity|].
    apply Z.eqb_eq in E1. rewrite E1 in Hsup. cbn in Hsup.
    destruct (defined_TLS_CIPHER_AES_GCM_256 cfg),
      (defined_TLS_CIPHER_AES_CCM_128 cfg),
      (defined_TLS_CIPHER_CHACHA20_POLY1305 cfg); discriminate. }
  destruct (c =? GNUTLS_CIPHER_AES_256_GCM) eqn:E2.
  { destruct (defined_TLS_CIPHER_AES_GCM_256 cfg); [reflexivity|].
    apply Z.eqb_eq in E2. rewrite E2 in Hsup. cbn in Hsup.
    destruct (defined_TLS_CIPHER_AES_GCM_128 cfg),
      (defined_TLS_CIPHER_AES_CCM_128 cfg),
      (defined_TLS_CIPHER_CHACHA20_POLY1305 cfg); discriminate. }
  destruct (c =? GNUTLS_CIPHER_AES_128_CCM) eqn:E3.
  { destruct (defined_TLS_CIPHER_AES_CCM_128 cfg); [reflexivity|].
    apply Z.eqb_eq in E3. rewrite E3 in Hsup. cbn in Hsup.
    destruct (defined_TLS_CIPHER_AES_GCM_128 cfg),
      (defined_TLS_CIPHER_AES_GCM_256 cfg),
      (defined_TLS_CIPHER_CHACHA20_POLY1305 cfg); discriminate. }
  cbn in Hsup. cbn.
  destruct (c =? GNUTLS_CIPHER_CHACHA20_POLY1305); [|discriminate].
  destruct (defined_TLS_CIPHER_CHACHA20_POLY1305 cfg); [reflexivity|].
  discriminate.
Qed.

Lemma both_directions_run (set : Z -> bool -> M bool) sockin sockout s r s' :
  both_directions set sockin sockout s = Some (r, s') <->
  (exists s1, set sockout false s = Some (true, s1) /\
              set sockin true s1 = Some (true, s') /\ r = 0) \/
  (exists s1, set sockout false s = Some (true, s1) /\
              set sockin true s1 = Some (false, s') /\ r = EIO) \/
  (set sockout false s = Some (false, s') /\ r = EIO).
Proof.
  unfold both_directions, and_then, bind, ret.
  destruct (set sockout false s) as [[[|] s1]|] eqn:E1;
    [destruct (set sockin true s1) as [[[|] s2]|] eqn:E2|..];
    (split;
     [ intros H; try discriminate H; inversion H; subst; eauto 10
     | intros [(s3 & H1 & H2 & ->)|[(s3 & H1 & H2 & ->)|(H1 & ->)]];
       try congruence; inversion H1; subst; congruence ]).
Qed.

(** C8. When setting TCP_ULP fails, [tlshd_initialize_ktls] returns EIO
    having made that one call and logged the error: no key material is
    extracted and nothing is installed for either direction. *)
Theorem tcp_ulp_failure_is_fatal (s : state) :
  fst (ulp_answer env s) = -1 ->
  exists evs,
    tlshd_initialize_ktls cfg env s
      = Some (EIO, with_trace s (trace s ++ evs)) /\
    evs = [ulp_call env; EvPerror "setsockopt(TLS_ULP)" (snd (ulp_answer env s))] /\
    existsb is_record_get_state evs = false /\
    existsb is_tls_install evs = false.
Proof.
  intros H. eexists. split; [|split; [reflexivity|split; reflexivity]].
  unfold tlshd_initialize_ktls, sys_setsockopt, bind, get, emit, ret.
  cbn. fold (ulp_answer env s). rewrite H. cbn.
  unfold tlshd_log_perror, emit. cbn. rewrite <- app_assoc. reflexivity.
Qed.

(** C7. Once TCP_ULP is set and the cipher is one this build supports,
    [tlshd_initialize_ktls] returns 0 exactly when installing the send
    direction succeeds and then installing the receive direction
    succeeds; when either of them fails it returns EIO, and the receive
    direction is not attempted after the send direction failed. *)
Theorem install_succeeds_iff_both_directions (s : state) :
  fst (ulp_answer env s) <> -1 ->
  ktls_supported cfg (gnutls_cipher_get env) = true ->
  let c := gnutls_cipher_get env in
  let sockin := fst (gnutls_transport_get_int2 env) in
  let sockout := snd (gnutls_transport_get_int2 env) in
  let s0 := with_trace s (trace s ++ [ulp_call env]) in
  (forall s', tlshd_initialize_ktls cfg env s = Some (0, s') <->
     exists s1, install_direction cfg env c sockout false s0 = Some (true, s1) /\
                install_direction cfg env c sockin true s1 = Some (true, s')) /\
  (forall s1, install_direction cfg env c sockout false s0 = Some (false, s1) ->
     tlshd_initialize_ktls cfg env s = Some (EIO, s1)) /\
  (forall s1 s2, install_direction cfg env c sockout false s0 = Some (true, s1) ->
     install_direction cfg env c sockin true s1 = Some (false, s2) ->
     tlshd_initialize_ktls cfg env s = Some (EIO, s2)).
Proof.
  intros Hulp Hsup c sockin sockout s0.
  pose proof (initialize_ktls_dispatch s Hulp Hsup) as D.
  fold c sockin sockout s0 in D.
  split; [|split].
  - intros s'. rewrite D, both_directions_run. split.
    + intros [(s1 & H1 & H2 & _)|[(s1 & _ & _ & H)|(_ & H)]];
        try discriminate H. eauto.
    + intros (s1 & H1 & H2). left. eauto.
  - intros s1 H. rewrite D. apply both_directions_run. right; right. auto.
  - intros s1 s2 H1 H2. rewrite D. apply both_directions_run.
    right; left. eauto.
Qed.

(** C2, as amended. When the library reports offload active in both
    directions, TCP_ULP could be set and the cipher is supported,
    [tlshd_initialize_ktls] returns 0 after exactly one socket-option
    call, the one for TCP_ULP: it extracts no key material and makes no
    TLS_TX or TLS_RX call. *)
Theorem library_offload_leaves_only_tcp_ulp (s : state) :
  HAVE_GNUTLS_TRANSPORT_IS_KTLS_ENABLED cfg = true ->
  library_reports_ktls env false = true ->
  library_reports_ktls env true = true ->
  fst (ulp_answer env s) <> -1 ->
  ktls_supported cfg (gnutls_cipher_get env) = true ->
  exists evs,
    tlshd_initialize_ktls cfg env s
      = Some (0, with_trace s (trace s ++ evs)) /\
    sockopt_calls evs = [ulp_call env] /\
    existsb is_tls_install evs = false /\
    existsb is_record_get_state evs = false.
Proof.
  intros Hcfg Hsend Hrecv Hulp Hsup.
  exists [ulp_call env; EvLog LOG_DEBUG (ktls_enabled_message false);
          EvLog LOG_DEBUG (ktls_enabled_message true)].
  split; [|repeat split].
  rewrite (initialize_ktls_dispatch s Hulp Hsup).
  unfold both_directions, and_then.
  unfold bind at 1 2.
  rewrite (install_direction_offloaded _ _ false _ Hcfg Hsend).
  rewrite (install_direction_offloaded _ _ true _ Hcfg Hrecv).
  cbn. rewrite <- !app_assoc. reflexivity.
Qed.

(** C1. For a direction the library has not offloaded itself and whose
    key material GnuTLS hands out in full, installing cipher [c] passes
    one structure to the kernel.  With AES-GCM or AES-CCM and TLS 1.2
    its version is the TLS 1.2 constant and its IV is the 8-byte
    sequence number; with TLS 1.3 its IV is the IV datum read from past
    the salt.  With ChaCha20-Poly1305 its IV is the IV datum read from
    its start, whatever the version. *)
Theorem installed_iv_follows_version (c sock : Z) (read : bool) (s : state)
    (rs : record_state) :
  In c ktls_ciphers ->
  HAVE_GNUTLS_TRANSPORT_IS_KTLS_ENABLED cfg && library_reports_ktls env read
  = false ->
  gnutls_record_get_state env read = (GNUTLS_E_SUCCESS, rs) ->
  length (rs_seq_number rs) = 8%nat ->
  (iv_bytes_read env c <= length (rs_iv rs))%nat ->
  (key_size_of c <= length (rs_cipher_key rs))%nat ->
  exists i b evs,
    install_direction cfg env c sock read s
    = Some (b, with_trace s (trace s ++ evs)) /\
    sockopt_calls evs
    = [EvSetsockopt sock SOL_TLS (tls_option read) (OptCryptoInfo i)
                    (sizeof_crypto_info i)] /\
    (is_aes_gcm_or_ccm c = true ->
     gnutls_protocol_get_version env = GNUTLS_TLS1_2 ->
     version (info i) = TLS_1_2_VERSION /\ iv i = rs_seq_number rs) /\
    (is_aes_gcm_or_ccm c = true ->
     gnutls_protocol_get_version env = GNUTLS_TLS1_3 ->
     version (info i) = TLS_1_3_VERSION /\
     iv i = firstn (iv_size_of c) (skipn (salt_size_of c) (rs_iv rs)) /\
     (length (rs_iv rs) = (salt_size_of c + iv_size_of c)%nat ->
      iv i = skipn (salt_size_of c) (rs_iv rs))) /\
    (c = GNUTLS_CIPHER_CHACHA20_POLY1305 ->
     iv i = firstn TLS_CIPHER_CHACHA20_POLY1305_IV_SIZE (rs_iv rs) /\
     (length (rs_iv rs) = TLS_CIPHER_CHACHA20_POLY1305_IV_SIZE ->
      iv i = rs_iv rs)).
Proof.
  intros Hc Hoff Hst Hseq Hiv Hkey.
  assert (Haes : forall CIPHER,
    is_aes_gcm_or_ccm c = true ->
    iv_size_of c = 8%nat -> salt_size_of c = 4%nat ->
    install_direction cfg env c
    = tlshd_set_aes_info cfg env CIPHER 8 (key_size_of c) 4 8 ->
    exists i b evs,
      install_direction cfg env c sock read s
      = Some (b, with_trace s (trace s ++ evs)) /\
      sockopt_calls evs
      = [EvSetsockopt sock SOL_TLS (tls_option read) (OptCryptoInfo i)
                      (sizeof_crypto_info i)] /\
      (is_aes_gcm_or_ccm c = true ->
       gnutls_protocol_get_version env = GNUTLS_TLS1_2 ->
       version (info i) = TLS_1_2_VERSION /\ iv i = rs_seq_number rs) /\
      (is_aes_gcm_or_ccm c = true ->
       gnutls_protocol_get_version env = GNUTLS_TLS1_3 ->
       version (info i) = TLS_1_3_VERSION /\
       iv i = firstn (iv_size_of c) (skipn (salt_size_of c) (rs_iv rs)) /\
       (length (rs_iv rs) = (salt_size_of c + iv_size_of c)%nat ->
        iv i = skipn (salt_size_of c) (rs_iv rs))) /\
      (c = GNUTLS_CIPHER_CHACHA20_POLY1305 ->
       iv i = firstn TLS_CIPHER_CHACHA20_POLY1305_IV_SIZE (rs_iv rs) /\
       (length (rs_iv rs) = TLS_CIPHER_CHACHA20_POLY1305_IV_SIZE ->
        iv i = rs_iv rs))).
  { intros CIPHER Ha Hivs Hsalts Hdef.
    unfold iv_bytes_read in Hiv. rewrite Ha, Hivs, Hsalts in Hiv.
    cbn [andb] in Hiv.
    assert (H12 : gnutls_protocol_get_version env <> GNUTLS_TLS1_2 ->
                  (4 + 8 <= length (rs_iv rs))%nat).
    { intros Hne. apply Z.eqb_neq in Hne. rewrite Hne in Hiv. exact Hiv. }
    assert (Hs : (4 <= length (rs_iv rs))%nat).
    { destruct (gnutls_protocol_get_version env =? GNUTLS_TLS1_2); lia. }
    destruct (tlshd_set_aes_info_run CIPHER 8 (key_size_of c) 4 8 sock read s
                rs Hoff Hst ltac:(lia) ltac:(lia) Hs H12 Hkey)
      as (b & evs & Hrun & Hcalls).
    eexists _, b, evs. rewrite Hdef.
    split; [exact Hrun|]. split; [exact Hcalls|].
    cbn [info version iv]. rewrite Hivs, Hsalts.
    split; [|split].
    - intros _ Hv. rewrite Hv, Z.eqb_refl. split; [reflexivity|].
      rewrite <- Hseq. apply firstn_all.
    - intros _ Hv. rewrite Hv.
      change (GNUTLS_TLS1_3 =? GNUTLS_TLS1_2) with false.
      split; [reflexivity|]. split; [reflexivity|].
      intros Hlen. apply firstn_all2. rewrite length_skipn. lia.
    - intros ->. discriminate Ha. }
  destruct Hc as [<-|[<-|[<-|[<-|[]]]]].
  - apply (Haes TLS_CIPHER_AES_GCM_128); reflexivity.
  - apply (Haes TLS_CIPHER_AES_GCM_256); reflexivity.
  - apply (Haes TLS_CIPHER_AES_CCM_128); reflexivity.
  - clear Haes.
    assert (Hiv' : (TLS_CIPHER_CHACHA20_POLY1305_IV_SIZE
                    <= length (rs_iv rs))%nat).
    { unfold iv_bytes_read in Hiv. cbn in Hiv. exact Hiv. }
    destruct (tlshd_set_chacha20_poly1305_info_run sock read s rs Hoff Hst
                ltac:(rewrite Hseq; apply Nat.le_refl) Hiv' Hkey)
      as (b & evs & Hrun & Hcalls).
    eexists _, b, evs.
    split; [exact Hrun|]. split; [exact Hcalls|].
    cbn [info version iv].
    split; [intros Ha; discriminate Ha|].
    split; [intros Ha; discriminate Ha|].
    intros _. split; [reflexivity|].
    intros Hlen. rewrite <- Hlen. apply firstn_all.
Qed.

End Installer.

(** With complete key material the installer is defined. *)

Section InstallerTotal.

Variable cfg : build_config.
Variable env : environment.

Lemma emits_only_is_ktls_enabled (read : bool) :
  emits_only (tlshd_is_ktls_enabled cfg env read).
Proof. unfold tlshd_is_ktls_enabled, tlshd_log_debug. emits. Qed.

Lemma emits_only_tlshd_setsockopt sock read i len :
  emits_only (tlshd_setsockopt env sock read i len).
Proof.
  unfold tlshd_setsockopt, sys_setsockopt, tlshd_log_error, tlshd_log_perror.
  emits.
Qed.

Lemma emits_only_set_aes_info (CIPHER : Z)
    (IV_SIZE KEY_SIZE SALT_SIZE REC_SEQ_SIZE : nat) (sock : Z) (read : bool) :
  (forall rs, gnutls_record_get_state env read = (GNUTLS_E_SUCCESS, rs) ->
     (IV_SIZE <= length (rs_seq_number rs))%nat /\
     (REC_SEQ_SIZE <= length (rs_seq_number rs))%nat /\
     (SALT_SIZE <= length (rs_iv rs))%nat /\
     (gnutls_protocol_get_version env <> GNUTLS_TLS1_2 ->
      SALT_SIZE + IV_SIZE <= length (rs_iv rs))%nat /\
     (KEY_SIZE <= length (rs_cipher_key rs))%nat) ->
  emits_only (tlshd_set_aes_info cfg env CIPHER IV_SIZE KEY_SIZE SALT_SIZE
                                 REC_SEQ_SIZE sock read).
Proof.
  intros Hmat. unfold tlshd_set_aes_info.
  apply emits_only_bind; [apply emits_only_is_ktls_enabled|].
  intros [|]; [apply emits_only_ret|].
  apply emits_only_bind; [apply emits_only_emit|]. intros _.
  destruct (gnutls_record_get_state env read) as [r rs] eqn:Hst.
  destruct (Z.eqb_spec r GNUTLS_E_SUCCESS) as [->|Hr]; cbn [negb].
  2:{ unfold tlshd_log_gnutls_error. emits. }
  destruct (Hmat rs eq_refl) as (H1 & H2 & H3 & H4 & H5).
  apply emits_only_bind.
  { destruct (Z.eqb_spec (gnutls_protocol_get_version env) GNUTLS_TLS1_2).
    - apply emits_only_memcpy; [exact H1|rewrite repeat_length; lia].
    - apply emits_only_memcpy; [|rewrite repeat_length; lia].
      rewrite length_skipn. specialize (H4 n). lia. }
  intros info_iv.
  apply emits_only_bind;
    [apply emits_only_memcpy; [exact H3|rewrite repeat_length; lia]|].
  intros info_salt.
  apply emits_only_bind;
    [apply emits_only_memcpy; [exact H5|rewrite repeat_length; lia]|].
  intros info_key.
  apply emits_only_bind;
    [apply emits_only_memcpy; [exact H2|rewrite repeat_length; lia]|].
  intros info_rec_seq.
  apply emits_only_tlshd_setsockopt.
Qed.

Lemma emits_only_set_chacha20_poly1305_info (sock : Z) (read : bool) :
  (forall rs, gnutls_record_get_state env read = (GNUTLS_E_SUCCESS, rs) ->
     (TLS_CIPHER_CHACHA20_POLY1305_REC_SEQ_SIZE
      <= length (rs_seq_number rs))%nat /\
     (TLS_CIPHER_CHACHA20_POLY1305_IV_SIZE <= length (rs_iv rs))%nat /\
     (TLS_CIPHER_CHACHA20_POLY1305_KEY_SIZE
      <= length (rs_cipher_key rs))%nat) ->
  emits_only (tlshd_set_chacha20_poly1305_info cfg env sock read).
Proof.
  intros Hmat. unfold tlshd_set_chacha20_poly1305_info.
  apply emits_only_bind; [apply emits_only_is_ktls_enabled|].
  intros [|]; [apply emits_only_ret|].
  apply emits_only_bind; [apply emits_only_emit|]. intros _.
  destruct (gnutls_record_get_state env read) as [r rs] eqn:Hst.
  destruct (Z.eqb_spec r GNUTLS_E_SUCCESS) as [->|Hr]; cbn [negb].
  2:{ unfold tlshd_log_gnutls_error. emits. }
  destruct (Hmat rs eq_refl) as (H1 & H2 & H3).
  apply emits_only_bind;
    [apply emits_only_memcpy; [exact H2|rewrite repeat_length; lia]|].
  intros info_iv.
  apply emits_only_bind;
    [apply emits_only_memcpy; [exact H3|rewrite repeat_length; lia]|].
  intros info_key.
  apply emits_only_bind;
    [apply emits_only_memcpy; [exact H1|rewrite repeat_length; lia]|].
  intros info_rec_seq.
  apply emits_only_tlshd_setsockopt.
Qed.

Lemma emits_only_both_directions (set : Z -> bool -> M bool) sockin sockout :
  (forall sock read, emits_only (set sock read)) ->
  emits_only (both_directions set sockin sockout).
Proof.
  intros H. unfold both_directions, and_then.
  apply emits_only_bind; [|intros ?; apply emits_only_ret].
  apply emits_only_bind; [apply H|].
  intros [|]; [apply H|apply emits_only_ret].
Qed.

Lemma emits_only_install_direction (c sock : Z) (read : bool) :
  In c ktls_ciphers ->
  (forall rs,
     gnutls_record_get_state env read = (GNUTLS_E_SUCCESS, rs) ->
     length (rs_seq_number rs) = 8%nat /\
     (iv_bytes_read env c <= length (rs_iv rs))%nat /\
     (key_size_of c <= length (rs_cipher_key rs))%nat) ->
  emits_only (install_direction cfg env c sock read).
Proof.
  intros Hc Hmat. unfold iv_bytes_read in Hmat.
  destruct Hc as [<-|[<-|[<-|[<-|[]]]]].
  - apply emits_only_set_aes_info. intros rs Hrs.
    destruct (Hmat rs Hrs) as (H1 & H2 & H3). cbn in H2, H3.
    destruct (Z.eqb_spec (gnutls_protocol_get_version env) GNUTLS_TLS1_2);
      repeat split; try contradiction; sizes.
  - apply emits_only_set_aes_info. intros rs Hrs.
    destruct (Hmat rs Hrs) as (H1 & H2 & H3). cbn in H2, H3.
    destruct (Z.eqb_spec (gnutls_protocol_get_version env) GNUTLS_TLS1_2);
      repeat split; try contradiction; sizes.
  - apply emits_only_set_aes_info. intros rs Hrs.
    destruct (Hmat rs Hrs) as (H1 & H2 & H3). cbn in H2, H3.
    destruct (Z.eqb_spec (gnutls_protocol_get_version env) GNUTLS_TLS1_2);
      repeat split; try contradiction; sizes.
  - apply emits_only_set_chacha20_poly1305_info. intros rs Hrs.
    destruct (Hmat rs Hrs) as (H1 & H2 & H3). cbn in H2, H3.
    repeat split; sizes.
Qed.

Lemma ktls_supported_in (c : Z) :
  ktls_supported cfg c = true -> In c ktls_ciphers.
Proof.
  unfold ktls_supported, ktls_ciphers. intros H.
  repeat (apply orb_true_iff in H; destruct H as [H|H]);
    apply andb_true_iff in H; destruct H as [H _];
    apply Z.eqb_eq in H; subst; cbn; auto.
Qed.

(** With complete key material the installer always returns, and it
    changes nothing but the trace. *)
Lemma emits_only_initialize_ktls :
  key_material_complete env -> emits_only (tlshd_initialize_ktls cfg env).
Proof.
  intros Hmat s.
  destruct (Z.eq_dec (fst (ulp_answer env s)) (-1)) as [Hulp|Hulp].
  { rewrite (initialize_ktls_ulp_failure cfg env s Hulp). do 2 eexists. reflexivity. }
  destruct (ktls_supported cfg (gnutls_cipher_get env)) eqn:Hsup.
  2:{ rewrite (initialize_ktls_unsupported cfg env s Hulp Hsup).
      do 2 eexists. reflexivity. }
  rewrite (initialize_ktls_dispatch cfg env s Hulp Hsup).
  assert (Hboth : forall sockin sockout,
             emits_only (both_directions
                           (install_direction cfg env (gnutls_cipher_get env))
                           sockin sockout)).
  { intros sockin sockout. apply emits_only_both_directions.
    intros sock read. apply emits_only_install_direction.
    - apply ktls_supported_in. exact Hsup.
    - intros rs Hrs. exact (Hmat read rs Hrs). }
  match goal with |- context [both_directions _ ?a ?b ?st] =>
    destruct (Hboth a b st) as (r & evs & Hrun)
  end.
  rewrite Hrun. norm. rewrite <- app_assoc. do 2 eexists. reflexivity.
Qed.

End InstallerTotal.

(** *** Priority strings *)

Lemma cipher_keyword_length (c : Z) : (String.length (cipher_keyword c) <= 19)%nat.
Proof.
  unfold cipher_keyword.
  repeat match goal with |- context [if ?b then _ else _] => destruct b end;
    cbn; lia.
Qed.

Lemma cipher_segment_length (l : list Z) :
  (String.length (cipher_segment l) <= 19 * length l)%nat.
Proof.
  induction l as [|c l IH]; cbn [cipher_segment length]; [cbn; lia|].
  rewrite string_length_append. pose proof (cipher_keyword_length c). lia.
Qed.

Lemma ktls_filter_short (ciphers : list Z) :
  NoDup ciphers -> (length (filter is_ktls_cipher ciphers) <= 4)%nat.
Proof.
  intros H.
  change 4%nat with (length ktls_ciphers).
  apply NoDup_incl_length; [apply NoDup_filter; exact H|].
  intros c Hc. apply filter_In in Hc. destruct Hc as [_ Hc].
  unfold is_ktls_cipher in Hc. apply existsb_exists in Hc.
  destruct Hc as (x & Hx & E). apply Z.eqb_eq in E. subst. exact Hx.
Qed.

Section Priority.

Variable cfg : build_config.
Variable env : environment.
Hypothesis Hcfg : all_ciphers_defined cfg = true.

Lemma emit_cipher_string_run (p : string) (c : Z) (s : state) :
  (String.length p + String.length (cipher_keyword c) + 1 <= 1024)%nat ->
  emit_cipher_string cfg p c s
  = Some (if is_ktls_cipher c then p +++ cipher_keyword c else p, s).
Proof.
  intros Hfit. unfold all_ciphers_defined in Hcfg.
  apply andb_true_iff in Hcfg. destruct Hcfg as [H123 H4].
  apply andb_true_iff in H123. destruct H123 as [H12 H3].
  apply andb_true_iff in H12. destruct H12 as [H1 H2].
  unfold emit_cipher_string, is_ktls_cipher, ktls_ciphers, cipher_keyword in *.
  rewrite H1, H2, H3, H4. cbn [existsb]. rewrite !andb_true_r.
  destruct (c =? GNUTLS_CIPHER_CHACHA20_POLY1305) eqn:E4.
  { rewrite !orb_true_r. unfold strcat.
    rewrite (proj2 (Nat.leb_le _ _) Hfit). reflexivity. }
  destruct (c =? GNUTLS_CIPHER_AES_256_GCM) eqn:E2.
  { rewrite !orb_true_r. cbn [orb]. unfold strcat.
    rewrite (proj2 (Nat.leb_le _ _) Hfit). reflexivity. }
  destruct (c =? GNUTLS_CIPHER_AES_128_GCM) eqn:E1.
  { cbn [orb]. unfold strcat.
    rewrite (proj2 (Nat.leb_le _ _) Hfit). reflexivity. }
  destruct (c =? GNUTLS_CIPHER_AES_128_CCM) eqn:E3.
  { cbn [orb]. unfold strcat.
    rewrite (proj2 (Nat.leb_le _ _) Hfit). reflexivity. }
  reflexivity.
Qed.

Lemma cipher_keyword_other (c : Z) :
  is_ktls_cipher c = false -> cipher_keyword c = EmptyString.
Proof.
  unfold is_ktls_cipher, ktls_ciphers, cipher_keyword. cbn [existsb].
  intros H. rewrite orb_false_r in H.
  apply orb_false_iff in H. destruct H as [H1 H].
  apply orb_false_iff in H. destruct H as [H2 H].
  apply orb_false_iff in H. destruct H as [H3 H4].
  rewrite H1, H2, H3, H4. reflexivity.
Qed.

(** The loop over the library's list appends the keywords of the
    ciphers of the kernel's set, in the order of the list. *)
Lemma emit_cipher_loop_run (ciphers : list Z) (s : state) :
  forall (n i : nat) (p : string),
    (i + n = length ciphers)%nat ->
    (String.length p
     + String.length (cipher_segment (filter is_ktls_cipher (skipn i ciphers)))
     + 1 <= 1024)%nat ->
    emit_cipher_loop cfg ciphers i n p s
    = Some (p +++ cipher_segment (filter is_ktls_cipher (skipn i ciphers)), s).
Proof.
  induction n as [|n IH]; intros i p Hlen Hfit.
  - rewrite skipn_all2 by lia. cbn. rewrite string_append_empty_r. reflexivity.
  - destruct (nth_error ciphers i) as [c|] eqn:Hnth.
    2:{ apply nth_error_None in Hnth. lia. }
    assert (Hskip : skipn i ciphers = c :: skipn (S i) ciphers).
    { apply skipn_cons_nth. exact Hnth. }
    rewrite Hskip in *. cbn [filter cipher_segment] in *.
    cbn [emit_cipher_loop]. unfold bind at 1. unfold array_get.
    rewrite Hnth. unfold ret at 1.
    unfold bind at 1.
    destruct (is_ktls_cipher c) eqn:Hk.
    + cbn [cipher_segment] in Hfit. rewrite string_length_append in Hfit.
      rewrite emit_cipher_string_run by lia. rewrite Hk.
      rewrite IH.
      * cbn [cipher_segment]. rewrite string_append_assoc. reflexivity.
      * lia.
      * rewrite string_length_append. lia.
    + rewrite emit_cipher_string_run
        by (rewrite (cipher_keyword_other c Hk); cbn; lia).
      rewrite Hk. apply IH; [lia|exact Hfit].
Qed.

Lemma lib_priority_init_ok (p : option string) (s : state) :
  gnutls_priority_init env p = GNUTLS_E_SUCCESS ->
  lib_priority_init env p s
  = Some ((GNUTLS_E_SUCCESS, Some (next_handle s)),
          with_heap (with_trace s (trace s
                                   ++ [EvPriorityInit p GNUTLS_E_SUCCESS]))
                    (next_handle s :: live_priorities s)
                    (S (next_handle s))).
Proof. intros H. unfold lib_priority_init. rewrite H. reflexivity. Qed.

Lemma lib_priority_init_fail (p : option string) (s : state) :
  (gnutls_priority_init env p =? GNUTLS_E_SUCCESS) = false ->
  lib_priority_init env p s
  = Some ((gnutls_priority_init env p, None),
          with_trace s (trace s
                        ++ [EvPriorityInit p (gnutls_priority_init env p)])).
Proof.
  intros H. unfold lib_priority_init. unfold bind, emit. rewrite H.
  reflexivity.
Qed.

Lemma lib_priority_deinit_head (h : handle) (l : list handle) (s : state) :
  live_priorities s = h :: l ->
  lib_priority_deinit (Some h) s
  = Some (tt, with_heap (with_trace s (trace s ++ [EvPriorityDeinit (Some h)]))
                        (remove Nat.eq_dec h l) (next_handle s)).
Proof.
  intros H. unfold lib_priority_deinit, bind, emit, get, put. cbn.
  rewrite H. cbn. rewrite Nat.eqb_refl. cbn.
  destruct (Nat.eq_dec h h); [reflexivity|contradiction].
Qed.

Lemma priority_init_run (ciphers : list Z) (s : state) :
  gnutls_priority_init env None = GNUTLS_E_SUCCESS ->
  gnutls_priority_cipher_list env = (Z.of_nat (length ciphers), ciphers) ->
  (length (filter is_ktls_cipher ciphers) <= 48)%nat ->
  let normal := priority_prefix
                +++ cipher_segment (filter is_ktls_cipher ciphers) in
  let ok2 := gnutls_priority_init env (Some normal) =? GNUTLS_E_SUCCESS in
  let ok3 := gnutls_priority_init env (Some (normal +++ psk_suffix))
             =? GNUTLS_E_SUCCESS in
  let h := next_handle s in
  exists s' evs,
    tlshd_gnutls_priority_init cfg env s
    = Some (if ok2 && ok3 then 0 else - EIO, s') /\
    trace s' = trace s ++ evs /\
    compiled_strings evs
    = None :: Some normal
      :: (if ok2 then [Some (normal +++ psk_suffix)] else []) /\
    live_priorities s'
    = (if ok2
       then if ok3 then S (S h) :: S h :: remove Nat.eq_dec h (live_priorities s)
            else remove Nat.eq_dec (S h)
                        (remove Nat.eq_dec h (live_priorities s))
       else remove Nat.eq_dec h (live_priorities s)).
Proof.
  intros Hinit Hlist Hshort normal ok2 ok3 h.
  pose proof (cipher_segment_length (filter is_ktls_cipher ciphers)) as Hseg.
  assert (Hpre : (String.length priority_prefix <= 80)%nat)
    by (apply Nat.leb_le; reflexivity).
  assert (Hnormal : (String.length normal <= 992)%nat).
  { unfold normal. rewrite string_length_append. lia. }
  unfold tlshd_gnutls_priority_init.
  step by (apply lib_priority_init_ok; exact Hinit).
  step. norm.
  change (GNUTLS_E_SUCCESS =? GNUTLS_E_SUCCESS) with true. cbn [negb].
  rewrite Hlist.
  destruct (Z.ltb_spec (Z.of_nat (length ciphers)) 0) as [Hneg|_]; [lia|].
  step. step. step.
  rewrite Nat2Z.id.
  change ((("" +++ "SECURE256:+SECURE128:-COMP-ALL")
            +++ ":-VERS-ALL:+VERS-TLS1.3:%NO_TICKETS") +++ ":-CIPHER-ALL")
    with priority_prefix.
  erewrite bind_run.
  2:{ apply emit_cipher_loop_run; [reflexivity|].
      cbn [skipn]. lia. }
  cbn [skipn]. fold normal.
  step. step. norm.
  erewrite bind_run.
  2:{ apply lib_priority_deinit_head with (l := live_priorities s).
      reflexivity. }
  norm. fold h.
  destruct ok2 eqn:H2; subst ok2.
  - apply Z.eqb_eq in H2.
    step by (apply lib_priority_init_ok; exact H2).
    step. norm.
    change (GNUTLS_E_SUCCESS =? GNUTLS_E_SUCCESS) with true. cbn [negb].
    erewrite bind_run.
    2:{ apply strcat_run. cbn [String.length]. lia. }
    fold psk_suffix.
    step.
    destruct ok3 eqn:H3; subst ok3.
    + apply Z.eqb_eq in H3.
      step by (apply lib_priority_init_ok; exact H3).
      step. norm.
      change (GNUTLS_E_SUCCESS =? GNUTLS_E_SUCCESS) with true. cbn [negb].
      unfold ret. eexists _, _. split; [reflexivity|]. norm.
      split; [rewrite <- !app_assoc; reflexivity|].
      split; reflexivity.
    + step by (apply lib_priority_init_fail; exact H3).
      step. norm. rewrite H3. cbn [negb].
      step. norm.
      erewrite bind_run.
      2:{ apply lib_priority_deinit_head
            with (l := remove Nat.eq_dec h (live_priorities s)).
          reflexivity. }
      step. norm.
      unfold ret. eexists _, _. split; [reflexivity|]. norm.
      split; [rewrite <- !app_assoc; reflexivity|].
      split; reflexivity.
  - step by (apply lib_priority_init_fail; exact H2).
    step. norm. rewrite H2. cbn [negb].
    step.
    unfold ret. eexists _, _. split; [reflexivity|]. norm.
    split; [rewrite <- !app_assoc; reflexivity|].
    split; reflexivity.
Qed.

End Priority.

Section PriorityClaims.

Variable cfg : build_config.
Variable env : environment.

(** C5. In a build with all four kernel ciphers, the priority string
    compiled for normal handshakes is the fixed prefix ending in
    "-CIPHER-ALL" followed by the keywords of exactly those ciphers of
    the library's list that the kernel supports, in the order of the
    list; the PSK string is that string with the PSK key exchanges
    appended.  The list may hold at most 48 entries from the kernel's
    set, so that the strings fit the buffer of 1024 bytes; a list
    without duplicates holds at most four ([ktls_filter_short]). *)
Theorem priority_string_lists_kernel_ciphers (ciphers : list Z) (s : state) :
  all_ciphers_defined cfg = true ->
  gnutls_priority_init env None = GNUTLS_E_SUCCESS ->
  gnutls_priority_cipher_list env = (Z.of_nat (length ciphers), ciphers) ->
  (length (filter is_ktls_cipher ciphers) <= 48)%nat ->
  let emitted := filter is_ktls_cipher ciphers in
  let normal := priority_prefix +++ cipher_segment emitted in
  (forall c, In c emitted <-> In c ciphers /\ In c ktls_ciphers) /\
  sublist emitted ciphers /\
  exists r s' evs,
    tlshd_gnutls_priority_init cfg env s = Some (r, s') /\
    trace s' = trace s ++ evs /\
    compiled_strings evs
    = None :: Some normal
      :: (if gnutls_priority_init env (Some normal) =? GNUTLS_E_SUCCESS
          then [Some (normal +++ psk_suffix)] else []).
Proof.
  intros Hcfg Hinit Hlist Hshort emitted normal.
  split; [|split].
  - intros c. unfold emitted. rewrite filter_In.
    unfold is_ktls_cipher. rewrite existsb_exists. split.
    + intros (Hc & x & Hx & E). apply Z.eqb_eq in E. subst. auto.
    + intros (Hc & Hk). split; [exact Hc|].
      exists c. split; [exact Hk|apply Z.eqb_refl].
  - apply sublist_filter.
  - destruct (priority_init_run cfg env Hcfg ciphers s Hinit Hlist Hshort)
      as (s' & evs & Hrun & Htrace & Hstrings & _).
    eexists _, s', evs. split; [exact Hrun|]. split; [exact Htrace|].
    exact Hstrings.
Qed.

(** When the default priority could be allocated but the library fails
    to list its ciphers, the function returns -EIO with the default
    priority object still allocated. *)
Lemma cipher_list_failure_run (s : state) :
  gnutls_priority_init env None = GNUTLS_E_SUCCESS ->
  fst (gnutls_priority_cipher_list env) < 0 ->
  exists s',
    tlshd_gnutls_priority_init cfg env s = Some (- EIO, s') /\
    tlshd_gnutls_priority s' = Some (next_handle s) /\
    live_priorities s' = next_handle s :: live_priorities s /\
    trace s' = trace s ++ [EvPriorityInit None GNUTLS_E_SUCCESS;
                           EvGnutlsError (fst (gnutls_priority_cipher_list env))].
Proof.
  intros Hinit Hneg.
  unfold tlshd_gnutls_priority_init.
  step by (apply lib_priority_init_ok; exact Hinit).
  step. norm.
  change (GNUTLS_E_SUCCESS =? GNUTLS_E_SUCCESS) with true. cbn [negb].
  destruct (gnutls_priority_cipher_list env) as [r ciphers]. cbn [fst] in *.
  rewrite (proj2 (Z.ltb_lt r 0) Hneg).
  step. unfold ret. eexists. split; [reflexivity|]. norm.
  rewrite <- app_assoc. repeat split.
Qed.

(** The later failures do release it: when compiling the normal string
    fails, the default priority object has been released; when
    compiling the PSK string fails, so has the object compiled from the
    normal string. *)
Lemma compile_failure_releases_base (ciphers : list Z) (s : state) :
  all_ciphers_defined cfg = true ->
  gnutls_priority_init env None = GNUTLS_E_SUCCESS ->
  gnutls_priority_cipher_list env = (Z.of_nat (length ciphers), ciphers) ->
  (length (filter is_ktls_cipher ciphers) <= 48)%nat ->
  let normal := priority_prefix
                +++ cipher_segment (filter is_ktls_cipher ciphers) in
  exists r s',
    tlshd_gnutls_priority_init cfg env s = Some (r, s') /\
    (r <> 0 ->
     r = - EIO /\
     ~ In (next_handle s) (live_priorities s') /\
     (gnutls_priority_init env (Some normal) = GNUTLS_E_SUCCESS ->
      ~ In (S (next_handle s)) (live_priorities s'))).
Proof.
  intros Hcfg Hinit Hlist Hshort normal.
  destruct (priority_init_run cfg env Hcfg ciphers s Hinit Hlist Hshort)
    as (s' & evs & Hrun & _ & _ & Hlive).
  eexists _, s'. split; [exact Hrun|].
  cbv zeta in Hlive. fold normal in Hlive |- *.
  destruct (gnutls_priority_init env (Some normal) =? GNUTLS_E_SUCCESS)
    eqn:E2;
    [destruct (gnutls_priority_init env (Some (normal +++ psk_suffix))
               =? GNUTLS_E_SUCCESS)|];
    cbn [andb]; intros Hr; try (exfalso; apply Hr; reflexivity);
    rewrite Hlive; (split; [reflexivity|]).
  - split; [|intros _; apply remove_In].
    intros Hin. apply in_remove in Hin. destruct Hin as [Hin _].
    exact (remove_In _ _ _ Hin).
  - split; [apply remove_In|].
    intros E. rewrite E in E2. discriminate E2.
Qed.

End PriorityClaims.

(** *** Peer identities *)

Section PeerIdentities.

Variable env : environment.

Lemma import_peer_certs_run (certs : list gnutls_datum_t) :
  forall (n i : nat) (s : state),
    (i + n <= length certs)%nat ->
    (i + n <= length (tlshd_remote_peerid s))%nat ->
    exists s',
      import_peer_certs env certs (gnutls_session_get_ptr env) i n s
      = Some (tt, s') /\
      tlshd_remote_peerid s'
      = firstn i (tlshd_remote_peerid s)
        ++ peer_serials env (firstn n (skipn i certs))
        ++ skipn (i + n) (tlshd_remote_peerid s) /\
      tlshd_num_remote_peerids s' = tlshd_num_remote_peerids s /\
      trace s' = trace s ++ keyring_events env (firstn n (skipn i certs)).
Proof.
  induction n as [|n IH]; intros i s Hc Ha.
  - exists s. cbn. rewrite Nat.add_0_r, firstn_skipn, app_nil_r. auto.
  - destruct (nth_error certs i) as [c|] eqn:Hnth.
    2:{ apply nth_error_None in Hnth. lia. }
    rewrite (skipn_cons_nth _ _ _ Hnth).
    cbn [import_peer_certs firstn peer_serials keyring_events map].
    unfold array_get. rewrite Hnth.
    step. step. unfold set_tlshd_remote_peerid.
    step. norm.
    step by (apply array_set_run; lia).
    step. step. norm.
    set (a := tlshd_remote_peerid s) in *.
    set (v := tlshd_keyring_create_cert env c (gnutls_session_get_ptr env)).
    match goal with |- context [import_peer_certs _ _ _ _ _ ?st] =>
      destruct (IH (S i) st) as (s' & Hrun & Harr & Hnum & Htr)
    end.
    { lia. }
    { norm. rewrite length_array_update; lia. }
    exists s'. split; [exact Hrun|]. norm in Harr. norm in Hnum. norm in Htr.
    split; [|split; [exact Hnum|]].
    + rewrite Harr.
      rewrite firstn_app, length_firstn, firstn_firstn.
      replace (Nat.min i (length a)) with i by lia.
      replace (Nat.min (S i) i) with i by lia.
      replace (S i - i)%nat with 1%nat by lia. cbn [firstn].
      rewrite skipn_app, length_firstn.
      replace (Nat.min i (length a)) with i by lia.
      rewrite (skipn_all2 (firstn i a))
        by (rewrite length_firstn; lia).
      replace (S i + n - i)%nat with (S n) by lia.
      rewrite skipn_cons, app_nil_l, skipn_skipn.
      replace (n + S i)%nat with (i + S n)%nat by lia.
      rewrite <- app_assoc. reflexivity.
    + rewrite Htr. rewrite <- app_assoc. reflexivity.
Qed.

Lemma keyring_events_no_sockopt (certs : list gnutls_datum_t) :
  sockopt_calls (keyring_events env certs) = [].
Proof. induction certs as [|c l IH]; [reflexivity|exact IH]. Qed.

(** A verified peer with at least one certificate. *)
Lemma verify_function_records (certs : list gnutls_datum_t) (s : state) :
  length (tlshd_remote_peerid s) = 10%nat ->
  gnutls_certificate_verify_peers3 env = (GNUTLS_E_SUCCESS, 0) ->
  gnutls_certificate_get_peers env = Some certs ->
  certs <> [] ->
  exists s',
    tlshd_server_x509_verify_function env s = Some (GNUTLS_E_SUCCESS, s') /\
    tlshd_num_remote_peerids s' = Z.min (Z.of_nat (length certs)) 10 /\
    tlshd_remote_peerid s'
    = peer_serials env (firstn 10 certs)
      ++ skipn (Nat.min (length certs) 10) (tlshd_remote_peerid s) /\
    sockopt_calls (trace s') = sockopt_calls (trace s).
Proof.
  intros Ha Hv Hp Hne.
  unfold tlshd_server_x509_verify_function. rewrite Hv.
  change (GNUTLS_E_SUCCESS =? GNUTLS_E_SUCCESS) with true. cbv iota.
  step. change (negb (0 =? 0)) with false. cbv iota.
  rewrite Hp. step. step. norm. cbn [orb].
  assert (Hpos : 0 < Z.of_nat (length certs)).
  { destruct certs; [contradiction|]. cbn [length]. lia. }
  destruct (Z.eqb_spec (Z.of_nat (length certs)) 0) as [E|_]; [lia|].
  step.
  unfold ARRAY_SIZE_tlshd_remote_peerid.
  destruct (Z.gtb_spec (Z.of_nat (length certs)) 10) as [Hgt|Hle].
  - step. step. norm.
    match goal with |- context [bind (import_peer_certs _ _ _ _ _) _ ?st] =>
      destruct (import_peer_certs_run certs (Z.to_nat 10) 0 st)
        as (s' & Hrun & Harr & Hnum & Htr)
    end.
    { cbn. lia. }
    { norm. rewrite Ha. cbn. lia. }
    step by (exact Hrun). unfold ret.
    exists s'. split; [reflexivity|]. norm in Harr. norm in Hnum. norm in Htr.
    split; [rewrite Hnum; lia|]. split.
    + rewrite Harr. rewrite firstn_O, skipn_O, app_nil_l, Nat.add_0_l.
      replace (Nat.min (length certs) 10) with (Z.to_nat 10) by lia.
      reflexivity.
    + rewrite Htr. unfold sockopt_calls.
      rewrite !filter_app. cbn [filter is_setsockopt app].
      fold (sockopt_calls (keyring_events env (firstn (Z.to_nat 10) (skipn 0 certs)))).
      rewrite keyring_events_no_sockopt, !app_nil_r. reflexivity.
  - step. step. norm.
    match goal with |- context [bind (import_peer_certs _ _ _ _ _) _ ?st] =>
      destruct (import_peer_certs_run certs (Z.to_nat (Z.of_nat (length certs)))
                  0 st)
        as (s' & Hrun & Harr & Hnum & Htr)
    end.
    { cbn. lia. }
    { norm. rewrite Ha. cbn. lia. }
    step by (exact Hrun). unfold ret.
    exists s'. split; [reflexivity|]. norm in Harr. norm in Hnum. norm in Htr.
    split; [rewrite Hnum; lia|]. split.
    + rewrite Harr. rewrite firstn_O, skipn_O, app_nil_l, Nat.add_0_l.
      rewrite Nat2Z.id.
      replace (Nat.min (length certs) 10) with (length certs) by lia.
      rewrite firstn_all, (firstn_all2 certs) by lia. reflexivity.
    + rewrite Htr. unfold sockopt_calls.
      rewrite !filter_app. cbn [filter is_setsockopt app].
      fold (sockopt_calls (keyring_events env (firstn (Z.to_nat (Z.of_nat (length certs))) (skipn 0 certs)))).
      rewrite keyring_events_no_sockopt, !app_nil_r. reflexivity.
Qed.

(** A verified peer whose certificate list is NULL or empty. *)
Lemma verify_function_empty (s : state) :
  gnutls_certificate_verify_peers3 env = (GNUTLS_E_SUCCESS, 0) ->
  gnutls_certificate_get_peers env = None \/
  gnutls_certificate_get_peers env = Some [] ->
  exists evs,
    tlshd_server_x509_verify_function env s
    = Some (GNUTLS_E_CERTIFICATE_ERROR,
            with_num_remote_peerids
              (with_trace s (trace s ++ evs))
              (match gnutls_certificate_get_peers env with
               | None => tlshd_num_remote_peerids s
               | Some _ => 0
               end)) /\
    sockopt_calls evs = [].
Proof.
  intros Hv Hp.
  unfold tlshd_server_x509_verify_function. rewrite Hv.
  change (GNUTLS_E_SUCCESS =? GNUTLS_E_SUCCESS) with true. cbv iota.
  step. change (negb (0 =? 0)) with false. cbv iota.
  destruct Hp as [Hp|Hp]; rewrite Hp.
  - step. step. norm. cbn [orb]. step. unfold ret.
    eexists [_; _].
    split; [norm; rewrite <- app_assoc; reflexivity|reflexivity].
  - step. step. norm. cbn [length Z.of_nat Z.eqb orb]. step. unfold ret.
    eexists [_; _].
    split; [norm; rewrite <- app_assoc; reflexivity|reflexivity].
Qed.

(** Any outcome of chain verification other than a clean success. *)
Lemma verify_function_rejects (s : state) :
  gnutls_certificate_verify_peers3 env <> (GNUTLS_E_SUCCESS, 0) ->
  exists evs,
    tlshd_server_x509_verify_function env s
    = Some (if fst (gnutls_certificate_verify_peers3 env)
               =? GNUTLS_E_NO_CERTIFICATE_FOUND
            then GNUTLS_E_SUCCESS else GNUTLS_E_CERTIFICATE_ERROR,
            with_trace s (trace s ++ evs)) /\
    sockopt_calls evs = [].
Proof.
  intros Hv. unfold tlshd_server_x509_verify_function.
  destruct (gnutls_certificate_verify_peers3 env) as [r status].
  cbn [fst].
  destruct (Z.eqb_spec r GNUTLS_E_SUCCESS) as [->|Hr].
  - change (GNUTLS_E_SUCCESS =? GNUTLS_E_NO_CERTIFICATE_FOUND) with false.
    cbv iota. step.
    destruct (Z.eqb_spec status 0) as [->|Hs]; [contradiction Hv; reflexivity|].
    cbn [negb]. unfold ret. eexists [_]. split; reflexivity.
  - destruct (r =? GNUTLS_E_NO_CERTIFICATE_FOUND);
      step; unfold ret; eexists [_]; split; reflexivity.
Qed.

(** C10. When chain verification succeeds with a clean status but the
    list of peer certificates is NULL or has no entries, the
    verification callback returns GNUTLS_E_CERTIFICATE_ERROR and stores
    no identity; when verification reports that the peer offered no
    certificate, it returns GNUTLS_E_SUCCESS. *)
Theorem empty_peer_list_is_certificate_error (s : state) :
  (gnutls_certificate_verify_peers3 env = (GNUTLS_E_SUCCESS, 0) ->
   gnutls_certificate_get_peers env = None \/
   gnutls_certificate_get_peers env = Some [] ->
   exists s',
     tlshd_server_x509_verify_function env s
     = Some (GNUTLS_E_CERTIFICATE_ERROR, s') /\
     tlshd_remote_peerid s' = tlshd_remote_peerid s) /\
  (fst (gnutls_certificate_verify_peers3 env) = GNUTLS_E_NO_CERTIFICATE_FOUND ->
   exists s',
     tlshd_server_x509_verify_function env s = Some (GNUTLS_E_SUCCESS, s') /\
     tlshd_remote_peerid s' = tlshd_remote_peerid s /\
     tlshd_num_remote_peerids s' = tlshd_num_remote_peerids s).
Proof.
  split.
  - intros Hv Hp. destruct (verify_function_empty s Hv Hp) as (evs & Hrun & _).
    eexists. split; [exact Hrun|reflexivity].
  - intros Hv.
    destruct (verify_function_rejects s) as (evs & Hrun & _).
    { intros E. rewrite E in Hv. discriminate Hv. }
    rewrite Hv in Hrun.
    eexists. split; [exact Hrun|]. split; reflexivity.
Qed.

(** C6. For a verified peer that offers [n] certificates, the callback
    leaves min(n, 10) recorded identities, those of the first
    certificates in order, in an array that still has ten entries; with
    at least one certificate, and so also with more than ten, it returns
    GNUTLS_E_SUCCESS. *)
Theorem peer_identities_capped_at_ten (certs : list gnutls_datum_t)
    (s : state) :
  length (tlshd_remote_peerid s) = 10%nat ->
  gnutls_certificate_verify_peers3 env = (GNUTLS_E_SUCCESS, 0) ->
  gnutls_certificate_get_peers env = Some certs ->
  exists r s',
    tlshd_server_x509_verify_function env s = Some (r, s') /\
    tlshd_num_remote_peerids s' = Z.min (Z.of_nat (length certs)) 10 /\
    firstn (Z.to_nat (tlshd_num_remote_peerids s')) (tlshd_remote_peerid s')
    = peer_serials env (firstn 10 certs) /\
    length (tlshd_remote_peerid s') = 10%nat /\
    (certs <> [] -> r = GNUTLS_E_SUCCESS).
Proof.
  intros Ha Hv Hp.
  destruct certs as [|c certs].
  - destruct (verify_function_empty s Hv (or_intror Hp)) as (evs & Hrun & _).
    eexists _, _. split; [exact Hrun|]. rewrite Hp. norm.
    repeat split; [exact Ha|]. intros H. contradiction H. reflexivity.
  - destruct (verify_function_records (c :: certs) s Ha Hv Hp)
      as (s' & Hrun & Hnum & Harr & _); [discriminate|].
    exists GNUTLS_E_SUCCESS, s'. split; [exact Hrun|].
    split; [exact Hnum|].
    assert (Hlen : length (peer_serials env (firstn 10 (c :: certs)))
                   = Nat.min (length (c :: certs)) 10).
    { unfold peer_serials. rewrite length_map, length_firstn. lia. }
    split; [|split; [|reflexivity]].
    + rewrite Hnum, Harr.
      replace (Z.to_nat (Z.min (Z.of_nat (length (c :: certs))) 10))
        with (length (peer_serials env (firstn 10 (c :: certs)))) by lia.
      rewrite firstn_app, Nat.sub_diag, firstn_all, firstn_O, app_nil_r.
      reflexivity.
    + rewrite Harr, length_app, Hlen, length_skipn, Ha. lia.
Qed.

End PeerIdentities.

(** *** The server handshake *)

Section ServerHandshake.

Variable cfg : build_config.
Variable env : environment.
Hypothesis Hmat : key_material_complete env.

Lemma safe_verify_function : safe (tlshd_server_x509_verify_function env).
Proof.
  intros s [Ha Hn].
  destruct (gnutls_certificate_verify_peers3 env) as [r status] eqn:Hv.
  destruct (Z.eq_dec r GNUTLS_E_SUCCESS) as [->|Hr];
    [destruct (Z.eq_dec status 0) as [->|Hs]|].
  - destruct (gnutls_certificate_get_peers env) as [[|c certs]|] eqn:Hp.
    + destruct (verify_function_empty env s Hv (or_intror Hp))
        as (evs & Hrun & _).
      eexists _, _. split; [exact Hrun|]. rewrite Hp. split; [exact Ha|].
      norm. lia.
    + destruct (verify_function_records env (c :: certs) s Ha Hv Hp)
        as (s' & Hrun & Hnum & Harr & _); [discriminate|].
      eexists _, s'. split; [exact Hrun|]. split; [|lia].
      rewrite Harr, length_app, length_skipn, Ha.
      unfold peer_serials. rewrite length_map, length_firstn. lia.
    + destruct (verify_function_empty env s Hv (or_introl Hp))
        as (evs & Hrun & _).
      eexists _, _. split; [exact Hrun|]. rewrite Hp. split; [exact Ha|].
      norm. lia.
  - destruct (verify_function_rejects env s) as (evs & Hrun & _).
    { rewrite Hv. intros E. inversion E. contradiction. }
    eexists _, _. split; [exact Hrun|]. split; assumption.
  - destruct (verify_function_rejects env s) as (evs & Hrun & _).
    { rewrite Hv. intros E. inversion E. contradiction. }
    eexists _, _. split; [exact Hrun|]. split; assumption.
Qed.

Lemma emits_only_log_issuers (rdn : list (option string)) (i : nat) :
  emits_only (log_issuers rdn i).
Proof.
  revert i. induction rdn as [|[dn|] rest IH]; intros i; cbn [log_issuers].
  - apply emits_only_ret.
  - unfold tlshd_log_debug. apply emits_only_bind;
      [apply emits_only_emit|intros _; apply IH].
  - apply IH.
Qed.

Lemma emits_only_retrieve_key_cb (rdn : list (option string)) :
  emits_only (tlshd_x509_retrieve_key_cb env rdn).
Proof.
  unfold tlshd_x509_retrieve_key_cb, tlshd_x509_log_issuers, tlshd_log_debug.
  apply emits_only_bind.
  - destruct (length rdn <? 1)%nat; [apply emits_only_ret|].
    apply emits_only_bind; [apply emits_only_emit|].
    intros _. apply emits_only_log_issuers.
  - intros _. emits.
Qed.

Lemma safe_psk_cb (username : string) : safe (tlshd_server_psk_cb env username).
Proof.
  intros s [Ha Hn]. unfold tlshd_server_psk_cb.
  step.
  destruct (to_key_serial_t (keyctl_search env username) <? 0).
  { step. unfold ret. eexists _, _. split; [reflexivity|]. split; assumption. }
  destruct (tlshd_keyring_get_psk_key env
              (to_key_serial_t (keyctl_search env username))).
  2:{ step. unfold ret. eexists _, _. split; [reflexivity|].
      split; assumption. }
  unfold set_tlshd_remote_peerid, set_tlshd_num_remote_peerids.
  step. norm. step by (apply array_set_run; lia).
  step. step. step. step. unfold ret. norm.
  eexists _, _. split; [reflexivity|]. split; norm; [|lia].
  rewrite length_array_update; lia.
Qed.

Lemma safe_run_callback (session : gnutls_session_t) (cb : hs_callback) :
  server_session env session -> safe (run_callback session cb).
Proof.
  intros [->| ->]; destruct cb; cbn [run_callback x509_session psk_session
    retrieve_function verify_function psk_server_credentials_function];
    try apply safe_ret.
  - apply safe_bind; [|intros ?; apply safe_ret].
    apply emits_only_safe, emits_only_retrieve_key_cb.
  - apply safe_verify_function.
  - apply safe_bind; [apply safe_psk_cb|intros ?; apply safe_ret].
Qed.

Lemma safe_run_callbacks (session : gnutls_session_t)
    (cbs : list hs_callback) :
  server_session env session -> safe (run_callbacks env session cbs).
Proof.
  intros Hs. induction cbs as [|cb rest IH]; cbn [run_callbacks].
  - apply safe_ret.
  - apply safe_bind; [apply safe_run_callback; exact Hs|].
    intros r. destruct (r =? 0); [exact IH|apply safe_ret].
Qed.

Lemma safe_start_tls_handshake (session : gnutls_session_t)
    (parms : tlshd_handshake_parms) :
  server_session env session ->
  safe (tlshd_start_tls_handshake cfg env session parms).
Proof.
  intros Hs. unfold tlshd_start_tls_handshake.
  apply safe_bind; [apply emits_only_safe, emits_only_emit|]. intros _.
  apply safe_bind.
  { apply emits_only_safe. unfold tlshd_gnutls_priority_set. emits. }
  intros _. apply safe_bind.
  { unfold gnutls_handshake. apply safe_bind;
      [apply safe_run_callbacks; exact Hs|].
    intros r. apply emits_only_safe. emits. }
  intros r. destruct (r =? GNUTLS_E_SUCCESS); [|apply safe_ret].
  apply safe_bind; [|intros ?; apply safe_ret].
  apply emits_only_safe, emits_only_initialize_ktls. exact Hmat.
Qed.

Lemma run_callbacks_psk_skip (pre rest : list hs_callback) (s : state) :
  (forall u, ~ In (CbPskLookup u) pre) ->
  run_callbacks env (psk_session env) (pre ++ rest) s
  = run_callbacks env (psk_session env) rest s.
Proof.
  intros Hpre. induction pre as [|cb pre IH]; [reflexivity|].
  assert (Hpre' : forall u, ~ In (CbPskLookup u) pre).
  { intros u Hin. apply (Hpre u). right. exact Hin. }
  destruct cb as [rdn| |u].
  - cbn [app run_callbacks]. step. exact (IH Hpre').
  - cbn [app run_callbacks]. step. exact (IH Hpre').
  - exfalso. apply (Hpre u). left. reflexivity.
Qed.

End ServerHandshake.

(** *** The server's own credentials *)

Section ServerCredentials.

Variable env : environment.
Variable parms : tlshd_handshake_parms.

Lemma server_get_cert_run (s : state) :
  tlshd_x509_server_get_cert env parms s
  = Some (fst (server_cert_answer env parms),
          with_server_cert
            (with_trace s (trace s ++ [server_cert_event env parms]))
            (stored (tlshd_server_cert s)
                    (snd (server_cert_answer env parms)))).
Proof.
  unfold tlshd_x509_server_get_cert, server_cert_answer, server_cert_event.
  destruct (x509_cert parms =? TLS_NO_CERT); cbn [negb].
  - destruct (tlshd_config_get_server_cert env) as [r [c|]];
      destruct s; reflexivity.
  - destruct (tlshd_keyring_get_cert env (x509_cert parms)) as [r [c|]];
      destruct s; reflexivity.
Qed.

Lemma server_get_privkey_run (s : state) :
  let k := tlshd_server_privkey s in
  tlshd_x509_server_get_privkey env parms s
  = Some (fst (server_privkey_answer env parms k),
          with_server_privkey
            (with_trace s (trace s ++ [server_privkey_event env parms k]))
            (stored k (snd (server_privkey_answer env parms k)))).
Proof.
  unfold tlshd_x509_server_get_privkey, server_privkey_answer,
    server_privkey_event.
  destruct (x509_privkey parms =? TLS_NO_PRIVKEY); cbn [negb].
  - destruct (tlshd_config_get_server_privkey env) as [r [c|]];
      destruct s; reflexivity.
  - destruct s; reflexivity.
Qed.

Lemma safe_server_get_cert : safe (tlshd_x509_server_get_cert env parms).
Proof.
  intros s Hs. rewrite server_get_cert_run. eexists _, _.
  split; [reflexivity|exact Hs].
Qed.

Lemma safe_server_get_privkey : safe (tlshd_x509_server_get_privkey env parms).
Proof.
  intros s Hs. rewrite server_get_privkey_run. eexists _, _.
  split; [reflexivity|exact Hs].
Qed.

End ServerCredentials.

Lemma returns_after_safe {A B} (m : M A) (k : A -> M B) :
  safe m -> (forall a, returns (k a)) -> returns (bind m k).
Proof.
  intros Hm Hk s Hs. destruct (Hm s Hs) as (a & s1 & Hrun & H1).
  destruct (Hk a s1 H1) as (b & s2 & Hrun').
  exists b, s2. unfold bind. rewrite Hrun. exact Hrun'.
Qed.

(** server.c around a handshake helper that returns. *)
Section ServerEntry.

Variable env : environment.
Variable helper : gnutls_session_t -> tlshd_handshake_parms -> M unit.
Variable parms : tlshd_handshake_parms.
Hypothesis Hhelper :
  forall session, server_session env session -> returns (helper session parms).

Lemma returns_server_x509_handshake :
  returns (tlshd_server_x509_handshake env helper parms).
Proof.
  unfold tlshd_server_x509_handshake, tlshd_log_gnutls_error, tlshd_log_debug.
  destruct (negb (gnutls_certificate_allocate_credentials env
                  =? GNUTLS_E_SUCCESS));
    [apply emits_only_returns, emits_only_emit|].
  apply returns_after_emits; [apply emits_only_emit|]. intros _.
  apply returns_then_emits; [|intros _; apply emits_only_emit].
  destruct (gnutls_certificate_set_x509_system_trust env <? 0);
    [apply emits_only_returns, emits_only_emit|].
  apply returns_after_emits; [apply emits_only_emit|]. intros _.
  apply returns_after_safe; [apply safe_server_get_cert|]. intros got_cert.
  destruct (negb got_cert); [apply emits_only_returns, emits_only_ret|].
  apply returns_after_safe; [apply safe_server_get_privkey|].
  intros got_privkey.
  destruct (negb got_privkey); [apply emits_only_returns, emits_only_ret|].
  destruct (negb (gnutls_init env =? GNUTLS_E_SUCCESS));
    [apply emits_only_returns, emits_only_emit|].
  apply returns_after_emits; [apply emits_only_emit|]. intros _.
  apply returns_after_emits; [apply emits_only_emit|]. intros _.
  apply returns_then_emits; [|intros _; apply emits_only_emit].
  apply Hhelper. left. reflexivity.
Qed.

Lemma returns_server_psk_handshake :
  returns (tlshd_server_psk_handshake env helper parms).
Proof.
  unfold tlshd_server_psk_handshake, tlshd_log_gnutls_error.
  destruct (negb (gnutls_psk_allocate_server_credentials env
                  =? GNUTLS_E_SUCCESS));
    [apply emits_only_returns, emits_only_emit|].
  apply returns_after_emits; [apply emits_only_emit|]. intros _.
  apply returns_then_emits; [|intros _; apply emits_only_emit].
  destruct (negb (gnutls_init env =? GNUTLS_E_SUCCESS));
    [apply emits_only_returns, emits_only_emit|].
  apply returns_after_emits; [apply emits_only_emit|]. intros _.
  apply returns_after_emits; [apply emits_only_emit|]. intros _.
  apply returns_then_emits; [|intros _; apply emits_only_emit].
  apply Hhelper. right. reflexivity.
Qed.

End ServerEntry.

Section PskLookups.

Variable env : environment.

Lemma psk_lookup_events_no_sockopt (evs : list event) :
  forallb is_psk_lookup_event evs = true -> sockopt_calls evs = [].
Proof.
  induction evs as [|e evs IH]; [reflexivity|].
  cbn [forallb]. intros H. apply andb_prop in H. destruct H as [He H].
  destruct e; try discriminate He; cbn; apply IH; exact H.
Qed.

(** The callbacks of a handshake on the session of the PSK handshake:
    only the lookups do anything, and the first that fails ends the
    handshake. *)
Lemma psk_callbacks_run (cbs : list hs_callback) :
  forall s : state,
    length (tlshd_remote_peerid s) = 10%nat ->
    exists r s' evs,
      run_callbacks env (psk_session env) cbs s = Some (r, s') /\
      trace s' = trace s ++ evs /\
      forallb is_psk_lookup_event evs = true /\
      ((exists u, In (CbPskLookup u) cbs) ->
       exists u rest, evs = EvKeyctlSearch u :: rest) /\
      ((exists u, In (CbPskLookup u) cbs /\
                  to_key_serial_t (keyctl_search env u) < 0) ->
       r = Z.neg (hs_abort env)).
Proof.
  induction cbs as [|cb cbs IH]; intros s Ha.
  - exists (hs_result env), s, []. cbn [run_callbacks]. unfold ret.
    split; [reflexivity|]. split; [rewrite app_nil_r; reflexivity|].
    split; [reflexivity|].
    split; intros (u & H); [destruct H|destruct H as [[] _]].
  - assert (Hskip :
              (forall u, cb <> CbPskLookup u) ->
              run_callback (psk_session env) cb = ret 0 ->
              exists r s' evs,
                run_callbacks env (psk_session env) (cb :: cbs) s
                = Some (r, s') /\
                trace s' = trace s ++ evs /\
                forallb is_psk_lookup_event evs = true /\
                ((exists u, In (CbPskLookup u) (cb :: cbs)) ->
                 exists u rest, evs = EvKeyctlSearch u :: rest) /\
                ((exists u, In (CbPskLookup u) (cb :: cbs) /\
                            to_key_serial_t (keyctl_search env u) < 0) ->
                 r = Z.neg (hs_abort env))).
    { intros Hne Hrun.
      destruct (IH s Ha) as (r & s' & evs & Hr & Htr & Hall & Hfirst & Hfail).
      exists r, s', evs. cbn [run_callbacks]. rewrite Hrun.
      split; [exact Hr|]. split; [exact Htr|]. split; [exact Hall|].
      split.
      - intros (u & [E|Hin]); [exfalso; exact (Hne u E)|].
        apply Hfirst. exists u. exact Hin.
      - intros (u & [E|Hin] & Hneg); [exfalso; exact (Hne u E)|].
        apply Hfail. exists u. split; assumption. }
    destruct cb as [rdn| |u].
    + apply Hskip; [intros u E; discriminate E|reflexivity].
    + apply Hskip; [intros u E; discriminate E|reflexivity].
    + clear Hskip.
      cbn [run_callbacks run_callback psk_session
           psk_server_credentials_function].
      unfold tlshd_server_psk_cb.
      destruct (Z.ltb_spec (to_key_serial_t (keyctl_search env u)) 0)
        as [Hneg|Hpos].
      { eexists _, _, [EvKeyctlSearch u; _].
        split.
        { rewrite !bind_bind. step. step. step. step.
          cbn [fst]. change (-1 =? 0) with false. cbv iota. reflexivity. }
        norm. split; [rewrite <- app_assoc; reflexivity|].
        split; [reflexivity|]. split; [intros _; eauto|].
        intros _. reflexivity. }
      destruct (tlshd_keyring_get_psk_key env
                  (to_key_serial_t (keyctl_search env u))) as [key|] eqn:Hkey.
      2:{ eexists _, _, [EvKeyctlSearch u; _].
          split.
          { rewrite !bind_bind. step. step. step. step.
            cbn [fst]. change (-1 =? 0) with false. cbv iota. reflexivity. }
          norm. split; [rewrite <- app_assoc; reflexivity|].
          split; [reflexivity|]. split; [intros _; eauto|].
          intros _. reflexivity. }
      set (found :=
             with_num_remote_peerids
               (with_remote_peerid
                  (with_trace s (trace s ++ [EvKeyctlSearch u]))
                  (firstn 0 (tlshd_remote_peerid s)
                   ++ to_key_serial_t (keyctl_search env u)
                   :: skipn 1 (tlshd_remote_peerid s))) 1).
      destruct (IH found) as (r & s' & evs & Hr & Htr & Hall & _ & Hfail).
      { unfold found. norm. rewrite length_array_update; lia. }
      exists r, s', (EvKeyctlSearch u :: evs).
      split.
      { rewrite !bind_bind. step.
        unfold set_tlshd_remote_peerid, set_tlshd_num_remote_peerids.
        step. norm. step by (apply array_set_run; lia).
        step. step. step. step. step. step.
        cbn [fst]. change (0 =? 0) with true. cbv iota. exact Hr. }
      split.
      { rewrite Htr. unfold found. norm. rewrite <- app_assoc. reflexivity. }
      split; [exact Hall|]. split; [intros _; eauto|].
      intros (v & [E|Hin] & Hv).
      * inversion E; subst v. lia.
      * apply Hfail. exists v. split; assumption.
Qed.

End PskLookups.

Section ServerClaims.

Variable cfg : build_config.
Variable env : environment.


(** The helper as modelled from the spec returns when the key material
    is complete, and then keeps the count of identities within the
    array. *)
Lemma start_tls_handshake_returns (parms : tlshd_handshake_parms)
    (session : gnutls_session_t) :
  key_material_complete env ->
  server_session env session ->
  returns (tlshd_start_tls_handshake cfg env session parms).
Proof.
  intros Hmat Hs. apply safe_returns.
  apply safe_start_tls_handshake; assumption.
Qed.

(** C3, as amended.  In a server PSK handshake in which the keyring
    search for a username the remote claims fails, every search runs
    after the session has been created: the lookups are callbacks of the
    handshake.  The handshake then fails, the session is destroyed and
    the credentials are freed, and no socket-option call is made.  When
    the failing search is the first lookup of the handshake, nothing but
    the trace changes. *)
Theorem psk_search_failure_fails_handshake (parms : tlshd_handshake_parms)
    (s : state) (username : string) :
  gnutls_psk_allocate_server_credentials env = GNUTLS_E_SUCCESS ->
  gnutls_init env = GNUTLS_E_SUCCESS ->
  length (tlshd_remote_peerid s) = 10%nat ->
  In (CbPskLookup username) (hs_callbacks env) ->
  to_key_serial_t (keyctl_search env username) < 0 ->
  let setup :=
    [EvCredAlloc; EvSessionInit; EvTransportSetInt (sockfd parms);
     EvTransportSetInt (sockfd parms);
     EvPrioritySet (selected_priority parms s)] in
  let failed :=
    [EvHandshake (Z.neg (hs_abort env)); EvSessionDeinit; EvCredFree] in
  exists s' u lookups,
    tlshd_server_psk_handshake env (tlshd_start_tls_handshake cfg env) parms s
    = Some (tt, s') /\
    trace s' = trace s ++ setup ++ EvKeyctlSearch u :: lookups ++ failed /\
    forallb is_psk_lookup_event lookups = true /\
    sockopt_calls (setup ++ EvKeyctlSearch u :: lookups ++ failed) = [] /\
    (forall pre post,
       hs_callbacks env = pre ++ CbPskLookup username :: post ->
       (forall v, ~ In (CbPskLookup v) pre) ->
       s' = with_trace s
              (trace s ++ setup
               ++ [EvKeyctlSearch username;
                   EvLog LOG_ERROR "failed to search key"] ++ failed)).
Proof.
  intros Halloc Hinit Ha Hin Hsearch setup failed.
  unfold tlshd_server_psk_handshake.
  rewrite Halloc, Hinit.
  change (negb (GNUTLS_E_SUCCESS =? GNUTLS_E_SUCCESS)) with false. cbv iota.
  step. step. step. unfold tlshd_start_tls_handshake.
  step. unfold tlshd_gnutls_priority_set. step. step. step. norm.
  unfold gnutls_handshake. fold (psk_session env).
  match goal with |- context [bind _ _ ?st] =>
    set (started := st);
    destruct (psk_callbacks_run env (hs_callbacks env) started)
      as (r & s1 & evs & Hrun & Htr & Hall & Hfirst & Hfail); [exact Ha|]
  end.
  destruct Hfirst as (u & lookups & Hevs); [exists username; exact Hin|].
  rewrite (Hfail (ex_intro _ username (conj Hin Hsearch))) in Hrun.
  subst evs. cbn [forallb] in Hall.
  rewrite !bind_bind. erewrite bind_run by exact Hrun.
  assert (Hneg : (Z.neg (hs_abort env) =? GNUTLS_E_SUCCESS) = false)
    by reflexivity.
  step. step. rewrite Hneg. step. step. unfold emit. norm.
  eexists _, u, lookups. split; [reflexivity|]. norm.
  split; [|split; [|split]].
  - rewrite Htr. unfold started, setup, failed, selected_priority. norm.
    rewrite <- !app_assoc. reflexivity.
  - apply andb_prop in Hall. apply Hall.
  - apply andb_prop in Hall. destruct Hall as [_ Hall].
    unfold sockopt_calls. rewrite filter_app. cbn [filter is_setsockopt app].
    rewrite filter_app. cbn [filter is_setsockopt app].
    fold (sockopt_calls lookups).
    rewrite (psk_lookup_events_no_sockopt lookups Hall). reflexivity.
  - intros pre post Hcbs Hpre.
    rewrite Hcbs, run_callbacks_psk_skip in Hrun by exact Hpre.
    cbn [run_callbacks run_callback psk_session
         psk_server_credentials_function] in Hrun.
    unfold tlshd_server_psk_cb in Hrun.
    rewrite !bind_bind in Hrun.
    erewrite bind_run in Hrun by reflexivity.
    rewrite (proj2 (Z.ltb_lt _ _) Hsearch) in Hrun.
    rewrite !bind_bind in Hrun.
    erewrite bind_run in Hrun by reflexivity.
    erewrite bind_run in Hrun by reflexivity.
    erewrite bind_run in Hrun by reflexivity.
    cbn [fst] in Hrun. change (-1 =? 0) with false in Hrun. cbv iota in Hrun.
    unfold ret in Hrun. inversion Hrun; subst s1.
    unfold started, setup, failed, selected_priority. norm.
    rewrite <- !app_assoc. reflexivity.
Qed.

End ServerClaims.

(** ** Further properties of the two files

    *** The installer, direction by direction *)

Lemma memcpy_zeroed_exact (src : list byte) (n : nat) (s : state) :
  memcpy (repeat x00 n) src n s
  = if (n <=? length src)%nat then Some (firstn n src, s) else None.
Proof.
  destruct (Nat.leb_spec n (length src)) as [H|H].
  - apply memcpy_zeroed. exact H.
  - unfold memcpy. rewrite (proj2 (Nat.leb_gt _ _) H). reflexivity.
Qed.

Lemma land_pow2 (a : Z) (n : Z) :
  0 <= n -> Z.land a (2 ^ n) = if Z.testbit a n then 2 ^ n else 0.
Proof.
  intros Hn. apply Z.bits_inj'. intros m Hm.
  rewrite Z.land_spec, Z.pow2_bits_eqb by exact Hn.
  destruct (Z.eqb_spec n m) as [->|Hne].
  - rewrite andb_true_r. destruct (Z.testbit a m) eqn:E.
    + rewrite Z.pow2_bits_true by exact Hm. reflexivity.
    + rewrite Z.bits_0. reflexivity.
  - rewrite andb_false_r. destruct (Z.testbit a n).
    + rewrite Z.pow2_bits_false by (intros E; apply Hne; exact E). reflexivity.
    + rewrite Z.bits_0. reflexivity.
Qed.

Lemma land_flag_testbit (a : Z) (n : Z) :
  0 <= n -> (Z.land a (2 ^ n) =? 0) = negb (Z.testbit a n).
Proof.
  intros Hn. rewrite land_pow2 by exact Hn.
  destruct (Z.testbit a n); cbn [negb].
  - apply Z.eqb_neq. pose proof (Z.pow_pos_nonneg 2 n). lia.
  - reflexivity.
Qed.

Section InstallerRuns.

Variable cfg : build_config.
Variable env : environment.

Lemma library_reports_ktls_testbit (read : bool) :
  library_reports_ktls env read
  = negb (gnutls_transport_is_ktls_enabled env =? GNUTLS_E_UNIMPLEMENTED_FEATURE)
    && Z.testbit (gnutls_transport_is_ktls_enabled env) (if read then 0 else 1).
Proof.
  unfold library_reports_ktls. f_equal.
  destruct read.
  - change GNUTLS_KTLS_RECV with (2 ^ 0).
    rewrite land_flag_testbit by lia. apply negb_involutive.
  - change GNUTLS_KTLS_SEND with (2 ^ 1).
    rewrite land_flag_testbit by lia. apply negb_involutive.
Qed.

Lemma is_ktls_enabled_run (read : bool) (s : state) :
  tlshd_is_ktls_enabled cfg env read s
  = Some (offloaded cfg env read,
          with_trace s
            (trace s ++ (if offloaded cfg env read
                         then [EvLog LOG_DEBUG (ktls_enabled_message read)]
                         else []))).
Proof.
  unfold offloaded.
  destruct (HAVE_GNUTLS_TRANSPORT_IS_KTLS_ENABLED cfg) eqn:Hcfg.
  - destruct (library_reports_ktls env read) eqn:H; cbn [andb].
    + apply is_ktls_enabled_true; assumption.
    + rewrite app_nil_r, with_trace_same. apply is_ktls_enabled_false.
      rewrite Hcfg, H. reflexivity.
  - cbn [andb]. rewrite app_nil_r, with_trace_same.
    apply is_ktls_enabled_false. rewrite Hcfg. reflexivity.
Qed.

Lemma tlshd_setsockopt_exact (sock : Z) (read : bool) (i : tls12_crypto_info)
    (len : Z) (s : state) :
  let call := EvSetsockopt sock SOL_TLS (tls_option read) (OptCryptoInfo i) len in
  let answer := setsockopt env (trace s) sock SOL_TLS (tls_option read)
                           (OptCryptoInfo i) len in
  tlshd_setsockopt env sock read i len s
  = Some (fst answer =? 0,
          with_trace s
            (trace s ++ call :: (if fst answer =? 0 then []
                                 else [setsockopt_failure (snd answer)]))).
Proof.
  intros call answer.
  unfold tlshd_setsockopt, sys_setsockopt.
  unfold bind at 1 2 3. unfold get, emit, ret at 1. cbn.
  fold (tls_option read). fold answer.
  destruct answer as [r errno]. cbn [fst snd].
  destruct (r =? 0); [reflexivity|].
  unfold setsockopt_failure.
  destruct ((errno =? EBADF) || (errno =? ENOTSOCK));
    [|destruct ((errno =? EINVAL) || (errno =? ENOENT)
                || (errno =? ENOPROTOOPT))];
    cbn; rewrite <- app_assoc; reflexivity.
Qed.

(** The text shared by the three AES functions, for a direction that is
    not offloaded and whose record state the library hands out: it is
    defined when each [memcpy] stays within its source, and then
    amounts to one call of [tlshd_setsockopt]. *)
Lemma tlshd_set_aes_info_exact (CIPHER : Z)
    (IV_SIZE KEY_SIZE SALT_SIZE REC_SEQ_SIZE : nat)
    (sock : Z) (read : bool) (s : state) (rs : record_state) :
  offloaded cfg env read = false ->
  gnutls_record_get_state env read = (GNUTLS_E_SUCCESS, rs) ->
  let tls12 := gnutls_protocol_get_version env =? GNUTLS_TLS1_2 in
  let i :=
    {| info := {| version := if tls12 then TLS_1_2_VERSION
                             else TLS_1_3_VERSION;
                  cipher_type := CIPHER |};
       iv := if tls12 then firstn IV_SIZE (rs_seq_number rs)
             else firstn IV_SIZE (skipn SALT_SIZE (rs_iv rs));
       key := firstn KEY_SIZE (rs_cipher_key rs);
       salt := firstn SALT_SIZE (rs_iv rs);
       rec_seq := firstn REC_SEQ_SIZE (rs_seq_number rs) |} in
  tlshd_set_aes_info cfg env CIPHER IV_SIZE KEY_SIZE SALT_SIZE REC_SEQ_SIZE
                     sock read s
  = if ((if tls12 then IV_SIZE <=? length (rs_seq_number rs)
         else IV_SIZE <=? length (rs_iv rs) - SALT_SIZE)
        && (SALT_SIZE <=? length (rs_iv rs))
        && (KEY_SIZE <=? length (rs_cipher_key rs))
        && (REC_SEQ_SIZE <=? length (rs_seq_number rs)))%nat
    then tlshd_setsockopt env sock read i (sizeof_crypto_info i)
           (with_trace s (trace s ++ [EvRecordGetState read]))
    else None.
Proof.
  intros Hoff Hst tls12 i.
  unfold tlshd_set_aes_info. unfold bind at 1.
  rewrite is_ktls_enabled_run, Hoff. rewrite app_nil_r, with_trace_same.
  unfold bind at 1. unfold emit at 1. rewrite Hst.
  cbn [negb Z.eqb GNUTLS_E_SUCCESS]. fold tls12.
  set (s1 := with_trace s (trace s ++ [EvRecordGetState read])).
  unfold bind at 1.
  assert (Hiv :
    (if tls12
     then memcpy (repeat x00 IV_SIZE) (rs_seq_number rs) IV_SIZE
     else memcpy (repeat x00 IV_SIZE) (skipn SALT_SIZE (rs_iv rs)) IV_SIZE) s1
    = if (if tls12 then IV_SIZE <=? length (rs_seq_number rs)
          else IV_SIZE <=? length (rs_iv rs) - SALT_SIZE)%nat
      then Some (iv i, s1) else None).
  { subst i. cbn [iv]. destruct tls12.
    - apply memcpy_zeroed_exact.
    - rewrite memcpy_zeroed_exact, length_skipn. reflexivity. }
  rewrite Hiv. clear Hiv.
  destruct (if tls12 then (IV_SIZE <=? length (rs_seq_number rs))%nat
            else (IV_SIZE <=? length (rs_iv rs) - SALT_SIZE)%nat);
    [|reflexivity].
  cbn [andb]. unfold bind at 1. rewrite memcpy_zeroed_exact.
  destruct (SALT_SIZE <=? length (rs_iv rs))%nat; [|reflexivity].
  cbn [andb]. unfold bind at 1. rewrite memcpy_zeroed_exact.
  destruct (KEY_SIZE <=? length (rs_cipher_key rs))%nat; [|reflexivity].
  cbn [andb]. unfold bind at 1. rewrite memcpy_zeroed_exact.
  destruct (REC_SEQ_SIZE <=? length (rs_seq_number rs))%nat; [|reflexivity].
  reflexivity.
Qed.

Lemma tlshd_set_chacha20_poly1305_info_exact
    (sock : Z) (read : bool) (s : state) (rs : record_state) :
  offloaded cfg env read = false ->
  gnutls_record_get_state env read = (GNUTLS_E_SUCCESS, rs) ->
  let tls12 := gnutls_protocol_get_version env =? GNUTLS_TLS1_2 in
  let i :=
    {| info := {| version := if tls12 then TLS_1_2_VERSION
                             else TLS_1_3_VERSION;
                  cipher_type := TLS_CIPHER_CHACHA20_POLY1305 |};
       iv := firstn TLS_CIPHER_CHACHA20_POLY1305_IV_SIZE (rs_iv rs);
       key := firstn TLS_CIPHER_CHACHA20_POLY1305_KEY_SIZE (rs_cipher_key rs);
       salt := [];
       rec_seq := firstn TLS_CIPHER_CHACHA20_POLY1305_REC_SEQ_SIZE
                         (rs_seq_number rs) |} in
  tlshd_set_chacha20_poly1305_info cfg env sock read s
  = if ((TLS_CIPHER_CHACHA20_POLY1305_IV_SIZE <=? length (rs_iv rs))
        && (TLS_CIPHER_CHACHA20_POLY1305_KEY_SIZE <=? length (rs_cipher_key rs))
        && (TLS_CIPHER_CHACHA20_POLY1305_REC_SEQ_SIZE
            <=? length (rs_seq_number rs)))%nat
    then tlshd_setsockopt env sock read i (sizeof_crypto_info i)
           (with_trace s (trace s ++ [EvRecordGetState read]))
    else None.
Proof.
  intros Hoff Hst tls12 i.
  unfold tlshd_set_chacha20_poly1305_info. unfold bind at 1.
  rewrite is_ktls_enabled_run, Hoff. rewrite app_nil_r, with_trace_same.
  unfold bind at 1. unfold emit at 1. rewrite Hst.
  cbn [negb Z.eqb GNUTLS_E_SUCCESS]. fold tls12.
  set (s1 := with_trace s (trace s ++ [EvRecordGetState read])).
  unfold bind at 1. rewrite memcpy_zeroed_exact.
  destruct (TLS_CIPHER_CHACHA20_POLY1305_IV_SIZE <=? length (rs_iv rs))%nat;
    [|reflexivity].
  cbn [andb]. unfold bind at 1. rewrite memcpy_zeroed_exact.
  destruct (TLS_CIPHER_CHACHA20_POLY1305_KEY_SIZE
            <=? length (rs_cipher_key rs))%nat; [|reflexivity].
  cbn [andb]. unfold bind at 1. rewrite memcpy_zeroed_exact.
  destruct (TLS_CIPHER_CHACHA20_POLY1305_REC_SEQ_SIZE
            <=? length (rs_seq_number rs))%nat; [|reflexivity].
  reflexivity.
Qed.

Lemma install_direction_exact (c sock : Z) (read : bool) (s : state)
    (rs : record_state) :
  In c ktls_ciphers ->
  offloaded cfg env read = false ->
  gnutls_record_get_state env read = (GNUTLS_E_SUCCESS, rs) ->
  length (rs_seq_number rs) = 8%nat ->
  install_direction cfg env c sock read s
  = if ((iv_bytes_read env c <=? length (rs_iv rs))
        && (key_size_of c <=? length (rs_cipher_key rs)))%nat
    then tlshd_setsockopt env sock read (filled_info env c rs)
           (sizeof_crypto_info (filled_info env c rs))
           (with_trace s (trace s ++ [EvRecordGetState read]))
    else None.
Proof.
  intros Hc Hoff Hst Hseq.
  assert (Haes : forall CIPHER KEY_SIZE,
    tlshd_set_aes_info cfg env CIPHER 8 KEY_SIZE 4 8 sock read s
    = let i :=
        {| info := {| version := if gnutls_protocol_get_version env
                                    =? GNUTLS_TLS1_2
                                 then TLS_1_2_VERSION else TLS_1_3_VERSION;
                      cipher_type := CIPHER |};
           iv := if gnutls_protocol_get_version env =? GNUTLS_TLS1_2
                 then firstn 8 (rs_seq_number rs)
                 else firstn 8 (skipn 4 (rs_iv rs));
           key := firstn KEY_SIZE (rs_cipher_key rs);
           salt := firstn 4 (rs_iv rs);
           rec_seq := firstn 8 (rs_seq_number rs) |} in
      if ((if (gnutls_protocol_get_version env =? GNUTLS_TLS1_2)%Z
           then 4 else 12) <=? length (rs_iv rs))%nat
         && (KEY_SIZE <=? length (rs_cipher_key rs))%nat
      then tlshd_setsockopt env sock read i (sizeof_crypto_info i)
             (with_trace s (trace s ++ [EvRecordGetState read]))
      else None).
  { intros CIPHER KEY_SIZE.
    rewrite (tlshd_set_aes_info_exact _ _ _ _ _ _ _ _ rs Hoff Hst).
    rewrite Hseq. change (8 <=? 8)%nat with true. rewrite andb_true_r.
    cbv zeta.
    destruct (gnutls_protocol_get_version env =? GNUTLS_TLS1_2) eqn:E12.
    - reflexivity.
    - assert (Hb : ((8 <=? length (rs_iv rs) - 4)
                    && (4 <=? length (rs_iv rs)))%nat
                   = (12 <=? length (rs_iv rs))%nat).
      { destruct (Nat.leb_spec 12 (length (rs_iv rs)));
          destruct (Nat.leb_spec 8 (length (rs_iv rs) - 4));
          destruct (Nat.leb_spec 4 (length (rs_iv rs))); cbn; try reflexivity;
          lia. }
      rewrite Hb. reflexivity. }
  cbv zeta in Haes.
  unfold iv_bytes_read, filled_info.
  destruct Hc as [<-|[<-|[<-|[<-|[]]]]].
  - transitivity (tlshd_set_aes_info cfg env TLS_CIPHER_AES_GCM_128 8 16 4 8
                                     sock read s); [reflexivity|].
    rewrite Haes.
    destruct (gnutls_protocol_get_version env =? GNUTLS_TLS1_2); reflexivity.
  - transitivity (tlshd_set_aes_info cfg env TLS_CIPHER_AES_GCM_256 8 32 4 8
                                     sock read s); [reflexivity|].
    rewrite Haes.
    destruct (gnutls_protocol_get_version env =? GNUTLS_TLS1_2); reflexivity.
  - transitivity (tlshd_set_aes_info cfg env TLS_CIPHER_AES_CCM_128 8 16 4 8
                                     sock read s); [reflexivity|].
    rewrite Haes.
    destruct (gnutls_protocol_get_version env =? GNUTLS_TLS1_2); reflexivity.
  - transitivity (tlshd_set_chacha20_poly1305_info cfg env sock read s);
      [reflexivity|].
    rewrite (tlshd_set_chacha20_poly1305_info_exact _ _ _ rs Hoff Hst).
    rewrite Hseq.
    change (TLS_CIPHER_CHACHA20_POLY1305_REC_SEQ_SIZE <=? 8)%nat with true.
    rewrite andb_true_r. reflexivity.
Qed.

End InstallerRuns.

Lemma setsockopt_failure_is_error (errno : Z) :
  is_error_event (setsockopt_failure errno) = true.
Proof.
  unfold setsockopt_failure.
  destruct ((errno =? EBADF) || (errno =? ENOTSOCK));
    [|destruct ((errno =? EINVAL) || (errno =? ENOENT)
                || (errno =? ENOPROTOOPT))]; reflexivity.
Qed.

Lemma setsockopt_failure_no_target (errno : Z) :
  sockopt_targets [setsockopt_failure errno] = [].
Proof.
  unfold setsockopt_failure.
  destruct ((errno =? EBADF) || (errno =? ENOTSOCK));
    [|destruct ((errno =? EINVAL) || (errno =? ENOENT)
                || (errno =? ENOPROTOOPT))]; reflexivity.
Qed.

Lemma sockopt_targets_app (a b : list event) :
  sockopt_targets (a ++ b) = sockopt_targets a ++ sockopt_targets b.
Proof. unfold sockopt_targets. apply flat_map_app. Qed.

Section DirectionOutcome.

Variable cfg : build_config.
Variable env : environment.

(** A failed direction has logged one error, as its last event; a
    direction that succeeded has logged none. *)
Lemma direction_outcome_errors (c sock : Z) (read : bool) (hist : list event) :
  let d := direction_outcome cfg env c sock read hist in
  if fst d then existsb is_error_event (snd d) = false
  else exists evs e, snd d = evs ++ [e] /\ is_error_event e = true /\
                     existsb is_error_event evs = false.
Proof.
  unfold direction_outcome.
  destruct (offloaded cfg env read); [reflexivity|].
  destruct (gnutls_record_get_state env read) as [r rs].
  destruct (r =? GNUTLS_E_SUCCESS).
  - cbv zeta. cbn [fst snd].
    destruct (fst (setsockopt env (hist ++ [EvRecordGetState read]) sock SOL_TLS
                     (tls_option read) (OptCryptoInfo (filled_info env c rs))
                     (sizeof_crypto_info (filled_info env c rs))) =? 0).
    + reflexivity.
    + eexists [_; _], _. split; [reflexivity|].
      split; [apply setsockopt_failure_is_error|reflexivity].
  - cbn [fst snd]. eexists [_], _. split; [reflexivity|].
    split; reflexivity.
Qed.

(** The socket-option calls of one direction: none when the library has
    offloaded it or the key material cannot be extracted, otherwise one,
    at level SOL_TLS with the option of the direction. *)
Lemma direction_outcome_targets (c sock : Z) (read : bool) (hist : list event) :
  sockopt_targets (snd (direction_outcome cfg env c sock read hist))
  = if offloaded cfg env read then []
    else if fst (gnutls_record_get_state env read) =? GNUTLS_E_SUCCESS
         then [(sock, SOL_TLS, tls_option read)]
         else [].
Proof.
  unfold direction_outcome.
  destruct (offloaded cfg env read); [reflexivity|].
  destruct (gnutls_record_get_state env read) as [r rs]. cbn [fst].
  destruct (r =? GNUTLS_E_SUCCESS); [|reflexivity].
  cbv zeta. cbn [snd].
  change (sockopt_targets (?a :: ?b :: ?l))
    with (sockopt_targets [a; b] ++ sockopt_targets l).
  destruct (fst (setsockopt env (hist ++ [EvRecordGetState read]) sock SOL_TLS
                   (tls_option read) (OptCryptoInfo (filled_info env c rs))
                   (sizeof_crypto_info (filled_info env c rs))) =? 0).
  - reflexivity.
  - rewrite setsockopt_failure_no_target. reflexivity.
Qed.

(** With the key material of the direction complete, the code for a
    cipher of the kernel's set runs to [direction_outcome]. *)
Lemma install_direction_run (c sock : Z) (read : bool) (s : state) :
  In c ktls_ciphers ->
  (forall rs,
     gnutls_record_get_state env read = (GNUTLS_E_SUCCESS, rs) ->
     length (rs_seq_number rs) = 8%nat /\
     (iv_bytes_read env c <= length (rs_iv rs))%nat /\
     (key_size_of c <= length (rs_cipher_key rs))%nat) ->
  install_direction cfg env c sock read s
  = Some (fst (direction_outcome cfg env c sock read (trace s)),
          with_trace s
            (trace s ++ snd (direction_outcome cfg env c sock read (trace s)))).
Proof.
  intros Hc Hmat. unfold direction_outcome.
  destruct (offloaded cfg env read) eqn:Hoff.
  - unfold offloaded in Hoff. apply andb_true_iff in Hoff.
    destruct Hoff as [Hcfg Hrep].
    apply install_direction_offloaded; assumption.
  - destruct (gnutls_record_get_state env read) as [r rs] eqn:Hst.
    destruct (Z.eqb_spec r GNUTLS_E_SUCCESS) as [->|Hr].
    + destruct (Hmat rs eq_refl) as (Hseq & Hiv & Hkey).
      rewrite (install_direction_exact cfg env c sock read s rs Hc Hoff Hst Hseq).
      rewrite (proj2 (Nat.leb_le _ _) Hiv), (proj2 (Nat.leb_le _ _) Hkey).
      cbn [andb]. rewrite tlshd_setsockopt_exact. cbv zeta. norm.
      rewrite <- app_assoc. reflexivity.
    + assert (Hne : (r =? GNUTLS_E_SUCCESS) = false)
        by (apply Z.eqb_neq; exact Hr).
      unfold install_direction.
      destruct (c =? GNUTLS_CIPHER_AES_128_GCM);
        [|destruct (c =? GNUTLS_CIPHER_AES_256_GCM);
          [|destruct (c =? GNUTLS_CIPHER_AES_128_CCM)]];
        unfold tlshd_set_aes_gcm128_info, tlshd_set_aes_gcm256_info,
          tlshd_set_aes_ccm128_info, tlshd_set_aes_info,
          tlshd_set_chacha20_poly1305_info;
        unfold bind at 1; rewrite is_ktls_enabled_run, Hoff;
        rewrite app_nil_r, with_trace_same;
        unfold bind at 1; unfold emit at 1; rewrite Hst, Hne; cbn [negb];
        unfold tlshd_log_gnutls_error, bind, emit, ret; norm;
        rewrite <- app_assoc; reflexivity.
Qed.

(** [tlshd_initialize_ktls] as a whole, once TCP_ULP is set and for a
    cipher the build supports: the send direction on the outgoing
    descriptor, then, if that succeeded, the receive direction on the
    incoming one. *)
Lemma initialize_ktls_run (s : state) :
  key_material_complete env ->
  fst (ulp_answer env s) <> -1 ->
  ktls_supported cfg (gnutls_cipher_get env) = true ->
  let c := gnutls_cipher_get env in
  let sockin := fst (gnutls_transport_get_int2 env) in
  let sockout := snd (gnutls_transport_get_int2 env) in
  let d1 := direction_outcome cfg env c sockout false (trace s ++ [ulp_call env]) in
  let d2 := direction_outcome cfg env c sockin true
              (trace s ++ ulp_call env :: snd d1) in
  tlshd_initialize_ktls cfg env s
  = Some (if fst d1 && fst d2 then 0 else EIO,
          with_trace s
            (trace s ++ ulp_call env :: snd d1
             ++ (if fst d1 then snd d2 else []))).
Proof.
  intros Hmat Hulp Hsup c sockin sockout d1 d2.
  assert (Hc : In c ktls_ciphers) by (apply (ktls_supported_in cfg); exact Hsup).
  rewrite (initialize_ktls_dispatch cfg env s Hulp Hsup).
  fold c sockin sockout.
  unfold both_directions, and_then.
  rewrite !bind_bind.
  erewrite bind_run.
  2:{ apply install_direction_run; [exact Hc|].
      intros rs Hrs. exact (Hmat false rs Hrs). }
  norm. fold d1.
  destruct (fst d1) eqn:E1.
  - erewrite bind_run.
    2:{ apply install_direction_run; [exact Hc|].
        intros rs Hrs. exact (Hmat true rs Hrs). }
    norm. rewrite <- app_assoc. cbn [app]. fold d2.
    unfold ret. cbn [andb]. rewrite <- !app_assoc. cbn [app].
    destruct (fst d2); reflexivity.
  - unfold ret, bind. cbn [andb]. rewrite app_nil_r, <- app_assoc.
    reflexivity.
Qed.

End DirectionOutcome.

Section InstallerProperties.

Variable cfg : build_config.
Variable env : environment.

(** X1. [tlshd_is_ktls_enabled] answers for one direction from one bit
    of the library's answer: bit 0 (GNUTLS_KTLS_RECV) for receiving,
    bit 1 (GNUTLS_KTLS_SEND) for sending.  It says no when the build
    lacks the query or the library answers
    GNUTLS_E_UNIMPLEMENTED_FEATURE, and it logs one debug line exactly
    when it says yes. *)
Theorem ktls_enabled_reads_direction_flag (read : bool) (s : state) :
  let r := gnutls_transport_is_ktls_enabled env in
  let b := HAVE_GNUTLS_TRANSPORT_IS_KTLS_ENABLED cfg
           && (negb (r =? GNUTLS_E_UNIMPLEMENTED_FEATURE)
               && Z.testbit r (if read then 0 else 1)) in
  tlshd_is_ktls_enabled cfg env read s
  = Some (b, with_trace s
               (trace s ++ (if b
                            then [EvLog LOG_DEBUG (ktls_enabled_message read)]
                            else []))).
Proof.
  intros r b. rewrite is_ktls_enabled_run. unfold offloaded.
  rewrite library_reports_ktls_testbit. reflexivity.
Qed.

(** X2. [tlshd_setsockopt] makes one call to the kernel, at level
    SOL_TLS with TLS_RX for the receive direction and TLS_TX for the
    send direction, and returns true exactly when the kernel returned
    0.  On success it logs nothing; on failure it logs one error, which
    for EBADF and ENOTSOCK speaks of the descriptor and for EINVAL,
    ENOENT and ENOPROTOOPT of the algorithm. *)
Theorem setsockopt_reports_kernel_answer (sock : Z) (read : bool)
    (i : tls12_crypto_info) (len : Z) (s : state) :
  let optname := if read then TLS_RX else TLS_TX in
  let call := EvSetsockopt sock SOL_TLS optname (OptCryptoInfo i) len in
  let answer := setsockopt env (trace s) sock SOL_TLS optname
                           (OptCryptoInfo i) len in
  exists b evs,
    tlshd_setsockopt env sock read i len s
    = Some (b, with_trace s (trace s ++ call :: evs)) /\
    (b = true <-> fst answer = 0) /\
    (b = true -> evs = []) /\
    (b = false ->
     exists e, evs = [e] /\ is_error_event e = true /\
       sockopt_calls evs = [] /\
       (snd answer = EBADF \/ snd answer = ENOTSOCK ->
        e = EvLog LOG_ERROR
              "The kernel's socket file descriptor is no longer valid.") /\
       (snd answer = EINVAL \/ snd answer = ENOENT
        \/ snd answer = ENOPROTOOPT ->
        e = EvLog LOG_ERROR
              "The kernel does not support the requested algorithm.")).
Proof.
  intros optname call answer.
  pose proof (tlshd_setsockopt_exact env sock read i len s) as Hrun.
  cbv zeta in Hrun. fold (tls_option read) in optname.
  subst optname. fold call answer in Hrun.
  eexists _, _. split; [exact Hrun|].
  destruct (Z.eqb_spec (fst answer) 0) as [E|E].
  - split; [split; auto|]. split; [reflexivity|]. intros H. discriminate H.
  - split; [split; [intros H; discriminate H|intros H; contradiction]|].
    split; [intros H; discriminate H|]. intros _.
    eexists. split; [reflexivity|].
    split; [apply setsockopt_failure_is_error|].
    unfold setsockopt_failure. split; [|split].
    + destruct ((snd answer =? EBADF) || (snd answer =? ENOTSOCK));
        [|destruct ((snd answer =? EINVAL) || (snd answer =? ENOENT)
                    || (snd answer =? ENOPROTOOPT))]; reflexivity.
    + intros [-> | ->]; reflexivity.
    + intros [-> | [-> | ->]]; reflexivity.
Qed.

(** X3. For a direction the library has not offloaded, when
    [gnutls_record_get_state] fails the code of each of the four
    ciphers logs the library's error and returns false: it makes no
    socket-option call. *)
Theorem missing_key_material_installs_nothing (c sock : Z) (read : bool)
    (s : state) :
  In c ktls_ciphers ->
  offloaded cfg env read = false ->
  fst (gnutls_record_get_state env read) <> GNUTLS_E_SUCCESS ->
  exists evs,
    install_direction cfg env c sock read s
    = Some (false, with_trace s (trace s ++ evs)) /\
    evs = [EvRecordGetState read;
           EvGnutlsError (fst (gnutls_record_get_state env read))] /\
    sockopt_calls evs = [].
Proof.
  intros Hc Hoff Hst.
  eexists. split; [|split; reflexivity].
  rewrite install_direction_run.
  - unfold direction_outcome. rewrite Hoff.
    destruct (gnutls_record_get_state env read) as [r rs]. cbn [fst] in *.
    rewrite (proj2 (Z.eqb_neq _ _) Hst). reflexivity.
  - exact Hc.
  - intros rs Hrs. rewrite Hrs in Hst. contradiction Hst. reflexivity.
Qed.

(** X4. The structure passed to the kernel for a cipher of the kernel's
    set carries the kernel's constant for that cipher, the TLS 1.2
    version constant for TLS 1.2 and the TLS 1.3 constant for any other
    protocol version, the leading bytes of the key datum as the key,
    the leading bytes of the IV datum as the salt and the sequence
    number as the record sequence; its fields have the sizes of the
    kernel's structure, 40 bytes in all for the 128-bit AES ciphers and
    56 for AES-256-GCM and ChaCha20-Poly1305.  For an AES cipher under
    TLS 1.3 the salt followed by the IV is the first twelve bytes of
    the IV datum. *)
Theorem installed_structure_matches_kernel_layout (c sock : Z) (read : bool)
    (s : state) (rs : record_state) :
  In c ktls_ciphers ->
  offloaded cfg env read = false ->
  gnutls_record_get_state env read = (GNUTLS_E_SUCCESS, rs) ->
  length (rs_seq_number rs) = 8%nat ->
  (iv_bytes_read env c <= length (rs_iv rs))%nat ->
  (key_size_of c <= length (rs_cipher_key rs))%nat ->
  exists i b evs,
    install_direction cfg env c sock read s
    = Some (b, with_trace s (trace s ++ evs)) /\
    sockopt_calls evs
    = [EvSetsockopt sock SOL_TLS (tls_option read) (OptCryptoInfo i)
                    (sizeof_crypto_info i)] /\
    cipher_type (info i) = kernel_cipher c /\
    version (info i)
    = (if gnutls_protocol_get_version env =? GNUTLS_TLS1_2
       then TLS_1_2_VERSION else TLS_1_3_VERSION) /\
    key i = firstn (key_size_of c) (rs_cipher_key rs) /\
    salt i = firstn (salt_size_of c) (rs_iv rs) /\
    rec_seq i = rs_seq_number rs /\
    (length (iv i) = iv_size_of c /\ length (key i) = key_size_of c /\
     length (salt i) = salt_size_of c /\ length (rec_seq i) = 8%nat) /\
    sizeof_crypto_info i
    = (if (c =? GNUTLS_CIPHER_AES_256_GCM)
          || (c =? GNUTLS_CIPHER_CHACHA20_POLY1305) then 56 else 40) /\
    (is_aes_gcm_or_ccm c = true ->
     gnutls_protocol_get_version env <> GNUTLS_TLS1_2 ->
     salt i ++ iv i = firstn 12 (rs_iv rs)).
Proof.
  intros Hc Hoff Hst Hseq Hiv Hkey.
  exists (filled_info env c rs).
  assert (Hrun := install_direction_run cfg env c sock read s Hc).
  unfold direction_outcome in Hrun. rewrite Hoff, Hst in Hrun.
  change (GNUTLS_E_SUCCESS =? GNUTLS_E_SUCCESS) with true in Hrun.
  cbv zeta iota in Hrun. cbn [fst snd] in Hrun.
  eexists _, _. split.
  { apply Hrun. intros rs' Hrs'. inversion Hrs'; subst rs'. auto. }
  split.
  { unfold sockopt_calls. cbn [filter is_setsockopt].
    match goal with |- context [if ?b then _ else _] => destruct b end;
      [reflexivity|].
    change (filter is_setsockopt [setsockopt_failure ?e])
      with (sockopt_calls [setsockopt_failure e]).
    replace (sockopt_calls [setsockopt_failure _]) with (@nil event);
      [reflexivity|].
    unfold setsockopt_failure.
    repeat match goal with |- context [if ?b then _ else _] => destruct b end;
      reflexivity. }
  assert (Hlens :
    length (iv (filled_info env c rs)) = iv_size_of c /\
    length (key (filled_info env c rs)) = key_size_of c /\
    length (salt (filled_info env c rs)) = salt_size_of c /\
    length (rec_seq (filled_info env c rs)) = 8%nat).
  { unfold filled_info, iv_bytes_read in *. cbn [iv key salt rec_seq].
    destruct (is_aes_gcm_or_ccm c
              && (gnutls_protocol_get_version env =? GNUTLS_TLS1_2)) eqn:E;
      rewrite !length_firstn, ?length_skipn, Hseq.
    - assert (iv_size_of c = 8%nat).
      { apply andb_true_iff in E. destruct E as [E _].
        destruct Hc as [<-|[<-|[<-|[<-|[]]]]]; try reflexivity.
        discriminate E. }
      lia.
    - lia. }
  unfold filled_info at 1 2 3 4 5. cbn [info version cipher_type key salt rec_seq].
  split; [reflexivity|]. split; [reflexivity|]. split; [reflexivity|].
  split; [reflexivity|].
  split; [rewrite <- Hseq; apply firstn_all|].
  split; [exact Hlens|].
  split.
  { unfold sizeof_crypto_info.
    destruct Hlens as (-> & -> & -> & ->).
    destruct Hc as [<-|[<-|[<-|[<-|[]]]]]; reflexivity. }
  intros Ha Hv. unfold filled_info. cbn [salt iv].
  rewrite Ha, (proj2 (Z.eqb_neq _ _) Hv). cbn [andb].
  assert (Hs : salt_size_of c = 4%nat /\ iv_size_of c = 8%nat).
  { destruct Hc as [<-|[<-|[<-|[<-|[]]]]]; try (split; reflexivity).
    discriminate Ha. }
  destruct Hs as [-> ->].
  rewrite <- (firstn_skipn 4 (firstn 12 (rs_iv rs))).
  rewrite firstn_firstn, skipn_firstn_comm. reflexivity.
Qed.

(** X5. The code of a cipher copies from the IV and key datums the
    number of bytes the cipher calls for, and does not consult their
    [size]: with a record state the library hands out for a direction
    it has not offloaded, the function is defined exactly when the IV
    datum holds the bytes that are read (the salt under TLS 1.2 with
    AES, otherwise the salt and the IV) and the key datum holds the
    key. *)
Theorem install_reads_exactly_the_cipher_sizes (c sock : Z) (read : bool)
    (s : state) (rs : record_state) :
  In c ktls_ciphers ->
  offloaded cfg env read = false ->
  gnutls_record_get_state env read = (GNUTLS_E_SUCCESS, rs) ->
  length (rs_seq_number rs) = 8%nat ->
  (install_direction cfg env c sock read s <> None <->
   (iv_bytes_read env c <= length (rs_iv rs))%nat /\
   (key_size_of c <= length (rs_cipher_key rs))%nat).
Proof.
  intros Hc Hoff Hst Hseq.
  rewrite (install_direction_exact cfg env c sock read s rs Hc Hoff Hst Hseq).
  destruct (Nat.leb_spec (iv_bytes_read env c) (length (rs_iv rs))) as [Hi|Hi];
    destruct (Nat.leb_spec (key_size_of c) (length (rs_cipher_key rs)))
      as [Hk|Hk]; cbn [andb].
  - rewrite tlshd_setsockopt_exact. split; [auto|]. intros _ H. discriminate H.
  - split; [intros H; contradiction H; reflexivity|]. intros [_ H]. lia.
  - split; [intros H; contradiction H; reflexivity|]. intros [H _]. lia.
  - split; [intros H; contradiction H; reflexivity|]. intros [H _]. lia.
Qed.

(** X6. When the negotiated cipher has no case in this build, because
    it is not one of the four or because the kernel headers of the build
    lack it, [tlshd_initialize_ktls] returns EIO after logging that the
    cipher is not supported.  TCP_ULP has been set by then; no key
    material is extracted and nothing is installed. *)
Theorem unsupported_cipher_is_rejected_after_tcp_ulp (s : state) :
  fst (ulp_answer env s) <> -1 ->
  ktls_supported cfg (gnutls_cipher_get env) = false ->
  exists evs,
    tlshd_initialize_ktls cfg env s
    = Some (EIO, with_trace s (trace s ++ evs)) /\
    evs = [ulp_call env;
           EvLog LOG_ERROR "tlshd does not support the requested cipher."] /\
    existsb is_record_get_state evs = false /\
    existsb is_tls_install evs = false.
Proof.
  intros Hulp Hsup. eexists.
  split; [apply initialize_ktls_unsupported; assumption|].
  split; [reflexivity|]. split; reflexivity.
Qed.

End InstallerProperties.

Section InstallerWhole.

Variable cfg : build_config.
Variable env : environment.

Lemma direction_outcome_success (c sock : Z) (read : bool) (hist : list event) :
  fst (direction_outcome cfg env c sock read hist) = true ->
  offloaded cfg env read = false ->
  (fst (gnutls_record_get_state env read) =? GNUTLS_E_SUCCESS) = true.
Proof.
  unfold direction_outcome. intros H Hoff. rewrite Hoff in H.
  destruct (gnutls_record_get_state env read) as [r rs]. cbn [fst].
  destruct (r =? GNUTLS_E_SUCCESS); [reflexivity|discriminate H].
Qed.

(** X7. With the key material complete [tlshd_initialize_ktls] always
    returns, with 0 or with EIO (the positive value), having changed
    nothing but the trace.  It returns EIO exactly when it has logged an
    error, and then it has logged exactly one, as the last thing it
    did. *)
Theorem install_fails_iff_error_logged (s : state) :
  key_material_complete env ->
  exists r evs,
    tlshd_initialize_ktls cfg env s
    = Some (r, with_trace s (trace s ++ evs)) /\
    (r = 0 \/ r = EIO) /\
    (r = 0 <-> existsb is_error_event evs = false) /\
    (r = EIO ->
     exists evs' e, evs = evs' ++ [e] /\ is_error_event e = true /\
                    existsb is_error_event evs' = false).
Proof.
  intros Hmat.
  destruct (Z.eq_dec (fst (ulp_answer env s)) (-1)) as [Hulp|Hulp].
  { rewrite (initialize_ktls_ulp_failure cfg env s Hulp).
    eexists _, _. split; [reflexivity|]. split; [right; reflexivity|].
    split; [split; intros H; discriminate H|].
    intros _. eexists [_], _. repeat split. }
  destruct (ktls_supported cfg (gnutls_cipher_get env)) eqn:Hsup.
  2:{ rewrite (initialize_ktls_unsupported cfg env s Hulp Hsup).
      eexists _, _. split; [reflexivity|]. split; [right; reflexivity|].
      split; [split; intros H; discriminate H|].
      intros _. eexists [_], _. repeat split. }
  rewrite (initialize_ktls_run cfg env s Hmat Hulp Hsup).
  set (c := gnutls_cipher_get env).
  set (sockin := fst (gnutls_transport_get_int2 env)).
  set (sockout := snd (gnutls_transport_get_int2 env)).
  set (d1 := direction_outcome cfg env c sockout false _).
  set (d2 := direction_outcome cfg env c sockin true _).
  pose proof (direction_outcome_errors cfg env c sockout false
                (trace s ++ [ulp_call env])) as H1.
  pose proof (direction_outcome_errors cfg env c sockin true
                (trace s ++ ulp_call env :: snd d1)) as H2.
  cbv zeta in H1, H2. fold d1 in H1. fold d2 in H2.
  eexists _, _. split; [reflexivity|].
  destruct (fst d1) eqn:E1; [destruct (fst d2) eqn:E2|]; cbn [andb].
  - split; [left; reflexivity|].
    split; [|intros H; discriminate H].
    split; [|reflexivity]. intros _.
    cbn [existsb is_error_event ulp_call orb].
    rewrite existsb_app, H1, H2. reflexivity.
  - destruct H2 as (evs' & e & Hd2 & He & Hevs').
    split; [right; reflexivity|].
    split.
    + split; [intros H; discriminate H|].
      cbn [existsb is_error_event ulp_call orb].
      rewrite existsb_app, H1, Hd2, existsb_app. cbn [existsb orb].
      rewrite He, orb_true_r. intros H. discriminate H.
    + intros _. exists (ulp_call env :: snd d1 ++ evs'), e.
      split; [rewrite Hd2; cbn [app]; rewrite <- app_assoc; reflexivity|].
      split; [exact He|].
      cbn [existsb is_error_event ulp_call orb].
      rewrite existsb_app, H1, Hevs'. reflexivity.
  - destruct H1 as (evs' & e & Hd1 & He & Hevs').
    split; [right; reflexivity|].
    split.
    + split; [intros H; discriminate H|].
      cbn [existsb is_error_event ulp_call orb].
      rewrite app_nil_r, Hd1, existsb_app. cbn [existsb orb].
      rewrite He, orb_true_r. intros H. discriminate H.
    + intros _. exists (ulp_call env :: evs'), e.
      split; [rewrite Hd1, app_nil_r; reflexivity|].
      split; [exact He|].
      cbn [existsb is_error_event ulp_call orb]. exact Hevs'.
Qed.

(** X8. The socket-option calls of [tlshd_initialize_ktls] are made in
    a fixed order: TCP_ULP on the session's descriptor, TLS_TX on the
    outgoing descriptor, TLS_RX on the incoming descriptor, a direction
    the library has offloaded being left out.  The calls made are
    always an initial part of that plan, and all of it when the
    function returns 0. *)
Theorem install_calls_follow_offload_state (s : state) :
  key_material_complete env ->
  let sockin := fst (gnutls_transport_get_int2 env) in
  let sockout := snd (gnutls_transport_get_int2 env) in
  let planned :=
    (gnutls_transport_get_int env, SOL_TCP, TCP_ULP)
    :: (if offloaded cfg env false then [] else [(sockout, SOL_TLS, TLS_TX)])
    ++ (if offloaded cfg env true then [] else [(sockin, SOL_TLS, TLS_RX)]) in
  exists r evs,
    tlshd_initialize_ktls cfg env s
    = Some (r, with_trace s (trace s ++ evs)) /\
    (exists rest, planned = sockopt_targets evs ++ rest) /\
    (r = 0 -> sockopt_targets evs = planned).
Proof.
  intros Hmat sockin sockout planned.
  destruct (Z.eq_dec (fst (ulp_answer env s)) (-1)) as [Hulp|Hulp].
  { rewrite (initialize_ktls_ulp_failure cfg env s Hulp).
    eexists _, _. split; [reflexivity|].
    split; [eexists; reflexivity|]. intros H. discriminate H. }
  destruct (ktls_supported cfg (gnutls_cipher_get env)) eqn:Hsup.
  2:{ rewrite (initialize_ktls_unsupported cfg env s Hulp Hsup).
      eexists _, _. split; [reflexivity|].
      split; [eexists; reflexivity|]. intros H. discriminate H. }
  rewrite (initialize_ktls_run cfg env s Hmat Hulp Hsup).
  set (c := gnutls_cipher_get env).
  fold sockin sockout.
  set (d1 := direction_outcome cfg env c sockout false _).
  set (d2 := direction_outcome cfg env c sockin true _).
  pose proof (direction_outcome_targets cfg env c sockout false
                (trace s ++ [ulp_call env])) as T1.
  pose proof (direction_outcome_targets cfg env c sockin true
                (trace s ++ ulp_call env :: snd d1)) as T2.
  fold d1 in T1. fold d2 in T2.
  pose proof (direction_outcome_success c sockout false
                (trace s ++ [ulp_call env])) as S1.
  pose proof (direction_outcome_success c sockin true
                (trace s ++ ulp_call env :: snd d1)) as S2.
  fold d1 in S1. fold d2 in S2.
  eexists _, _. split; [reflexivity|].
  change (sockopt_targets (ulp_call env :: ?l))
    with ((gnutls_transport_get_int env, SOL_TCP, TCP_ULP)
          :: sockopt_targets l).
  rewrite sockopt_targets_app, T1. subst planned.
  change (tls_option false) with TLS_TX in *.
  change (tls_option true) with TLS_RX in *.
  destruct (fst d1) eqn:E1.
  - rewrite T2.
    destruct (offloaded cfg env false) eqn:O1.
    + cbn [app]. destruct (offloaded cfg env true) eqn:O2.
      * split; [exists []; reflexivity|reflexivity].
      * destruct (fst d2) eqn:E2.
        -- rewrite (S2 eq_refl eq_refl).
           split; [exists []; reflexivity|reflexivity].
        -- cbn [andb].
           split; [|intros H; discriminate H].
           destruct (fst (gnutls_record_get_state env true)
                     =? GNUTLS_E_SUCCESS);
             [exists []|eexists]; reflexivity.
    + rewrite (S1 eq_refl eq_refl). cbn [app].
      destruct (offloaded cfg env true) eqn:O2.
      * split; [exists []; reflexivity|reflexivity].
      * destruct (fst d2) eqn:E2.
        -- rewrite (S2 eq_refl eq_refl).
           split; [exists []; reflexivity|reflexivity].
        -- cbn [andb].
           split; [|intros H; discriminate H].
           destruct (fst (gnutls_record_get_state env true)
                     =? GNUTLS_E_SUCCESS);
             [exists []|eexists]; reflexivity.
  - cbn [andb]. rewrite app_nil_r.
    split; [|intros H; discriminate H].
    destruct (offloaded cfg env false) eqn:O1.
    + cbn [app]. eexists. reflexivity.
    + destruct (fst (gnutls_record_get_state env false) =? GNUTLS_E_SUCCESS);
        cbn [app]; eexists; reflexivity.
Qed.

End InstallerWhole.

(** *** Priority strings in any build *)

Section PriorityRuns.

Variable cfg : build_config.
Variable env : environment.

(** [emit_cipher_string] appends the keyword of a cipher that has a case
    in this build, and leaves the string alone for any other. *)
Lemma emit_cipher_string_exact (p : string) (c : Z) (s : state) :
  emit_cipher_string cfg p c s
  = if ktls_supported cfg c then strcat 1024 p (cipher_keyword c) s
    else Some (p, s).
Proof.
  unfold emit_cipher_string, ktls_supported, cipher_keyword.
  destruct (Z.eqb_spec c GNUTLS_CIPHER_CHACHA20_POLY1305) as [->|H4].
  { cbn. destruct (defined_TLS_CIPHER_CHACHA20_POLY1305 cfg); reflexivity. }
  destruct (Z.eqb_spec c GNUTLS_CIPHER_AES_256_GCM) as [->|H2].
  { cbn. destruct (defined_TLS_CIPHER_AES_GCM_256 cfg); reflexivity. }
  destruct (Z.eqb_spec c GNUTLS_CIPHER_AES_128_GCM) as [->|H1].
  { cbn. destruct (defined_TLS_CIPHER_AES_GCM_128 cfg); reflexivity. }
  destruct (Z.eqb_spec c GNUTLS_CIPHER_AES_128_CCM) as [->|H3].
  { cbn. destruct (defined_TLS_CIPHER_AES_CCM_128 cfg); reflexivity. }
  reflexivity.
Qed.

Lemma strcat_exact (cap : nat) (a b : string) (s : state) :
  strcat cap a b s
  = if (String.length a + String.length b + 1 <=? cap)%nat
    then Some (a +++ b, s) else None.
Proof. unfold strcat. destruct (_ <=? _)%nat; reflexivity. Qed.

(** The loop over the library's list: it appends the keywords of the
    ciphers that have a case in this build, in the order of the list,
    and is defined exactly when they fit the buffer. *)
Lemma emit_cipher_loop_exact (ciphers : list Z) (s : state) :
  forall (n i : nat) (p : string),
    (i + n = length ciphers)%nat ->
    (String.length p + 1 <= 1024)%nat ->
    emit_cipher_loop cfg ciphers i n p s
    = if (String.length p
          + String.length (cipher_segment
                             (filter (ktls_supported cfg) (skipn i ciphers)))
          + 1 <=? 1024)%nat
      then Some (p +++ cipher_segment
                         (filter (ktls_supported cfg) (skipn i ciphers)), s)
      else None.
Proof.
  induction n as [|n IH]; intros i p Hlen Hp.
  - rewrite skipn_all2 by lia. cbn [filter cipher_segment String.length].
    rewrite Nat.add_0_r, (proj2 (Nat.leb_le _ _) Hp), string_append_empty_r.
    reflexivity.
  - destruct (nth_error ciphers i) as [c|] eqn:Hnth.
    2:{ apply nth_error_None in Hnth. lia. }
    rewrite (skipn_cons_nth _ _ _ Hnth). cbn [filter emit_cipher_loop].
    unfold bind at 1. unfold array_get. rewrite Hnth. unfold ret at 1.
    unfold bind at 1. rewrite emit_cipher_string_exact.
    destruct (ktls_supported cfg c).
    + cbn [cipher_segment]. rewrite strcat_exact, string_length_append.
      destruct (Nat.leb_spec (String.length p
                              + String.length (cipher_keyword c) + 1) 1024)
        as [Hfit|Hfit].
      * rewrite IH by (rewrite ?string_length_append; lia).
        rewrite string_length_append, string_append_assoc, Nat.add_assoc.
        reflexivity.
      * rewrite (proj2 (Nat.leb_gt _ _)) by lia. reflexivity.
    + apply IH; [lia|exact Hp].
Qed.

Lemma priority_prefix_length : String.length priority_prefix = 77%nat.
Proof. reflexivity. Qed.

Lemma psk_suffix_length : String.length psk_suffix = 25%nat.
Proof. reflexivity. Qed.

(** [tlshd_gnutls_priority_init] when the library's default priority
    cannot be allocated. *)
Lemma priority_init_first_failure (s : state) :
  gnutls_priority_init env None <> GNUTLS_E_SUCCESS ->
  tlshd_gnutls_priority_init cfg env s
  = Some (- EIO,
          mkState (trace s ++ [EvPriorityInit None (gnutls_priority_init env None);
                               EvGnutlsError (gnutls_priority_init env None)])
                  (tlshd_num_remote_peerids s) (tlshd_remote_peerid s)
                  None (tlshd_gnutls_priority_psk s)
                  (live_priorities s) (next_handle s)
                  (tlshd_server_privkey s) (tlshd_server_cert s)).
Proof.
  intros H. apply Z.eqb_neq in H.
  unfold tlshd_gnutls_priority_init.
  step by (apply lib_priority_init_fail; exact H).
  step. norm. rewrite H. cbn [negb].
  step. unfold ret. norm. rewrite <- app_assoc. reflexivity.
Qed.

(** [tlshd_gnutls_priority_init] once the default priority is allocated
    and its ciphers are listed. *)
Lemma priority_init_exact (ciphers : list Z) (s : state) :
  gnutls_priority_init env None = GNUTLS_E_SUCCESS ->
  gnutls_priority_cipher_list env = (Z.of_nat (length ciphers), ciphers) ->
  let normal := priority_prefix
                +++ cipher_segment (filter (ktls_supported cfg) ciphers) in
  let psk := normal +++ psk_suffix in
  let r2 := gnutls_priority_init env (Some normal) in
  let r3 := gnutls_priority_init env (Some psk) in
  let h := next_handle s in
  let started :=
    [EvPriorityInit None GNUTLS_E_SUCCESS;
     EvLog LOG_DEBUG ("Normal priority string: " +++ normal +++ newline);
     EvPriorityDeinit (Some h)] in
  tlshd_gnutls_priority_init cfg env s
  = if (String.length normal + 1 <=? 1024)%nat then
      if r2 =? GNUTLS_E_SUCCESS then
        if (String.length normal + String.length psk_suffix + 1 <=? 1024)%nat
        then
          if r3 =? GNUTLS_E_SUCCESS then
            Some (0,
                  mkState (trace s ++ started
                           ++ [EvPriorityInit (Some normal) GNUTLS_E_SUCCESS;
                               EvLog LOG_DEBUG ("PSK priority string: "
                                                +++ psk +++ newline);
                               EvPriorityInit (Some psk) GNUTLS_E_SUCCESS])
                          (tlshd_num_remote_peerids s) (tlshd_remote_peerid s)
                          (Some (S h)) (Some (S (S h)))
                          (S (S h) :: S h
                           :: remove Nat.eq_dec h (live_priorities s))
                          (S (S (S h)))
                          (tlshd_server_privkey s) (tlshd_server_cert s))
          else
            Some (- EIO,
                  mkState (trace s ++ started
                           ++ [EvPriorityInit (Some normal) GNUTLS_E_SUCCESS;
                               EvLog LOG_DEBUG ("PSK priority string: "
                                                +++ psk +++ newline);
                               EvPriorityInit (Some psk) r3;
                               EvPriorityDeinit (Some (S h));
                               EvGnutlsError r3])
                          (tlshd_num_remote_peerids s) (tlshd_remote_peerid s)
                          (Some (S h)) None
                          (remove Nat.eq_dec (S h)
                                  (remove Nat.eq_dec h (live_priorities s)))
                          (S (S h))
                          (tlshd_server_privkey s) (tlshd_server_cert s))
        else None
      else
        Some (- EIO,
              mkState (trace s ++ started
                       ++ [EvPriorityInit (Some normal) r2; EvGnutlsError r2])
                      (tlshd_num_remote_peerids s) (tlshd_remote_peerid s)
                      None (tlshd_gnutls_priority_psk s)
                      (remove Nat.eq_dec h (live_priorities s))
                      (S h)
                      (tlshd_server_privkey s) (tlshd_server_cert s))
    else None.
Proof.
  intros Hinit Hlist normal psk r2 r3 h started.
  unfold tlshd_gnutls_priority_init.
  step by (apply lib_priority_init_ok; exact Hinit).
  step. norm.
  change (GNUTLS_E_SUCCESS =? GNUTLS_E_SUCCESS) with true. cbn [negb].
  rewrite Hlist.
  destruct (Z.ltb_spec (Z.of_nat (length ciphers)) 0) as [Hneg|_]; [lia|].
  step. step. step.
  rewrite Nat2Z.id.
  change ((("" +++ "SECURE256:+SECURE128:-COMP-ALL")
            +++ ":-VERS-ALL:+VERS-TLS1.3:%NO_TICKETS") +++ ":-CIPHER-ALL")
    with priority_prefix.
  rewrite ?bind_bind.
  unfold bind at 1.
  rewrite emit_cipher_loop_exact
    by (rewrite ?priority_prefix_length; cbn; lia).
  cbn [skipn]. fold normal.
  replace (String.length priority_prefix
           + String.length (cipher_segment
                              (filter (ktls_supported cfg) ciphers)))%nat
    with (String.length normal)
    by (unfold normal; rewrite string_length_append; reflexivity).
  destruct (Nat.leb_spec (String.length normal + 1) 1024) as [Hfit|Hfit];
    [|reflexivity].
  step. step. norm.
  erewrite bind_run.
  2:{ apply lib_priority_deinit_head with (l := live_priorities s).
      reflexivity. }
  norm. fold h.
  destruct (Z.eqb_spec r2 GNUTLS_E_SUCCESS) as [H2|H2]; subst r2.
  - step by (apply lib_priority_init_ok; exact H2).
    step. norm.
    change (GNUTLS_E_SUCCESS =? GNUTLS_E_SUCCESS) with true. cbn [negb].
    rewrite ?bind_bind. unfold bind at 1. rewrite strcat_exact.
    destruct (Nat.leb_spec (String.length normal + String.length psk_suffix + 1)
                           1024) as [Hfit3|Hfit3].
    2:{ rewrite (proj2 (Nat.leb_gt _ _)); [reflexivity|].
        change ":+PSK:+DHE-PSK:+ECDHE-PSK"%string with psk_suffix. lia. }
    rewrite (proj2 (Nat.leb_le _ _));
      [|change ":+PSK:+DHE-PSK:+ECDHE-PSK"%string with psk_suffix; lia].
    fold psk_suffix. fold psk.
    step.
    destruct (Z.eqb_spec r3 GNUTLS_E_SUCCESS) as [H3|H3]; subst r3.
    + step by (apply lib_priority_init_ok; exact H3).
      step. norm.
      change (GNUTLS_E_SUCCESS =? GNUTLS_E_SUCCESS) with true. cbn [negb].
      unfold ret. norm. rewrite <- !app_assoc. reflexivity.
    + apply Z.eqb_neq in H3.
      step by (apply lib_priority_init_fail; exact H3).
      step. norm. rewrite H3. cbn [negb].
      step. norm.
      erewrite bind_run.
      2:{ apply lib_priority_deinit_head
            with (l := remove Nat.eq_dec h (live_priorities s)).
          reflexivity. }
      step. norm.
      unfold ret. norm. rewrite <- !app_assoc. reflexivity.
  - apply Z.eqb_neq in H2.
    step by (apply lib_priority_init_fail; exact H2).
    step. norm. rewrite H2. cbn [negb].
    step. unfold ret. norm. rewrite <- !app_assoc. reflexivity.
Qed.

End PriorityRuns.

Lemma lib_priority_deinit_live (env : environment) (h : handle) (s : state) :
  In h (live_priorities s) ->
  lib_priority_deinit (Some h) s
  = Some (tt, with_heap (with_trace s (trace s ++ [EvPriorityDeinit (Some h)]))
                        (remove Nat.eq_dec h (live_priorities s))
                        (next_handle s)).
Proof.
  intros H. unfold lib_priority_deinit, bind, emit, get, put. norm.
  replace (existsb (Nat.eqb h) (live_priorities s)) with true; [reflexivity|].
  symmetry. apply existsb_exists. exists h. split; [exact H|apply Nat.eqb_refl].
Qed.

Lemma lib_priority_deinit_dead (h : handle) (s : state) :
  ~ In h (live_priorities s) ->
  lib_priority_deinit (Some h) s = None.
Proof.
  intros H. unfold lib_priority_deinit, bind, emit, get, put. norm.
  replace (existsb (Nat.eqb h) (live_priorities s)) with false; [reflexivity|].
  symmetry. apply not_true_is_false. intros E.
  apply existsb_exists in E. destruct E as (x & Hx & E).
  apply Nat.eqb_eq in E. subst x. exact (H Hx).
Qed.

Lemma remove_head_other (x y : nat) (l : list nat) :
  x <> y -> remove Nat.eq_dec x (y :: l) = y :: remove Nat.eq_dec x l.
Proof.
  intros H. cbn. destruct (Nat.eq_dec x y); [contradiction|reflexivity].
Qed.

Lemma cipher_segment_counts (l : list Z) :
  (forall c, In c l -> In c ktls_ciphers) ->
  String.length (cipher_segment l)
  = (13 * count_occ Z.eq_dec l GNUTLS_CIPHER_AES_128_GCM
     + 13 * count_occ Z.eq_dec l GNUTLS_CIPHER_AES_256_GCM
     + 13 * count_occ Z.eq_dec l GNUTLS_CIPHER_AES_128_CCM
     + 19 * count_occ Z.eq_dec l GNUTLS_CIPHER_CHACHA20_POLY1305)%nat.
Proof.
  induction l as [|c l IH]; intros Hin; [reflexivity|].
  cbn [cipher_segment]. rewrite string_length_append, IH
    by (intros x Hx; apply Hin; right; exact Hx).
  destruct (Hin c (or_introl eq_refl)) as [<-|[<-|[<-|[<-|[]]]]];
    cbn [count_occ];
    repeat match goal with
           | |- context [Z.eq_dec ?a ?b] =>
               destruct (Z.eq_dec a b) as [E|E];
               [try discriminate E|try (contradiction E; reflexivity)]
           end;
    cbn [cipher_keyword String.length]; cbn; lia.
Qed.

(** The keywords of the four ciphers, each once, take 58 characters. *)
Lemma distinct_segment_length (l : list Z) :
  NoDup l -> (forall c, In c l -> In c ktls_ciphers) ->
  (String.length (cipher_segment l) <= 58)%nat.
Proof.
  intros Hnd Hin. rewrite cipher_segment_counts by exact Hin.
  pose proof (proj1 (NoDup_count_occ Z.eq_dec l) Hnd) as H.
  pose proof (H GNUTLS_CIPHER_AES_128_GCM).
  pose proof (H GNUTLS_CIPHER_AES_256_GCM).
  pose proof (H GNUTLS_CIPHER_AES_128_CCM).
  pose proof (H GNUTLS_CIPHER_CHACHA20_POLY1305).
  lia.
Qed.

Section PriorityProperties.

Variable cfg : build_config.
Variable env : environment.

Lemma supported_filter_short (ciphers : list Z) :
  NoDup ciphers -> (length (filter (ktls_supported cfg) ciphers) <= 4)%nat.
Proof.
  intros H.
  change 4%nat with (length ktls_ciphers).
  apply NoDup_incl_length; [apply NoDup_filter; exact H|].
  intros c Hc. apply filter_In in Hc. destruct Hc as [_ Hc].
  apply (ktls_supported_in cfg). exact Hc.
Qed.

Lemma priority_strings_fit (ciphers : list Z) :
  (length (filter (ktls_supported cfg) ciphers) <= 48)%nat ->
  let normal := priority_prefix
                +++ cipher_segment (filter (ktls_supported cfg) ciphers) in
  (String.length normal + 1 <=? 1024)%nat = true /\
  (String.length normal + String.length psk_suffix + 1 <=? 1024)%nat = true.
Proof.
  intros H normal.
  pose proof (cipher_segment_length (filter (ktls_supported cfg) ciphers)).
  unfold normal. rewrite string_length_append.
  rewrite priority_prefix_length, psk_suffix_length.
  split; apply Nat.leb_le; lia.
Qed.

(** X9. In any build, the keywords of the priority strings are those of
    the ciphers of the library's list for which [tlshd_initialize_ktls]
    of the same build has a case, in the order of the list: for a
    session that negotiated a cipher that was offered the installer goes
    on to install the two directions, and for one that was not offered
    it returns EIO with the cipher unsupported. *)
Theorem priority_offers_what_installer_handles (ciphers : list Z) (s : state) :
  gnutls_priority_init env None = GNUTLS_E_SUCCESS ->
  gnutls_priority_cipher_list env = (Z.of_nat (length ciphers), ciphers) ->
  (length (filter (ktls_supported cfg) ciphers) <= 48)%nat ->
  let offered := filter (ktls_supported cfg) ciphers in
  let normal := priority_prefix +++ cipher_segment offered in
  (exists r s' evs,
     tlshd_gnutls_priority_init cfg env s = Some (r, s') /\
     trace s' = trace s ++ evs /\
     compiled_strings evs
     = None :: Some normal
       :: (if gnutls_priority_init env (Some normal) =? GNUTLS_E_SUCCESS
           then [Some (normal +++ psk_suffix)] else [])) /\
  sublist offered ciphers /\
  (forall (c : Z) (session : environment) (st : state),
     In c ciphers ->
     gnutls_cipher_get session = c ->
     fst (ulp_answer session st) <> -1 ->
     (In c offered ->
      tlshd_initialize_ktls cfg session st
      = both_directions (install_direction cfg session c)
          (fst (gnutls_transport_get_int2 session))
          (snd (gnutls_transport_get_int2 session))
          (with_trace st (trace st ++ [ulp_call session]))) /\
     (~ In c offered ->
      tlshd_initialize_ktls cfg session st
      = Some (EIO,
              with_trace st
                (trace st
                 ++ [ulp_call session;
                     EvLog LOG_ERROR
                           "tlshd does not support the requested cipher."])))).
Proof.
  intros Hinit Hlist Hshort offered normal.
  split; [|split].
  - rewrite (priority_init_exact cfg env ciphers s Hinit Hlist).
    destruct (priority_strings_fit ciphers Hshort) as [F1 F2].
    cbv zeta in F1, F2. cbv zeta. rewrite F1, F2.
    fold offered. fold normal.
    destruct (gnutls_priority_init env (Some normal) =? GNUTLS_E_SUCCESS);
      [destruct (gnutls_priority_init env (Some (normal +++ psk_suffix))
                 =? GNUTLS_E_SUCCESS)|];
      eexists _, _, _; (split; [reflexivity|]); norm;
      (split; [reflexivity|]); reflexivity.
  - apply sublist_filter.
  - intros c session st Hin Hc Hulp. subst c. split.
    + intros Hoff. apply filter_In in Hoff. destruct Hoff as [_ Hsup].
      apply initialize_ktls_dispatch; assumption.
    + intros Hoff.
      apply initialize_ktls_unsupported; [exact Hulp|].
      destruct (ktls_supported cfg (gnutls_cipher_get session)) eqn:E;
        [|reflexivity].
      contradiction Hoff. apply filter_In. auto.
Qed.

(** X10. The strings are built with [strcat] in a buffer of 1024
    bytes, and nothing bounds the library's list: once the default
    priority is allocated and its ciphers are listed,
    [tlshd_gnutls_priority_init] writes past the buffer exactly when
    the prefix, the keywords of the list, the PSK suffix (if the normal
    string compiled) and the terminating NUL take more than 1024
    bytes. *)
Theorem priority_buffer_overflows_exactly_when (ciphers : list Z) (s : state) :
  gnutls_priority_init env None = GNUTLS_E_SUCCESS ->
  gnutls_priority_cipher_list env = (Z.of_nat (length ciphers), ciphers) ->
  let normal := priority_prefix
                +++ cipher_segment (filter (ktls_supported cfg) ciphers) in
  let compiled := gnutls_priority_init env (Some normal) =? GNUTLS_E_SUCCESS in
  (tlshd_gnutls_priority_init cfg env s = None <->
   (1024 < String.length normal
           + (if compiled then String.length psk_suffix else 0) + 1)%nat).
Proof.
  intros Hinit Hlist normal compiled.
  rewrite (priority_init_exact cfg env ciphers s Hinit Hlist).
  cbv zeta. fold normal. fold compiled.
  destruct (Nat.leb_spec (String.length normal + 1) 1024) as [F1|F1].
  - destruct compiled.
    + destruct (Nat.leb_spec (String.length normal
                              + String.length psk_suffix + 1) 1024) as [F2|F2].
      * destruct (_ =? _); (split; [intros H; discriminate H|lia]).
      * split; [lia|reflexivity].
    + split; [intros H; discriminate H|lia].
  - split; [intros _|reflexivity]. destruct compiled; lia.
Qed.

(** X11. A library list without duplicates never overflows the buffer:
    whatever the library answers, [tlshd_gnutls_priority_init] returns,
    and every string it compiles has at most 160 characters, the length
    of the PSK string that names all four ciphers. *)
Theorem distinct_ciphers_fit_the_buffer (ciphers : list Z) (n : Z) (s : state) :
  gnutls_priority_cipher_list env = (n, ciphers) ->
  n < 0 \/ n = Z.of_nat (length ciphers) ->
  NoDup ciphers ->
  exists r s' evs,
    tlshd_gnutls_priority_init cfg env s = Some (r, s') /\
    trace s' = trace s ++ evs /\
    (forall p, In (Some p) (compiled_strings evs) ->
               (String.length p <= 160)%nat).
Proof.
  intros Hlist Hn Hnodup.
  destruct (Z.eq_dec (gnutls_priority_init env None) GNUTLS_E_SUCCESS)
    as [Hinit|Hinit].
  2:{ rewrite (priority_init_first_failure cfg env s Hinit).
      eexists _, _, _. split; [reflexivity|]. norm.
      split; [reflexivity|].
      intros p [H|[]]. discriminate H. }
  destruct Hn as [Hn|Hn].
  { destruct (cipher_list_failure_run cfg env s Hinit) as (s' & Hrun & _ & _ & Htr).
    - rewrite Hlist. exact Hn.
    - eexists _, s', _. split; [exact Hrun|]. split; [exact Htr|].
      intros p [H|[]]. discriminate H. }
  subst n.
  pose proof (supported_filter_short ciphers Hnodup) as Hshort.
  rewrite (priority_init_exact cfg env ciphers s Hinit Hlist).
  destruct (priority_strings_fit ciphers ltac:(lia)) as [F1 F2].
  cbv zeta in F1, F2. cbv zeta. rewrite F1, F2.
  set (normal := priority_prefix
                 +++ cipher_segment (filter (ktls_supported cfg) ciphers)).
  assert (Hlen : (String.length normal <= 135)%nat).
  { unfold normal. rewrite string_length_append, priority_prefix_length.
    assert (String.length
              (cipher_segment (filter (ktls_supported cfg) ciphers)) <= 58)%nat.
    { apply distinct_segment_length; [apply NoDup_filter; exact Hnodup|].
      intros c Hc. apply filter_In in Hc.
      apply (ktls_supported_in cfg). apply Hc. }
    lia. }
  assert (Hlen' : (String.length (normal +++ psk_suffix) <= 160)%nat).
  { rewrite string_length_append, psk_suffix_length. lia. }
  clearbody normal.
  destruct (gnutls_priority_init env (Some normal) =? GNUTLS_E_SUCCESS);
    [destruct (gnutls_priority_init env (Some (normal +++ psk_suffix))
               =? GNUTLS_E_SUCCESS)|];
    eexists _, _, _; (split; [reflexivity|]); norm;
    (split; [reflexivity|]);
    cbn [compiled_strings flat_map app];
    intros p Hp;
    repeat (destruct Hp as [Hp|Hp];
            [try discriminate Hp; inversion Hp; subst p; lia|]);
    destruct Hp.
Qed.

(** X12. [tlshd_gnutls_priority_init] returns 0 or -EIO, and 0 exactly
    when the library allocates the default priority, lists its ciphers
    and compiles both strings.  On success the two file-scope
    priorities are the two objects compiled last, both allocated, and
    the default priority allocated first has been released. *)
Theorem priority_init_succeeds_iff_all_compile (ciphers : list Z) (n : Z)
    (s : state) :
  gnutls_priority_cipher_list env = (n, ciphers) ->
  n < 0 \/ n = Z.of_nat (length ciphers) ->
  (length (filter (ktls_supported cfg) ciphers) <= 48)%nat ->
  let normal := priority_prefix
                +++ cipher_segment (filter (ktls_supported cfg) ciphers) in
  let h := next_handle s in
  exists r s',
    tlshd_gnutls_priority_init cfg env s = Some (r, s') /\
    (r = 0 \/ r = - EIO) /\
    (r = 0 <->
     gnutls_priority_init env None = GNUTLS_E_SUCCESS /\ 0 <= n /\
     gnutls_priority_init env (Some normal) = GNUTLS_E_SUCCESS /\
     gnutls_priority_init env (Some (normal +++ psk_suffix))
     = GNUTLS_E_SUCCESS) /\
    (r = 0 ->
     tlshd_gnutls_priority s' = Some (S h) /\
     tlshd_gnutls_priority_psk s' = Some (S (S h)) /\
     live_priorities s'
     = S (S h) :: S h :: remove Nat.eq_dec h (live_priorities s)).
Proof.
  intros Hlist Hn Hshort normal h.
  destruct (Z.eq_dec (gnutls_priority_init env None) GNUTLS_E_SUCCESS)
    as [Hinit|Hinit].
  2:{ rewrite (priority_init_first_failure cfg env s Hinit).
      eexists _, _. split; [reflexivity|]. split; [right; reflexivity|].
      split; [|intros H; discriminate H].
      split; [intros H; discriminate H|]. intros (H & _). contradiction. }
  destruct Hn as [Hn|Hn].
  { destruct (cipher_list_failure_run cfg env s Hinit) as (s' & Hrun & _).
    - rewrite Hlist. exact Hn.
    - eexists _, s'. split; [exact Hrun|]. split; [right; reflexivity|].
      split; [|intros H; discriminate H].
      split; [intros H; discriminate H|]. intros (_ & H & _). lia. }
  subst n.
  rewrite (priority_init_exact cfg env ciphers s Hinit Hlist).
  destruct (priority_strings_fit ciphers Hshort) as [F1 F2].
  cbv zeta in F1, F2. cbv zeta. rewrite F1, F2. fold normal. fold h.
  destruct (Z.eqb_spec (gnutls_priority_init env (Some normal))
                       GNUTLS_E_SUCCESS) as [H2|H2];
    [destruct (Z.eqb_spec (gnutls_priority_init env
                             (Some (normal +++ psk_suffix)))
                          GNUTLS_E_SUCCESS) as [H3|H3]|];
    eexists _, _; (split; [reflexivity|]).
  - split; [left; reflexivity|]. split.
    + split; [intros _|reflexivity]. repeat split; try assumption. lia.
    + intros _. norm. repeat split.
  - split; [right; reflexivity|].
    split; [|intros H; discriminate H].
    split; [intros H; discriminate H|]. intros (_ & _ & _ & H). contradiction.
  - split; [right; reflexivity|].
    split; [|intros H; discriminate H].
    split; [intros H; discriminate H|]. intros (_ & _ & H & _). contradiction.
Qed.

(** X13. Initialisation and release are inverse on the library's heap:
    after a successful [tlshd_gnutls_priority_init],
    [tlshd_gnutls_priority_deinit] releases both priorities and leaves
    allocated exactly the objects that were allocated before. *)
Theorem priority_init_then_deinit_releases_everything (ciphers : list Z)
    (s s1 : state) :
  gnutls_priority_init env None = GNUTLS_E_SUCCESS ->
  gnutls_priority_cipher_list env = (Z.of_nat (length ciphers), ciphers) ->
  heap_fresh s ->
  tlshd_gnutls_priority_init cfg env s = Some (0, s1) ->
  exists s2,
    tlshd_gnutls_priority_deinit s1 = Some (tt, s2) /\
    live_priorities s2 = live_priorities s /\
    trace s2
    = trace s1 ++ [EvPriorityDeinit (tlshd_gnutls_priority s1);
                   EvPriorityDeinit (tlshd_gnutls_priority_psk s1)].
Proof.
  intros Hinit Hlist Hfresh Hrun.
  rewrite (priority_init_exact cfg env ciphers s Hinit Hlist) in Hrun.
  cbv zeta in Hrun.
  set (h := next_handle s) in *.
  assert (Hh : forall k, (h <= k)%nat -> ~ In k (live_priorities s)).
  { intros k Hk Hin. apply Hfresh in Hin. fold h in Hin. lia. }
  repeat match type of Hrun with
         | (if ?b then _ else _) = _ =>
             destruct b; try discriminate Hrun
         end.
  inversion Hrun; subst s1; clear Hrun.
  rewrite (notin_remove Nat.eq_dec _ h) by (apply Hh; lia).
  unfold tlshd_gnutls_priority_deinit.
  step. norm.
  erewrite bind_run.
  2:{ apply (lib_priority_deinit_live env). norm. right. left. reflexivity. }
  norm. rewrite remove_head_other by lia.
  rewrite remove_cons.
  rewrite (notin_remove Nat.eq_dec _ (S h)) by (apply Hh; lia).
  step. norm.
  rewrite (lib_priority_deinit_live env) by (norm; left; reflexivity).
  norm. rewrite remove_cons.
  rewrite (notin_remove Nat.eq_dec _ (S (S h))) by (apply Hh; lia).
  eexists. split; [reflexivity|]. norm.
  split; [reflexivity|]. rewrite <- !app_assoc. reflexivity.
Qed.

(** X14. When the PSK string fails to compile,
    [tlshd_gnutls_priority_init] releases the priority compiled from
    the normal string but leaves its handle in [tlshd_gnutls_priority]:
    the function returns -EIO with that variable naming an object that
    is no longer allocated, and a following
    [tlshd_gnutls_priority_deinit] releases it a second time. *)
Theorem psk_compile_failure_leaves_released_priority (ciphers : list Z)
    (s : state) :
  gnutls_priority_init env None = GNUTLS_E_SUCCESS ->
  gnutls_priority_cipher_list env = (Z.of_nat (length ciphers), ciphers) ->
  (length (filter (ktls_supported cfg) ciphers) <= 48)%nat ->
  let normal := priority_prefix
                +++ cipher_segment (filter (ktls_supported cfg) ciphers) in
  gnutls_priority_init env (Some normal) = GNUTLS_E_SUCCESS ->
  gnutls_priority_init env (Some (normal +++ psk_suffix)) <> GNUTLS_E_SUCCESS ->
  exists s1 h,
    tlshd_gnutls_priority_init cfg env s = Some (- EIO, s1) /\
    tlshd_gnutls_priority s1 = Some h /\
    ~ In h (live_priorities s1) /\
    tlshd_gnutls_priority_psk s1 = None /\
    tlshd_gnutls_priority_deinit s1 = None.
Proof.
  intros Hinit Hlist Hshort normal H2 H3.
  rewrite (priority_init_exact cfg env ciphers s Hinit Hlist).
  destruct (priority_strings_fit ciphers Hshort) as [F1 F2].
  cbv zeta in F1, F2. cbv zeta. rewrite F1, F2. fold normal.
  rewrite H2. change (GNUTLS_E_SUCCESS =? GNUTLS_E_SUCCESS) with true.
  rewrite (proj2 (Z.eqb_neq _ _) H3). cbv iota.
  eexists _, _. split; [reflexivity|]. norm.
  split; [reflexivity|].
  assert (Hdead : ~ In (S (next_handle s))
                       (remove Nat.eq_dec (S (next_handle s))
                          (remove Nat.eq_dec (next_handle s)
                                  (live_priorities s))))
    by apply remove_In.
  split; [exact Hdead|]. split; [reflexivity|].
  unfold tlshd_gnutls_priority_deinit.
  step. norm. unfold bind at 1.
  rewrite lib_priority_deinit_dead by (norm; exact Hdead).
  reflexivity.
Qed.

(** X15. After a successful [tlshd_gnutls_priority_init],
    [tlshd_gnutls_priority_set] gives a PSK handshake the object
    compiled from the PSK string and a handshake of any other mode the
    object compiled from the normal string; the object is allocated,
    and the function returns what [gnutls_priority_set] returns. *)
Theorem priority_set_follows_auth_mode (ciphers : list Z)
    (parms : tlshd_handshake_parms) (s s1 : state) :
  gnutls_priority_init env None = GNUTLS_E_SUCCESS ->
  gnutls_priority_cipher_list env = (Z.of_nat (length ciphers), ciphers) ->
  tlshd_gnutls_priority_init cfg env s = Some (0, s1) ->
  let normal := priority_prefix
                +++ cipher_segment (filter (ktls_supported cfg) ciphers) in
  let wanted := match auth_mode parms with
                | HANDSHAKE_AUTH_PSK => normal +++ psk_suffix
                | _ => normal
                end in
  exists p evs,
    tlshd_gnutls_priority_set env parms s1
    = Some (gnutls_priority_set env (Some p),
            with_trace s1 (trace s1 ++ [EvPrioritySet (Some p)])) /\
    trace s1 = trace s ++ evs /\
    In (p, Some wanted) (allocations (next_handle s) evs) /\
    In p (live_priorities s1).
Proof.
  intros Hinit Hlist Hrun normal wanted.
  rewrite (priority_init_exact cfg env ciphers s Hinit Hlist) in Hrun.
  cbv zeta in Hrun. fold normal in Hrun.
  repeat match type of Hrun with
         | (if ?b then _ else _) = _ =>
             destruct b; try discriminate Hrun
         end.
  inversion Hrun; subst s1; clear Hrun.
  unfold tlshd_gnutls_priority_set, bind, get, emit, ret. norm.
  subst wanted.
  destruct (auth_mode parms); eexists _, _;
    (split; [reflexivity|]); (split; [reflexivity|]);
    cbn [allocations app Z.eqb GNUTLS_E_SUCCESS];
    (split; [|cbn; tauto]); cbn; tauto.
Qed.

End PriorityProperties.

(** *** Failures after the base priority is allocated *)

Section PriorityFailures.

Variable cfg : build_config.
Variable env : environment.


End PriorityFailures.


(** *** The callbacks and the handshakes of server.c *)

Section ServerProperties.

Variable env : environment.

(** A verified peer with at least one certificate: what the callback
    adds to the trace. *)
Lemma verify_function_trace (certs : list gnutls_datum_t) (s : state) :
  length (tlshd_remote_peerid s) = 10%nat ->
  gnutls_certificate_verify_peers3 env = (GNUTLS_E_SUCCESS, 0) ->
  gnutls_certificate_get_peers env = Some certs ->
  certs <> [] ->
  exists s',
    tlshd_server_x509_verify_function env s = Some (GNUTLS_E_SUCCESS, s') /\
    trace s'
    = trace s
      ++ [EvLog LOG_DEBUG
                (gnutls_certificate_verification_status_print env 0
                   (gnutls_certificate_type_get env));
          EvLog LOG_DEBUG ("The peer offered %d certificate(s)." +++ newline)]
      ++ keyring_events env (firstn 10 certs).
Proof.
  intros Ha Hv Hp Hne.
  unfold tlshd_server_x509_verify_function. rewrite Hv.
  change (GNUTLS_E_SUCCESS =? GNUTLS_E_SUCCESS) with true. cbv iota.
  step. change (negb (0 =? 0)) with false. cbv iota.
  rewrite Hp. step. step. norm. cbn [orb].
  assert (Hpos : 0 < Z.of_nat (length certs)).
  { destruct certs; [contradiction|]. cbn [length]. lia. }
  destruct (Z.eqb_spec (Z.of_nat (length certs)) 0) as [E|_]; [lia|].
  step.
  unfold ARRAY_SIZE_tlshd_remote_peerid.
  destruct (Z.gtb_spec (Z.of_nat (length certs)) 10) as [Hgt|Hle].
  - step. step. norm.
    match goal with |- context [bind (import_peer_certs _ _ _ _ _) _ ?st] =>
      destruct (import_peer_certs_run env certs (Z.to_nat 10) 0 st)
        as (s' & Hrun & _ & _ & Htr)
    end.
    { cbn. lia. }
    { norm. rewrite Ha. cbn. lia. }
    step by (exact Hrun). unfold ret.
    exists s'. split; [reflexivity|]. norm in Htr.
    rewrite Htr, <- !app_assoc. reflexivity.
  - step. step. norm.
    match goal with |- context [bind (import_peer_certs _ _ _ _ _) _ ?st] =>
      destruct (import_peer_certs_run env certs
                  (Z.to_nat (Z.of_nat (length certs))) 0 st)
        as (s' & Hrun & _ & _ & Htr)
    end.
    { cbn. lia. }
    { norm. rewrite Ha. cbn. lia. }
    step by (exact Hrun). unfold ret.
    exists s'. split; [reflexivity|]. norm in Htr.
    rewrite Htr, <- !app_assoc. rewrite Nat2Z.id. cbn [skipn].
    rewrite firstn_all, (firstn_all2 certs) by lia. reflexivity.
Qed.

Lemma keyring_events_all_create (certs : list gnutls_datum_t) :
  filter is_keyring_create (keyring_events env certs) = keyring_events env certs.
Proof.
  induction certs as [|c l IH]; [reflexivity|].
  cbn [keyring_events map filter is_keyring_create].
  f_equal. exact IH.
Qed.

(** X16. A peer whose chain does not verify cleanly gets no identity:
    whenever [gnutls_certificate_verify_peers3] fails or reports a
    non-zero status, the callback imports no certificate into the
    keyring and leaves the recorded identities and their count as they
    were.  It then returns GNUTLS_E_CERTIFICATE_ERROR, except when the
    library reports that the peer offered no certificate, which it lets
    pass with GNUTLS_E_SUCCESS. *)
Theorem unverified_chain_imports_nothing (s : state) :
  gnutls_certificate_verify_peers3 env <> (GNUTLS_E_SUCCESS, 0) ->
  exists r evs,
    tlshd_server_x509_verify_function env s
    = Some (r, with_trace s (trace s ++ evs)) /\
    existsb is_keyring_create evs = false /\
    (r = GNUTLS_E_SUCCESS \/ r = GNUTLS_E_CERTIFICATE_ERROR) /\
    (r = GNUTLS_E_SUCCESS <->
     fst (gnutls_certificate_verify_peers3 env)
     = GNUTLS_E_NO_CERTIFICATE_FOUND).
Proof.
  intros Hv. unfold tlshd_server_x509_verify_function.
  destruct (gnutls_certificate_verify_peers3 env) as [r status].
  cbn [fst].
  destruct (Z.eqb_spec r GNUTLS_E_SUCCESS) as [->|Hr].
  - step.
    destruct (Z.eqb_spec status 0) as [->|Hs]; [contradiction Hv; reflexivity|].
    cbn [negb]. unfold ret. eexists _, [_]. split; [reflexivity|].
    split; [reflexivity|]. split; [right; reflexivity|].
    split; intros H; discriminate H.
  - destruct (Z.eqb_spec r GNUTLS_E_NO_CERTIFICATE_FOUND) as [->|Hn];
      step; unfold ret; eexists _, [_]; (split; [reflexivity|]);
      (split; [reflexivity|]).
    + split; [left; reflexivity|]. split; reflexivity.
    + split; [right; reflexivity|].
      split; [intros H; discriminate H|intros H; contradiction].
Qed.

(** X17. For a verified peer the callback imports into the keyring the
    first ten certificates of the chain and no other, one call of
    [tlshd_keyring_create_cert] each, in the order of the chain and
    with the session's hostname. *)
Theorem keyring_imports_first_ten_certificates (certs : list gnutls_datum_t)
    (s : state) :
  length (tlshd_remote_peerid s) = 10%nat ->
  gnutls_certificate_verify_peers3 env = (GNUTLS_E_SUCCESS, 0) ->
  gnutls_certificate_get_peers env = Some certs ->
  certs <> [] ->
  exists s' evs,
    tlshd_server_x509_verify_function env s = Some (GNUTLS_E_SUCCESS, s') /\
    trace s' = trace s ++ evs /\
    filter is_keyring_create evs
    = map (fun c => EvKeyringCreateCert c
                      (tlshd_keyring_create_cert env c
                                                 (gnutls_session_get_ptr env)))
          (firstn 10 certs) /\
    length (filter is_keyring_create evs) = Nat.min (length certs) 10.
Proof.
  intros Ha Hv Hp Hne.
  destruct (verify_function_trace certs s Ha Hv Hp Hne) as (s' & Hrun & Htr).
  eexists s', _. split; [exact Hrun|]. split; [exact Htr|].
  rewrite filter_app. cbn [filter is_keyring_create app].
  rewrite keyring_events_all_create.
  split; [reflexivity|].
  unfold keyring_events. rewrite length_map, length_firstn. lia.
Qed.

(** X18. The PSK callback records an identity only when it hands a key
    to the library.  The result of the keyring search, a long, is
    narrowed to [key_serial_t] before it is tested and used: a serial
    that fits 32 bits is kept, one from 2^31 to 2^32 - 1 becomes
    negative.  When the narrowed serial is negative, or the key it names
    cannot be loaded, the callback logs the error and returns -1 without
    a key and without touching the recorded identities.  Otherwise it
    returns 0 with the key, stores the narrowed serial as identity 0 and
    sets the count to one. *)
Theorem psk_callback_records_the_found_key (username : string) (s : state) :
  tlshd_remote_peerid s <> [] ->
  let found := keyctl_search env username in
  let psk := to_key_serial_t found in
  (- 2 ^ 31 <= found < 2 ^ 31 -> psk = found) /\
  (2 ^ 31 <= found < 2 ^ 32 -> psk = found - 2 ^ 32) /\
  (psk < 0 \/ tlshd_keyring_get_psk_key env psk = None ->
   exists msg,
     tlshd_server_psk_cb env username s
     = Some ((-1, None),
             with_trace s (trace s ++ [EvKeyctlSearch username;
                                       EvLog LOG_ERROR msg]))) /\
  (forall key,
     0 <= psk -> tlshd_keyring_get_psk_key env psk = Some key ->
     exists s',
       tlshd_server_psk_cb env username s = Some ((0, Some key), s') /\
       tlshd_num_remote_peerids s' = 1 /\
       tlshd_remote_peerid s' = psk :: tl (tlshd_remote_peerid s) /\
       trace s' = trace s ++ [EvKeyctlSearch username]).
Proof.
  intros Ha found psk. split; [|split; [|split]].
  - intros H. unfold psk, to_key_serial_t.
    rewrite Z.mod_small by lia. lia.
  - intros H. unfold psk, to_key_serial_t.
    replace (found + 2 ^ 31) with (found - 2 ^ 31 + 1 * 2 ^ 32) by lia.
    rewrite Z.mod_add by lia. rewrite Z.mod_small by lia. lia.
  - unfold tlshd_server_psk_cb. fold found. fold psk.
    intros H. step.
    destruct (Z.ltb_spec psk 0) as [Hneg|Hpos].
    + step. unfold ret. norm. rewrite <- app_assoc. eexists. reflexivity.
    + destruct H as [H|H]; [lia|]. rewrite H.
      step. unfold ret. norm. rewrite <- app_assoc. eexists. reflexivity.
  - unfold tlshd_server_psk_cb. fold found. fold psk.
    intros key Hpos Hkey. step.
    rewrite (proj2 (Z.ltb_ge _ _) Hpos), Hkey.
    unfold set_tlshd_remote_peerid, set_tlshd_num_remote_peerids.
    step. norm.
    destruct (tlshd_remote_peerid s) as [|x a] eqn:Earr; [contradiction|].
    step by (apply array_set_run; cbn; lia).
    step. step. step. step. unfold ret. norm.
    eexists. split; [reflexivity|]. norm.
    split; [reflexivity|]. split; reflexivity.
Qed.

Section AnyHelper.

Variable helper : gnutls_session_t -> tlshd_handshake_parms -> M unit.
Variable parms : tlshd_handshake_parms.

(** X19. An X.509 handshake that cannot be set up ends before a
    session exists, whatever the handshake helper would do: it is not
    called.  When the credentials cannot be allocated only the error is
    logged; when the system trust store cannot be loaded, the server's
    certificate or its private key cannot be obtained, or the session
    cannot be created, the credentials that were allocated are freed.
    A certificate that the parameters name and the keyring cannot
    supply is not replaced by the configured one.  What the calls for
    the certificate and the key have stored in [tlshd_server_cert] and
    [tlshd_server_privkey] by then stays there. *)
Theorem x509_handshake_stops_before_session (s : state) :
  let alloc := gnutls_certificate_allocate_credentials env in
  let trust := gnutls_certificate_set_x509_system_trust env in
  let loaded := EvLog LOG_DEBUG "System trust: Loaded %d certificate(s)." in
  let cert := server_cert_answer env parms in
  let got_cert := server_cert_event env parms in
  let key := server_privkey_answer env parms (tlshd_server_privkey s) in
  let got_key := server_privkey_event env parms (tlshd_server_privkey s) in
  let with_cert st :=
    with_server_cert st (stored (tlshd_server_cert s) (snd cert)) in
  let with_key st :=
    with_server_privkey st (stored (tlshd_server_privkey s) (snd key)) in
  let run := tlshd_server_x509_handshake env helper parms s in
  let ends_with evs := run = Some (tt, with_trace s (trace s ++ evs)) in
  (alloc <> GNUTLS_E_SUCCESS -> ends_with [EvGnutlsError alloc]) /\
  (alloc = GNUTLS_E_SUCCESS -> trust < 0 ->
   ends_with [EvCredAlloc; EvGnutlsError trust; EvCredFree]) /\
  (alloc = GNUTLS_E_SUCCESS -> 0 <= trust ->
   fst cert = false ->
   run = Some (tt, with_cert
                     (with_trace s (trace s ++ [EvCredAlloc; loaded; got_cert;
                                               EvCredFree])))) /\
  (alloc = GNUTLS_E_SUCCESS -> 0 <= trust ->
   fst cert = true -> fst key = false ->
   run = Some (tt, with_key
                     (with_cert
                        (with_trace s (trace s ++ [EvCredAlloc; loaded;
                                                  got_cert; got_key;
                                                  EvCredFree]))))) /\
  (alloc = GNUTLS_E_SUCCESS -> 0 <= trust ->
   fst cert = true -> fst key = true ->
   gnutls_init env <> GNUTLS_E_SUCCESS ->
   run = Some (tt, with_key
                     (with_cert
                        (with_trace s (trace s ++ [EvCredAlloc; loaded;
                                                  got_cert; got_key;
                                                  EvGnutlsError (gnutls_init env);
                                                  EvCredFree]))))) /\
  (alloc = GNUTLS_E_SUCCESS -> 0 <= trust ->
   x509_cert parms <> TLS_NO_CERT ->
   fst (tlshd_keyring_get_cert env (x509_cert parms)) = false ->
   run = Some (tt, with_cert
                     (with_trace s
                        (trace s ++ [EvCredAlloc; loaded;
                                     EvKeyringGetCert (x509_cert parms) false;
                                     EvCredFree])))).
Proof.
  intros alloc trust loaded cert got_cert key got_key with_cert with_key run
    ends_with.
  assert (Hcert : alloc = GNUTLS_E_SUCCESS -> 0 <= trust -> fst cert = false ->
            run = Some (tt, with_cert
                              (with_trace s (trace s ++ [EvCredAlloc; loaded;
                                                        got_cert;
                                                        EvCredFree])))).
  { intros H Ht Hc. subst run. unfold tlshd_server_x509_handshake.
    fold alloc trust. rewrite H.
    change (negb (GNUTLS_E_SUCCESS =? GNUTLS_E_SUCCESS)) with false. cbv iota.
    rewrite (proj2 (Z.ltb_ge _ _) Ht).
    step. step. step by (apply server_get_cert_run).
    fold cert. rewrite Hc. cbn [negb]. step. unfold emit. norm.
    unfold with_cert, got_cert. norm. rewrite <- !app_assoc. reflexivity. }
  subst ends_with. cbv beta.
  split; [|split; [|split; [exact Hcert|split; [|split]]]].
  - intros H. subst run. unfold tlshd_server_x509_handshake. fold alloc.
    rewrite (proj2 (Z.eqb_neq _ _) H). reflexivity.
  - intros H Ht. subst run. unfold tlshd_server_x509_handshake.
    fold alloc trust. rewrite H.
    change (negb (GNUTLS_E_SUCCESS =? GNUTLS_E_SUCCESS)) with false. cbv iota.
    rewrite (proj2 (Z.ltb_lt _ _) Ht).
    step. step. unfold emit. norm. rewrite <- !app_assoc. reflexivity.
  - intros H Ht Hc Hk. subst run. unfold tlshd_server_x509_handshake.
    fold alloc trust. rewrite H.
    change (negb (GNUTLS_E_SUCCESS =? GNUTLS_E_SUCCESS)) with false. cbv iota.
    rewrite (proj2 (Z.ltb_ge _ _) Ht).
    step. step. step by (apply server_get_cert_run).
    fold cert. rewrite Hc. cbn [negb].
    step by (apply server_get_privkey_run). norm.
    fold key. rewrite Hk. cbn [negb]. step. unfold emit. norm.
    unfold with_key, with_cert, got_cert, got_key. norm.
    rewrite <- !app_assoc. reflexivity.
  - intros H Ht Hc Hk Hi. subst run. unfold tlshd_server_x509_handshake.
    fold alloc trust. rewrite H.
    change (negb (GNUTLS_E_SUCCESS =? GNUTLS_E_SUCCESS)) with false. cbv iota.
    rewrite (proj2 (Z.ltb_ge _ _) Ht).
    step. step. step by (apply server_get_cert_run).
    fold cert. rewrite Hc. cbn [negb].
    step by (apply server_get_privkey_run). norm.
    fold key. rewrite Hk. cbn [negb].
    rewrite (proj2 (Z.eqb_neq _ _) Hi). cbn [negb].
    step. unfold emit. norm.
    unfold with_key, with_cert, got_cert, got_key. norm.
    rewrite <- !app_assoc. reflexivity.
  - intros H Ht Hn Hc.
    assert (E : cert = tlshd_keyring_get_cert env (x509_cert parms)).
    { unfold cert, server_cert_answer.
      rewrite (proj2 (Z.eqb_neq _ _) Hn). reflexivity. }
    assert (Ee : got_cert = EvKeyringGetCert (x509_cert parms) false).
    { unfold got_cert, server_cert_event.
      rewrite (proj2 (Z.eqb_neq _ _) Hn), Hc. reflexivity. }
    rewrite <- Ee. apply Hcert; [exact H|exact Ht|].
    rewrite E. exact Hc.
Qed.

(** X20. A PSK handshake that cannot be set up ends before a session
    exists, and the helper is not called: when the credentials cannot
    be allocated only the error is logged, and when the session cannot
    be created the credentials are freed. *)
Theorem psk_handshake_stops_before_session (s : state) :
  let alloc := gnutls_psk_allocate_server_credentials env in
  let run := tlshd_server_psk_handshake env helper parms s in
  (alloc <> GNUTLS_E_SUCCESS ->
   run = Some (tt, with_trace s (trace s ++ [EvGnutlsError alloc]))) /\
  (alloc = GNUTLS_E_SUCCESS -> gnutls_init env <> GNUTLS_E_SUCCESS ->
   run = Some (tt, with_trace s
                     (trace s ++ [EvCredAlloc; EvGnutlsError (gnutls_init env);
                                  EvCredFree]))).
Proof.
  intros alloc run. subst run.
  unfold tlshd_server_psk_handshake. fold alloc. split.
  - intros H. rewrite (proj2 (Z.eqb_neq _ _) H). reflexivity.
  - intros H Hi. rewrite H.
    change (negb (GNUTLS_E_SUCCESS =? GNUTLS_E_SUCCESS)) with false. cbv iota.
    rewrite (proj2 (Z.eqb_neq _ _) Hi). cbn [negb].
    step. step. unfold emit. norm. rewrite <- !app_assoc. reflexivity.
Qed.

(** X21. Without a handshake to perform nothing is set up.  When
    [gnutls_global_init] fails, [tlshd_serverhello_handshake] logs the
    error and returns with the parameters untouched.  For an
    authentication mode other than X.509 and PSK it logs the mode
    between initialising and releasing the library, and calls neither
    handshake; the output fields then follow the identity count as it
    was on entry. *)
Theorem no_handshake_without_auth_mode (s : state) :
  (gnutls_global_init env <> GNUTLS_E_SUCCESS ->
   tlshd_serverhello_handshake env helper parms s
   = Some (parms,
           with_trace s (trace s ++ [EvGnutlsError (gnutls_global_init env)]))) /\
  (gnutls_global_init env = GNUTLS_E_SUCCESS ->
   auth_mode parms = HANDSHAKE_AUTH_UNSPEC
   \/ auth_mode parms = HANDSHAKE_AUTH_UNAUTH ->
   tlshd_serverhello_handshake env helper parms s
   = Some (if tlshd_num_remote_peerids s =? 0 then parms
           else with_peerids parms (tlshd_num_remote_peerids s),
           with_trace s
             (trace s ++ [EvGlobalInit;
                          EvLog LOG_DEBUG "System config file: %s";
                          EvLog LOG_DEBUG "Unrecognized auth mode (%d)";
                          EvGlobalDeinit]))).
Proof.
  unfold tlshd_serverhello_handshake. split.
  - intros H. rewrite (proj2 (Z.eqb_neq _ _) H). cbn [negb].
    step. reflexivity.
  - intros H Hmode. rewrite H.
    change (negb (GNUTLS_E_SUCCESS =? GNUTLS_E_SUCCESS)) with false. cbv iota.
    step. step.
    destruct Hmode as [E|E]; rewrite E; step; step; norm;
      destruct (tlshd_num_remote_peerids s =? 0); cbn [negb];
      step; unfold ret, with_peerids; norm; rewrite <- !app_assoc, ?E;
      reflexivity.
Qed.

(** X22. A handshake that can be set up runs the helper once, between
    setup and cleanup.  The helper gets a session that is bound to the
    socket of the parameters and has the callbacks of its mode
    registered: certificate retrieval and verification for X.509, the
    key lookup for PSK.  For X.509 the server's certificate and key have
    been obtained by then, and what those calls stored is in
    [tlshd_server_cert] and [tlshd_server_privkey].  When the helper
    returns, the session is released and then the credentials; nothing
    else is done. *)
Theorem handshake_runs_helper_between_setup_and_cleanup (s : state) :
  let cleanup (r : option (unit * state)) :=
    match r with
    | Some (_, s1) =>
        Some (tt, with_trace s1 (trace s1 ++ [EvSessionDeinit; EvCredFree]))
    | None => None
    end in
  let cert := server_cert_answer env parms in
  let key := server_privkey_answer env parms (tlshd_server_privkey s) in
  (gnutls_certificate_allocate_credentials env = GNUTLS_E_SUCCESS ->
   0 <= gnutls_certificate_set_x509_system_trust env ->
   fst cert = true ->
   fst key = true ->
   gnutls_init env = GNUTLS_E_SUCCESS ->
   tlshd_server_x509_handshake env helper parms s
   = cleanup
       (helper (x509_session env) parms
          (with_server_privkey
             (with_server_cert
                (with_trace s
                   (trace s
                    ++ [EvCredAlloc;
                        EvLog LOG_DEBUG
                              "System trust: Loaded %d certificate(s).";
                        server_cert_event env parms;
                        server_privkey_event env parms
                                             (tlshd_server_privkey s);
                        EvSessionInit; EvTransportSetInt (sockfd parms)]))
                (stored (tlshd_server_cert s) (snd cert)))
             (stored (tlshd_server_privkey s) (snd key))))) /\
  (gnutls_psk_allocate_server_credentials env = GNUTLS_E_SUCCESS ->
   gnutls_init env = GNUTLS_E_SUCCESS ->
   tlshd_server_psk_handshake env helper parms s
   = cleanup
       (helper (psk_session env) parms
          (with_trace s
             (trace s ++ [EvCredAlloc; EvSessionInit;
                          EvTransportSetInt (sockfd parms)])))).
Proof.
  intros cleanup cert key. split.
  - intros Ha Ht Hc Hk Hi. unfold tlshd_server_x509_handshake.
    rewrite Ha, Hi, (proj2 (Z.ltb_ge _ _) Ht).
    change (negb (GNUTLS_E_SUCCESS =? GNUTLS_E_SUCCESS)) with false.
    cbv iota.
    step. step. step by (apply server_get_cert_run).
    fold cert. rewrite Hc. cbn [negb].
    step by (apply server_get_privkey_run). norm.
    fold key. rewrite Hk. cbn [negb].
    step. step. norm. rewrite <- !app_assoc. cbn [app].
    fold (x509_session env).
    unfold bind at 1 2.
    destruct (helper (x509_session env) parms _) as [[[] s1]|];
      [|reflexivity].
    unfold emit, bind. norm. rewrite <- app_assoc. reflexivity.
  - intros Ha Hi. unfold tlshd_server_psk_handshake.
    rewrite Ha, Hi.
    change (negb (GNUTLS_E_SUCCESS =? GNUTLS_E_SUCCESS)) with false.
    cbv iota.
    step. step. step. norm. rewrite <- !app_assoc. cbn [app].
    fold (psk_session env).
    unfold bind at 1 2.
    destruct (helper (psk_session env) parms _) as [[[] s1]|];
      [|reflexivity].
    unfold emit, bind. norm. rewrite <- app_assoc. reflexivity.
Qed.

End AnyHelper.

Lemma log_issuers_run (rdn : list (option string)) :
  forall (i : nat) (s : state),
    log_issuers rdn i s
    = Some (tt,
            with_trace s
              (trace s
               ++ flat_map
                    (fun io : nat * option string =>
                       match snd io with
                       | Some issuer_dn =>
                           [EvLog LOG_DEBUG
                                  ("   [" +++ decimal (fst io) +++ "]: "
                                   +++ issuer_dn)]
                       | None => []
                       end)
                    (combine (seq i (length rdn)) rdn))).
Proof.
  induction rdn as [|[dn|] rest IH]; intros i s;
    cbn [log_issuers length seq combine flat_map fst snd].
  - unfold ret. rewrite app_nil_r, with_trace_same. reflexivity.
  - step. rewrite IH. norm. rewrite <- app_assoc. reflexivity.
  - cbn [app]. apply IH.
Qed.

(** X23. The certificate-retrieval callback logs the authorities the
    peer asked for, a heading and then one line for each name the
    library could render, in order and with the index of the name, and
    nothing at all for an empty request.  When the session uses X.509
    certificates it returns 0 and hands the library, through its output
    parameters, one certificate, the address of [tlshd_server_cert] and
    the value of [tlshd_server_privkey]; otherwise it returns -1 and
    leaves the output parameters alone.  The variables of server.c keep
    their values. *)
Theorem retrieve_key_callback_logs_issuers (req_ca_rdn : list (option string))
    (s : state) :
  tlshd_x509_retrieve_key_cb env req_ca_rdn s
  = Some (if gnutls_certificate_type_get env =? GNUTLS_CRT_X509
          then (0, Some {| pcert := PtrTlshdServerCert;
                           pcert_length := 1;
                           privkey := tlshd_server_privkey s |})
          else (-1, None),
          with_trace s
            (trace s
             ++ match req_ca_rdn with
                | [] => []
                | _ :: _ => EvLog LOG_DEBUG "Server's trusted authorities:"
                            :: issuer_lines req_ca_rdn
                end)).
Proof.
  unfold tlshd_x509_retrieve_key_cb, tlshd_x509_log_issuers.
  destruct req_ca_rdn as [|o rest].
  - cbn [length Nat.ltb Nat.leb]. step.
    rewrite app_nil_r, with_trace_same.
    destruct (gnutls_certificate_type_get env =? GNUTLS_CRT_X509); reflexivity.
  - cbn [length Nat.ltb Nat.leb]. rewrite !bind_bind. step.
    erewrite bind_run by apply log_issuers_run. norm. rewrite <- app_assoc.
    destruct (gnutls_certificate_type_get env =? GNUTLS_CRT_X509); reflexivity.
Qed.

(** X24. Each callback that server.c registers keeps the recorded
    identities within their array: entered with the ten entries of
    [tlshd_remote_peerid] and a count between 0 and 10, it returns with
    the array still ten entries long and the count still between 0 and
    10. *)
Theorem callbacks_keep_identities_within_array (s : state) :
  wf s ->
  (forall rdn, exists r s',
     tlshd_x509_retrieve_key_cb env rdn s = Some (r, s') /\ wf s') /\
  (exists r s',
     tlshd_server_x509_verify_function env s = Some (r, s') /\ wf s') /\
  (forall username, exists r s',
     tlshd_server_psk_cb env username s = Some (r, s') /\ wf s').
Proof.
  intros Hwf. split; [|split].
  - intros rdn.
    exact (emits_only_safe _ (emits_only_retrieve_key_cb env rdn) s Hwf).
  - exact (safe_verify_function env s Hwf).
  - intros username. exact (safe_psk_cb env username s Hwf).
Qed.

End ServerProperties.

Section Lifecycle.

Variable env : environment.
Variable helper : gnutls_session_t -> tlshd_handshake_parms -> M unit.
Variable parms : tlshd_handshake_parms.
Hypothesis Hhelper :
  forall session, server_session env session ->
                  lifecycle_neutral (helper session parms).

Lemma lifecycle_server_cert_event :
  lifecycle (server_cert_event env parms) = fst (server_cert_answer env parms).
Proof.
  unfold server_cert_event, server_cert_answer.
  destruct (x509_cert parms =? TLS_NO_CERT); reflexivity.
Qed.

Lemma lifecycle_server_privkey_event (k : gnutls_privkey_t) :
  lifecycle (server_privkey_event env parms k)
  = fst (server_privkey_answer env parms k).
Proof.
  unfold server_privkey_event, server_privkey_answer.
  destruct (x509_privkey parms =? TLS_NO_PRIVKEY); reflexivity.
Qed.

(** The session of either handshake, from its creation to its release
    around the helper. *)
Lemma session_bracket (session : gnutls_session_t) (s : state) :
  server_session env session -> wf s ->
  exists s' evs,
    (emit EvSessionInit ;;
     emit (EvTransportSetInt (sockfd parms)) ;;
     helper session parms ;;
     emit EvSessionDeinit) s = Some (tt, s') /\
    trace s' = trace s ++ evs /\
    filter lifecycle evs = [EvSessionInit; EvSessionDeinit].
Proof.
  intros Hs Hwf. step. step.
  match goal with |- context [bind _ _ ?st] =>
    destruct (Hhelper session Hs st Hwf) as ([] & s1 & hevs & Hrun & Htr & Hn)
  end.
  norm in Htr.
  step by (exact Hrun). unfold emit.
  eexists _, _. split; [reflexivity|]. norm. rewrite Htr.
  split; [rewrite <- !app_assoc; reflexivity|].
  cbn [app filter lifecycle]. rewrite filter_app, Hn. reflexivity.
Qed.

Lemma x509_handshake_lifecycle (s : state) :
  wf s ->
  let cert := server_cert_event env parms in
  let key := server_privkey_event env parms (tlshd_server_privkey s) in
  exists s' evs,
    tlshd_server_x509_handshake env helper parms s = Some (tt, s') /\
    trace s' = trace s ++ evs /\
    (filter lifecycle evs = []
     \/ filter lifecycle evs = [EvCredAlloc; EvCredFree]
     \/ filter lifecycle evs = [EvCredAlloc; cert; EvCredFree]
     \/ filter lifecycle evs = [EvCredAlloc; cert; key; EvCredFree]
     \/ filter lifecycle evs
        = [EvCredAlloc; cert; key; EvSessionInit; EvSessionDeinit;
           EvCredFree]).
Proof.
  intros Hwf cert key. unfold tlshd_server_x509_handshake.
  destruct (negb (gnutls_certificate_allocate_credentials env
                  =? GNUTLS_E_SUCCESS)).
  { eexists _, [_]. split; [reflexivity|]. split; [reflexivity|].
    left. reflexivity. }
  step.
  destruct (gnutls_certificate_set_x509_system_trust env <? 0).
  { step. unfold emit. eexists _, _. split; [reflexivity|]. norm.
    split; [rewrite <- !app_assoc; reflexivity|]. right; left. reflexivity. }
  step. step by (apply server_get_cert_run).
  pose proof lifecycle_server_cert_event as Lc. fold cert in Lc.
  destruct (fst (server_cert_answer env parms)); cbn [negb].
  2:{ step. unfold emit. eexists _, _. split; [reflexivity|]. norm.
      split; [rewrite <- !app_assoc; reflexivity|]. right; left.
      cbn [app filter lifecycle]. fold cert. rewrite Lc. reflexivity. }
  step by (apply server_get_privkey_run). norm.
  pose proof (lifecycle_server_privkey_event (tlshd_server_privkey s)) as Lk.
  fold key in Lk.
  destruct (fst (server_privkey_answer env parms (tlshd_server_privkey s)));
    cbn [negb].
  2:{ step. unfold emit. eexists _, _. split; [reflexivity|]. norm.
      split; [rewrite <- !app_assoc; reflexivity|]. right; right; left.
      cbn [app filter lifecycle]. fold cert key. rewrite Lc, Lk.
      reflexivity. }
  destruct (negb (gnutls_init env =? GNUTLS_E_SUCCESS)).
  { step. unfold emit. eexists _, _. split; [reflexivity|]. norm.
    split; [rewrite <- !app_assoc; reflexivity|]. right; right; right; left.
    cbn [app filter lifecycle]. fold cert key. rewrite Lc, Lk.
    reflexivity. }
  fold (x509_session env).
  match goal with |- context [bind _ _ ?st] =>
    destruct (session_bracket (x509_session env) st) as (s1 & evs & Hrun & Htr & Hl);
      [left; reflexivity|exact Hwf|]
  end.
  norm in Htr.
  erewrite bind_run by exact Hrun.
  unfold emit. eexists _, _. split; [reflexivity|]. norm. rewrite Htr.
  split; [rewrite <- !app_assoc; reflexivity|].
  right; right; right; right. cbn [app filter lifecycle].
  fold cert key. rewrite Lc, Lk.
  rewrite !filter_app, Hl. reflexivity.
Qed.

Lemma psk_handshake_lifecycle (s : state) :
  wf s ->
  exists s' evs,
    tlshd_server_psk_handshake env helper parms s = Some (tt, s') /\
    trace s' = trace s ++ evs /\
    (filter lifecycle evs = []
     \/ filter lifecycle evs = [EvCredAlloc; EvCredFree]
     \/ filter lifecycle evs
        = [EvCredAlloc; EvSessionInit; EvSessionDeinit; EvCredFree]).
Proof.
  intros Hwf. unfold tlshd_server_psk_handshake.
  destruct (negb (gnutls_psk_allocate_server_credentials env
                  =? GNUTLS_E_SUCCESS)).
  { eexists _, [_]. split; [reflexivity|]. split; [reflexivity|].
    left. reflexivity. }
  step.
  destruct (negb (gnutls_init env =? GNUTLS_E_SUCCESS)).
  { step. unfold emit. eexists _, _. split; [reflexivity|]. norm.
    split; [rewrite <- !app_assoc; reflexivity|]. right; left. reflexivity. }
  fold (psk_session env).
  match goal with |- context [bind _ _ ?st] =>
    destruct (session_bracket (psk_session env) st) as (s1 & evs & Hrun & Htr & Hl);
      [right; reflexivity|exact Hwf|]
  end.
  norm in Htr.
  erewrite bind_run by exact Hrun.
  unfold emit. eexists _, _. split; [reflexivity|]. norm. rewrite Htr.
  split; [rewrite <- !app_assoc; reflexivity|].
  right; right. cbn [app filter lifecycle].
  rewrite !filter_app, Hl. reflexivity.
Qed.

End Lifecycle.

Section LifecycleNesting.

Variable env : environment.

(** X25. Around a handshake helper that itself allocates and releases
    nothing, [tlshd_serverhello_handshake] releases the library's global
    state, the credentials and the session on every path, innermost
    first: the global state encloses the credentials, which enclose the
    session.  The server's certificate and private key, which an X.509
    handshake obtains after it has allocated the credentials, are
    released on no path: whenever one of them was obtained, the function
    returns without a release to match, after a handshake as well as
    when the setup fails later. *)
Theorem serverhello_lifecycle_is_nested
    (helper : gnutls_session_t -> tlshd_handshake_parms -> M unit)
    (parms : tlshd_handshake_parms) (s : state) :
  (forall session, server_session env session ->
                   lifecycle_neutral (helper session parms)) ->
  wf s ->
  let cert := server_cert_event env parms in
  let key := server_privkey_event env parms (tlshd_server_privkey s) in
  exists parms' s' evs,
    tlshd_serverhello_handshake env helper parms s = Some (parms', s') /\
    trace s' = trace s ++ evs /\
    In (filter lifecycle evs)
       [[];
        [EvGlobalInit; EvGlobalDeinit];
        [EvGlobalInit; EvCredAlloc; EvCredFree; EvGlobalDeinit];
        [EvGlobalInit; EvCredAlloc; EvSessionInit; EvSessionDeinit;
         EvCredFree; EvGlobalDeinit];
        [EvGlobalInit; EvCredAlloc; cert; EvCredFree; EvGlobalDeinit];
        [EvGlobalInit; EvCredAlloc; cert; key; EvCredFree; EvGlobalDeinit];
        [EvGlobalInit; EvCredAlloc; cert; key; EvSessionInit;
         EvSessionDeinit; EvCredFree; EvGlobalDeinit]].
Proof.
  intros Hhelper Hwf cert key. unfold tlshd_serverhello_handshake.
  destruct (negb (gnutls_global_init env =? GNUTLS_E_SUCCESS)).
  { step. unfold ret. eexists _, _, [_]. split; [reflexivity|].
    split; [reflexivity|]. left. reflexivity. }
  step. step.
  assert (Hdispatch : forall st, wf st ->
    tlshd_server_privkey st = tlshd_server_privkey s ->
    exists s1 evs,
      (match auth_mode parms with
       | HANDSHAKE_AUTH_X509 => tlshd_server_x509_handshake env helper parms
       | HANDSHAKE_AUTH_PSK => tlshd_server_psk_handshake env helper parms
       | _ => tlshd_log_debug "Unrecognized auth mode (%d)"
       end) st = Some (tt, s1) /\
      trace s1 = trace st ++ evs /\
      (filter lifecycle evs = []
       \/ filter lifecycle evs = [EvCredAlloc; EvCredFree]
       \/ filter lifecycle evs
          = [EvCredAlloc; EvSessionInit; EvSessionDeinit; EvCredFree]
       \/ filter lifecycle evs = [EvCredAlloc; cert; EvCredFree]
       \/ filter lifecycle evs = [EvCredAlloc; cert; key; EvCredFree]
       \/ filter lifecycle evs
          = [EvCredAlloc; cert; key; EvSessionInit; EvSessionDeinit;
             EvCredFree])).
  { intros st Hst Hk. destruct (auth_mode parms).
    - eexists _, [_]. split; [reflexivity|]. split; [reflexivity|].
      left. reflexivity.
    - eexists _, [_]. split; [reflexivity|]. split; [reflexivity|].
      left. reflexivity.
    - destruct (psk_handshake_lifecycle env helper parms Hhelper st Hst)
        as (s1 & evs & Hrun & Htr & [H|[H|H]]);
        exists s1, evs; (split; [exact Hrun|]); (split; [exact Htr|]);
        auto.
    - destruct (x509_handshake_lifecycle env helper parms Hhelper st Hst)
        as (s1 & evs & Hrun & Htr & H).
      cbv zeta in H. rewrite Hk in H. fold cert key in H.
      exists s1, evs. split; [exact Hrun|]. split; [exact Htr|].
      destruct H as [H|[H|[H|[H|H]]]]; auto 10. }
  match goal with |- context [bind _ _ ?st] =>
    destruct (Hdispatch st Hwf) as (s1 & evs & Hrun & Htr & Hl);
      [reflexivity|]
  end.
  norm in Htr.
  step by (exact Hrun). step. step. unfold ret.
  eexists _, _, _. split; [reflexivity|]. norm. rewrite Htr.
  split; [rewrite <- !app_assoc; reflexivity|].
  cbn [app filter lifecycle]. rewrite filter_app.
  cbn [filter lifecycle].
  destruct Hl as [-> | [-> | [-> | [-> | [-> | ->]]]]];
    cbn [app In]; auto 10.
Qed.

End LifecycleNesting.

(** ** Concrete runs *)

Example tls13_gcm128_install :
  exists s',
    tlshd_initialize_ktls full_build (plain_env kernel_accepts) initial_state
    = Some (0, s') /\
    sockopt_calls (trace s')
    = [EvSetsockopt 3 SOL_TCP TCP_ULP (OptString "tls") 4;
       EvSetsockopt 3 SOL_TLS TLS_TX (OptCryptoInfo sample_gcm128_info) 40;
       EvSetsockopt 3 SOL_TLS TLS_RX (OptCryptoInfo sample_gcm128_info) 40].
Proof. eexists. split; vm_compute; reflexivity. Qed.

Example kernel_without_cipher_install :
  exists s',
    tlshd_initialize_ktls full_build (plain_env kernel_without_cipher)
                          initial_state
    = Some (EIO, s') /\
    trace s'
    = [EvSetsockopt 3 SOL_TCP TCP_ULP (OptString "tls") 4;
       EvRecordGetState false;
       EvSetsockopt 3 SOL_TLS TLS_TX (OptCryptoInfo sample_gcm128_info) 40;
       EvLog LOG_ERROR "The kernel does not support the requested algorithm."].
Proof. eexists. split; vm_compute; reflexivity. Qed.

Example chacha20_install :
  exists s' i,
    tlshd_initialize_ktls full_build chacha_env initial_state = Some (0, s') /\
    sockopt_calls (trace s')
    = [EvSetsockopt 3 SOL_TCP TCP_ULP (OptString "tls") 4;
       EvSetsockopt 3 SOL_TLS TLS_TX (OptCryptoInfo i) 56;
       EvSetsockopt 3 SOL_TLS TLS_RX (OptCryptoInfo i) 56] /\
    iv i = rs_iv sample_record_state /\ salt i = [].
Proof. eexists _, _. repeat split; vm_compute; reflexivity. Qed.

Example unsupported_cipher_install :
  exists s',
    tlshd_initialize_ktls full_build aes256ccm_env initial_state
    = Some (EIO, s') /\
    trace s'
    = [EvSetsockopt 3 SOL_TCP TCP_ULP (OptString "tls") 4;
       EvLog LOG_ERROR "tlshd does not support the requested cipher."].
Proof. eexists. split; vm_compute; reflexivity. Qed.

(** C2, counterexample. With offload reported active in both directions
    the installer returns 0, but not without a socket-option call: it
    has set TCP_ULP. *)
Lemma offloaded_session_still_sets_tcp_ulp :
  library_reports_ktls offloaded_env false = true /\
  library_reports_ktls offloaded_env true = true /\
  ~ (exists s',
       tlshd_initialize_ktls full_build offloaded_env initial_state
       = Some (0, s') /\
       sockopt_calls (trace s') = []).
Proof.
  split; [reflexivity|]. split; [reflexivity|].
  intros (s' & Hrun & Hcalls).
  vm_compute in Hrun. inversion Hrun; subst s'. discriminate Hcalls.
Qed.

Lemma library_offload_leaves_only_tcp_ulp_witness :
  exists evs,
    tlshd_initialize_ktls full_build offloaded_env initial_state
    = Some (0, with_trace initial_state (trace initial_state ++ evs)) /\
    sockopt_calls evs
    = [EvSetsockopt (gnutls_transport_get_int offloaded_env) SOL_TCP TCP_ULP
                    (OptString "tls") 4] /\
    existsb is_tls_install evs = false /\
    existsb is_record_get_state evs = false.
Proof.
  apply (library_offload_leaves_only_tcp_ulp full_build offloaded_env
           initial_state);
    [reflexivity|reflexivity|reflexivity|vm_compute; lia|reflexivity].
Defined.

Lemma tcp_ulp_failure_is_fatal_witness :
  fst (ulp_answer (plain_env (kernel_refuses EINVAL)) initial_state) = -1 /\
  exists evs,
    tlshd_initialize_ktls full_build (plain_env (kernel_refuses EINVAL))
                          initial_state
    = Some (EIO, with_trace initial_state (trace initial_state ++ evs)) /\
    evs = [EvSetsockopt 3 SOL_TCP TCP_ULP (OptString "tls") 4;
           EvPerror "setsockopt(TLS_ULP)" EINVAL] /\
    existsb is_record_get_state evs = false /\
    existsb is_tls_install evs = false.
Proof.
  split; [reflexivity|].
  apply (tcp_ulp_failure_is_fatal full_build
           (plain_env (kernel_refuses EINVAL)) initial_state).
  reflexivity.
Defined.

Lemma install_succeeds_iff_both_directions_witness :
  fst (ulp_answer (plain_env kernel_accepts) initial_state) <> -1 /\
  ktls_supported full_build (gnutls_cipher_get (plain_env kernel_accepts))
  = true /\
  exists s',
    tlshd_initialize_ktls full_build (plain_env kernel_accepts) initial_state
    = Some (0, s').
Proof.
  split; [vm_compute; lia|]. split; [reflexivity|].
  destruct (install_succeeds_iff_both_directions full_build
              (plain_env kernel_accepts) initial_state)
    as (Hiff & _); [vm_compute; lia|reflexivity|].
  eexists. apply Hiff. eexists. split; vm_compute; reflexivity.
Defined.

Lemma installed_iv_follows_version_witness :
  exists i b evs,
    install_direction full_build tls12_env GNUTLS_CIPHER_AES_128_GCM 3 false
                      initial_state
    = Some (b, with_trace initial_state (trace initial_state ++ evs)) /\
    sockopt_calls evs
    = [EvSetsockopt 3 SOL_TLS (tls_option false) (OptCryptoInfo i)
                    (sizeof_crypto_info i)] /\
    version (info i) = TLS_1_2_VERSION /\
    iv i = [x00; x00; x00; x00; x00; x00; x00; x07].
Proof.
  destruct (installed_iv_follows_version full_build tls12_env
              GNUTLS_CIPHER_AES_128_GCM 3 false initial_state
              tls12_record_state)
    as (i & b & evs & Hrun & Hcalls & H12 & _);
    [left; reflexivity|reflexivity|reflexivity|reflexivity
    |vm_compute; lia|vm_compute; lia|].
  exists i, b, evs. split; [exact Hrun|]. split; [exact Hcalls|].
  apply H12; reflexivity.
Defined.


Example library_ciphers_string :
  exists s',
    tlshd_gnutls_priority_init full_build priority_env initial_state
    = Some (0, s') /\
    compiled_strings (trace s')
    = [None;
       Some ("SECURE256:+SECURE128:-COMP-ALL:-VERS-ALL:+VERS-TLS1.3"
             +++ ":%NO_TICKETS:-CIPHER-ALL:+AES-256-GCM:+CHACHA20-POLY1305"
             +++ ":+AES-128-GCM:+AES-128-CCM");
       Some ("SECURE256:+SECURE128:-COMP-ALL:-VERS-ALL:+VERS-TLS1.3"
             +++ ":%NO_TICKETS:-CIPHER-ALL:+AES-256-GCM:+CHACHA20-POLY1305"
             +++ ":+AES-128-GCM:+AES-128-CCM:+PSK:+DHE-PSK:+ECDHE-PSK")].
Proof. eexists. split; vm_compute; reflexivity. Qed.

(** Sixty keywords do not fit [pstring]: the behaviour is undefined. *)
Example repeated_ciphers_overflow :
  tlshd_gnutls_priority_init full_build repeated_env initial_state = None.
Proof. vm_compute. reflexivity. Qed.

Lemma priority_string_lists_kernel_ciphers_witness :
  let emitted := filter is_ktls_cipher library_ciphers in
  let normal := priority_prefix +++ cipher_segment emitted in
  emitted = [GNUTLS_CIPHER_AES_256_GCM; GNUTLS_CIPHER_CHACHA20_POLY1305;
             GNUTLS_CIPHER_AES_128_GCM; GNUTLS_CIPHER_AES_128_CCM] /\
  (forall c, In c emitted <-> In c library_ciphers /\ In c ktls_ciphers) /\
  sublist emitted library_ciphers /\
  exists r s' evs,
    tlshd_gnutls_priority_init full_build priority_env initial_state
    = Some (r, s') /\
    trace s' = trace initial_state ++ evs /\
    compiled_strings evs
    = None :: Some normal
      :: (if gnutls_priority_init priority_env (Some normal)
             =? GNUTLS_E_SUCCESS
          then [Some (normal +++ psk_suffix)] else []).
Proof.
  split; [reflexivity|].
  apply (priority_string_lists_kernel_ciphers full_build priority_env
           library_ciphers initial_state);
    [reflexivity|reflexivity|reflexivity|vm_compute; lia].
Defined.

Example fifteen_certificates_ten_identities :
  exists s',
    tlshd_server_x509_verify_function fifteen_env initial_state
    = Some (GNUTLS_E_SUCCESS, s') /\
    tlshd_num_remote_peerids s' = 10 /\
    tlshd_remote_peerid s'
    = [1001; 1002; 1003; 1004; 1005; 1006; 1007; 1008; 1009; 1010].
Proof. eexists. split; [vm_compute; reflexivity|]. split; reflexivity. Qed.

Lemma peer_identities_capped_at_ten_witness :
  exists r s',
    tlshd_server_x509_verify_function fifteen_env initial_state
    = Some (r, s') /\
    tlshd_num_remote_peerids s' = Z.min (Z.of_nat (length fifteen_certs)) 10 /\
    firstn (Z.to_nat (tlshd_num_remote_peerids s')) (tlshd_remote_peerid s')
    = peer_serials fifteen_env (firstn 10 fifteen_certs) /\
    length (tlshd_remote_peerid s') = 10%nat /\
    (fifteen_certs <> [] -> r = GNUTLS_E_SUCCESS).
Proof.
  apply (peer_identities_capped_at_ten fifteen_env fifteen_certs
           initial_state); reflexivity.
Defined.

Lemma empty_peer_list_is_certificate_error_witness :
  (exists s',
     tlshd_server_x509_verify_function no_list_env initial_state
     = Some (GNUTLS_E_CERTIFICATE_ERROR, s') /\
     tlshd_remote_peerid s' = tlshd_remote_peerid initial_state) /\
  (exists s',
     tlshd_server_x509_verify_function no_cert_env initial_state
     = Some (GNUTLS_E_SUCCESS, s') /\
     tlshd_remote_peerid s' = tlshd_remote_peerid initial_state /\
     tlshd_num_remote_peerids s' = tlshd_num_remote_peerids initial_state).
Proof.
  split.
  - apply (proj1 (empty_peer_list_is_certificate_error no_list_env
                    initial_state)); [reflexivity|left; reflexivity].
  - apply (proj2 (empty_peer_list_is_certificate_error no_cert_env
                    initial_state)). reflexivity.
Defined.

(** C3, counterexample. The search for alice fails, and it fails after
    the session was created. *)
Lemma psk_search_runs_inside_a_session :
  to_key_serial_t (keyctl_search alice_env "alice") < 0 /\
  exists s' before after,
    tlshd_server_psk_handshake alice_env
      (tlshd_start_tls_handshake full_build alice_env)
      (sample_parms HANDSHAKE_AUTH_PSK) initial_state
    = Some (tt, s') /\
    trace s' = before ++ EvKeyctlSearch "alice" :: after /\
    In EvSessionInit before.
Proof.
  split; [reflexivity|].
  eexists _, [EvCredAlloc; EvSessionInit; EvTransportSetInt 3;
              EvTransportSetInt 3; EvPrioritySet None], _.
  split; [vm_compute; reflexivity|].
  split; [reflexivity|]. right. left. reflexivity.
Qed.

Lemma psk_search_failure_fails_handshake_witness :
  let parms := sample_parms HANDSHAKE_AUTH_PSK in
  let evs :=
    [EvCredAlloc; EvSessionInit; EvTransportSetInt 3; EvTransportSetInt 3;
     EvPrioritySet None;
     EvKeyctlSearch "alice"; EvLog LOG_ERROR "failed to search key";
     EvHandshake (-1); EvSessionDeinit; EvCredFree] in
  tlshd_server_psk_handshake alice_env
    (tlshd_start_tls_handshake full_build alice_env) parms initial_state
  = Some (tt, with_trace initial_state (trace initial_state ++ evs)) /\
  sockopt_calls evs = [].
Proof.
  intros parms evs.
  destruct (psk_search_failure_fails_handshake full_build alice_env parms
              initial_state "alice"%string)
    as (s' & u & lookups & Hrun & _ & _ & _ & Hfirst);
    [reflexivity|reflexivity|reflexivity|left; reflexivity|reflexivity|].
  rewrite Hrun, (Hfirst [] [] eq_refl (fun v H => H)).
  split; reflexivity.
Defined.

(** A search that fails after another lookup of the same handshake has
    succeeded: the handshake fails all the same, and the identity that
    the first lookup recorded stays on record. *)
Example earlier_lookup_stays_on_record :
  exists s',
    tlshd_server_psk_handshake bob_then_alice_env
      (tlshd_start_tls_handshake full_build bob_then_alice_env)
      (sample_parms HANDSHAKE_AUTH_PSK) initial_state
    = Some (tt, s') /\
    trace s'
    = [EvCredAlloc; EvSessionInit; EvTransportSetInt 3; EvTransportSetInt 3;
       EvPrioritySet None;
       EvKeyctlSearch "bob"; EvKeyctlSearch "alice";
       EvLog LOG_ERROR "failed to search key";
       EvHandshake (-1); EvSessionDeinit; EvCredFree] /\
    tlshd_num_remote_peerids s' = 1 /\
    tlshd_remote_peerid s' = 77 :: repeat 0 9.
Proof. eexists. repeat split. Qed.

(** The sessions of the sample environments hold complete key
    material. *)
Lemma key_material_complete_sample ktls kernel cl verify peers search cbs :
  key_material_complete (tls13_env ktls kernel cl verify peers search cbs).
Proof.
  intros read rs H. inversion H; subst rs.
  split; [reflexivity|].
  unfold iv_bytes_read. cbn. split; sizes.
Defined.

Lemma wf_initial : wf initial_state.
Proof. split; [reflexivity|]. cbn. lia. Defined.

(** The scenarios of the two output fields, run. *)
Example no_certificate_leaves_parms :
  exists s',
    tlshd_serverhello_handshake no_cert_env
      (tlshd_start_tls_handshake full_build no_cert_env)
      (sample_parms HANDSHAKE_AUTH_X509) initial_state
    = Some (sample_parms HANDSHAKE_AUTH_X509, s') /\
    tlshd_num_remote_peerids s' = 0.
Proof. eexists. split; vm_compute; reflexivity. Qed.

Example fifteen_certificates_reported :
  exists s',
    tlshd_serverhello_handshake fifteen_env
      (tlshd_start_tls_handshake full_build fifteen_env)
      (sample_parms HANDSHAKE_AUTH_X509) initial_state
    = Some (fifteen_parms, s') /\
    tlshd_num_remote_peerids s' = 10.
Proof. eexists. split; vm_compute; reflexivity. Qed.



(** ** Concrete runs of the further properties *)

(** *** The installer *)

(** An old library, which answers GNUTLS_E_UNIMPLEMENTED_FEATURE, is
    taken to have offloaded nothing, although bit 1 of that value is
    set. *)
Example unimplemented_feature_is_no_offload :
  Z.testbit GNUTLS_E_UNIMPLEMENTED_FEATURE 1 = true /\
  tlshd_is_ktls_enabled full_build
    (with_session (plain_env kernel_accepts) GNUTLS_E_UNIMPLEMENTED_FEATURE
                  GNUTLS_E_SUCCESS 3 3 3)
    false initial_state
  = Some (false, initial_state).
Proof. split; reflexivity. Qed.

Lemma setsockopt_reports_kernel_answer_witness :
  exists evs,
    tlshd_setsockopt (plain_env kernel_without_cipher) 3 false
                     sample_gcm128_info 40 initial_state
    = Some (false,
            with_trace initial_state
              (trace initial_state
               ++ EvSetsockopt 3 SOL_TLS TLS_TX
                               (OptCryptoInfo sample_gcm128_info) 40 :: evs)) /\
    evs = [EvLog LOG_ERROR
                 "The kernel does not support the requested algorithm."].
Proof.
  destruct (setsockopt_reports_kernel_answer (plain_env kernel_without_cipher)
              3 false sample_gcm128_info 40 initial_state)
    as (b & evs & Hrun & Hiff & _ & Hfail).
  destruct b.
  - exfalso. destruct Hiff as [H _]. specialize (H eq_refl).
    vm_compute in H. discriminate H.
  - exists evs. split; [exact Hrun|].
    destruct (Hfail eq_refl) as (e & -> & _ & _ & _ & He).
    rewrite (He (or_intror (or_intror eq_refl))). reflexivity.
Defined.

Lemma missing_key_material_installs_nothing_witness :
  exists evs,
    install_direction full_build no_record_state_env
                      GNUTLS_CIPHER_AES_128_GCM 3 false initial_state
    = Some (false, with_trace initial_state (trace initial_state ++ evs)) /\
    evs = [EvRecordGetState false; EvGnutlsError (-50)] /\
    sockopt_calls evs = [].
Proof.
  apply (missing_key_material_installs_nothing full_build no_record_state_env
           GNUTLS_CIPHER_AES_128_GCM 3 false initial_state);
    [left; reflexivity|reflexivity|vm_compute; intros H; discriminate H].
Defined.

Lemma installed_structure_matches_kernel_layout_witness :
  exists i b evs,
    install_direction full_build (plain_env kernel_accepts)
                      GNUTLS_CIPHER_AES_128_GCM 3 true initial_state
    = Some (b, with_trace initial_state (trace initial_state ++ evs)) /\
    sockopt_calls evs
    = [EvSetsockopt 3 SOL_TLS TLS_RX (OptCryptoInfo i) (sizeof_crypto_info i)] /\
    cipher_type (info i) = TLS_CIPHER_AES_GCM_128 /\
    version (info i) = TLS_1_3_VERSION /\
    key i = bytes_from x0c 16 /\
    salt i = bytes_from x0a 4 /\
    sizeof_crypto_info i = 40 /\
    salt i ++ iv i = rs_iv sample_record_state.
Proof.
  destruct (installed_structure_matches_kernel_layout full_build
              (plain_env kernel_accepts) GNUTLS_CIPHER_AES_128_GCM 3 true
              initial_state sample_record_state)
    as (i & b & evs & Hrun & Hcalls & Hc & Hv & Hk & Hs & _ & _ & Hsz & Hiv);
    [left; reflexivity|reflexivity|reflexivity|reflexivity
    |vm_compute; lia|vm_compute; lia|].
  exists i, b, evs.
  split; [exact Hrun|]. split; [exact Hcalls|]. split; [exact Hc|].
  split; [exact Hv|]. split; [exact Hk|]. split; [exact Hs|].
  split; [exact Hsz|].
  apply Hiv; [reflexivity|vm_compute; intros H; discriminate H].
Defined.

Lemma install_reads_exactly_the_cipher_sizes_witness :
  install_direction full_build tls12_env GNUTLS_CIPHER_AES_128_GCM 3 false
                    initial_state <> None /\
  install_direction full_build short_iv_env GNUTLS_CIPHER_AES_128_GCM 3 false
                    initial_state = None.
Proof.
  split.
  - apply (install_reads_exactly_the_cipher_sizes full_build tls12_env
             GNUTLS_CIPHER_AES_128_GCM 3 false initial_state
             tls12_record_state);
      [left; reflexivity|reflexivity|reflexivity|reflexivity
      |split; vm_compute; lia].
  - destruct (install_direction full_build short_iv_env
                GNUTLS_CIPHER_AES_128_GCM 3 false initial_state) eqn:E;
      [|reflexivity].
    exfalso.
    assert (Hdef : install_direction full_build short_iv_env
                     GNUTLS_CIPHER_AES_128_GCM 3 false initial_state <> None)
      by (rewrite E; discriminate).
    apply (install_reads_exactly_the_cipher_sizes full_build short_iv_env
             GNUTLS_CIPHER_AES_128_GCM 3 false initial_state
             tls12_record_state) in Hdef;
      [|left; reflexivity|reflexivity|reflexivity|reflexivity].
    destruct Hdef as [H _]. vm_compute in H. lia.
Defined.

Lemma unsupported_cipher_is_rejected_after_tcp_ulp_witness :
  ktls_supported full_build (gnutls_cipher_get chacha_env) = true /\
  exists evs,
    tlshd_initialize_ktls build_without_chacha chacha_env initial_state
    = Some (EIO, with_trace initial_state (trace initial_state ++ evs)) /\
    evs = [ulp_call chacha_env;
           EvLog LOG_ERROR "tlshd does not support the requested cipher."] /\
    existsb is_record_get_state evs = false /\
    existsb is_tls_install evs = false.
Proof.
  split; [reflexivity|].
  apply (unsupported_cipher_is_rejected_after_tcp_ulp build_without_chacha
           chacha_env initial_state);
    [vm_compute; intros H; discriminate H|reflexivity].
Defined.

Lemma install_fails_iff_error_logged_witness :
  exists evs,
    tlshd_initialize_ktls full_build (plain_env kernel_without_cipher)
                          initial_state
    = Some (EIO, with_trace initial_state (trace initial_state ++ evs)) /\
    exists evs' e, evs = evs' ++ [e] /\ is_error_event e = true /\
                   existsb is_error_event evs' = false.
Proof.
  destruct (install_fails_iff_error_logged full_build
              (plain_env kernel_without_cipher) initial_state)
    as (r & evs & Hrun & Hr & Hiff & Hlast);
    [apply key_material_complete_sample|].
  assert (E : r = EIO).
  { vm_compute in Hrun. inversion Hrun. reflexivity. }
  subst r. exists evs. split; [exact Hrun|]. apply Hlast. reflexivity.
Defined.

Lemma key_material_complete_send_offloaded :
  key_material_complete send_offloaded_env.
Proof.
  intros read rs H. inversion H; subst rs.
  split; [reflexivity|].
  unfold iv_bytes_read. cbn. split; sizes.
Qed.

Lemma install_calls_follow_offload_state_witness :
  offloaded full_build send_offloaded_env false = true /\
  offloaded full_build send_offloaded_env true = false /\
  exists evs,
    tlshd_initialize_ktls full_build send_offloaded_env initial_state
    = Some (0, with_trace initial_state (trace initial_state ++ evs)) /\
    sockopt_targets evs = [(3, SOL_TCP, TCP_ULP); (4, SOL_TLS, TLS_RX)].
Proof.
  split; [reflexivity|]. split; [reflexivity|].
  destruct (install_calls_follow_offload_state full_build send_offloaded_env
              initial_state)
    as (r & evs & Hrun & _ & Hall);
    [apply key_material_complete_send_offloaded|].
  assert (E : r = 0).
  { vm_compute in Hrun. inversion Hrun. reflexivity. }
  subst r. exists evs. split; [exact Hrun|]. exact (Hall eq_refl).
Defined.

(** *** Priority strings *)

Lemma priority_offers_what_installer_handles_witness :
  filter (ktls_supported build_without_chacha) library_ciphers
  = [GNUTLS_CIPHER_AES_256_GCM; GNUTLS_CIPHER_AES_128_GCM;
     GNUTLS_CIPHER_AES_128_CCM] /\
  (exists r s' evs,
     tlshd_gnutls_priority_init build_without_chacha priority_env initial_state
     = Some (r, s') /\
     trace s' = trace initial_state ++ evs /\
     compiled_strings evs
     = [None;
        Some (priority_prefix +++ ":+AES-256-GCM:+AES-128-GCM:+AES-128-CCM");
        Some (priority_prefix +++ ":+AES-256-GCM:+AES-128-GCM:+AES-128-CCM"
              +++ psk_suffix)]) /\
  tlshd_initialize_ktls build_without_chacha chacha_env initial_state
  = Some (EIO,
          with_trace initial_state
            (trace initial_state
             ++ [ulp_call chacha_env;
                 EvLog LOG_ERROR
                       "tlshd does not support the requested cipher."])).
Proof.
  split; [reflexivity|].
  destruct (priority_offers_what_installer_handles build_without_chacha
              priority_env library_ciphers initial_state)
    as (Hrun & _ & Hinst);
    [reflexivity|reflexivity|vm_compute; lia|].
  split; [exact Hrun|].
  apply (Hinst GNUTLS_CIPHER_CHACHA20_POLY1305 chacha_env initial_state);
    [vm_compute; tauto|reflexivity|vm_compute; intros H; discriminate H|].
  vm_compute. intros H.
  repeat (destruct H as [H|H]; [discriminate H|]). exact H.
Defined.

Lemma priority_buffer_overflows_exactly_when_witness :
  tlshd_gnutls_priority_init full_build repeated_env initial_state = None /\
  tlshd_gnutls_priority_init full_build priority_env initial_state <> None.
Proof.
  split.
  - apply (priority_buffer_overflows_exactly_when full_build repeated_env
             repeated_ciphers initial_state);
      [reflexivity|reflexivity|vm_compute; lia].
  - intros H.
    apply (priority_buffer_overflows_exactly_when full_build priority_env
             library_ciphers initial_state) in H;
      [|reflexivity|reflexivity].
    vm_compute in H. lia.
Defined.

Lemma library_ciphers_distinct : NoDup library_ciphers.
Proof.
  repeat (constructor;
          [vm_compute; intros H;
           repeat (destruct H as [H|H]; [discriminate H|]); exact H|]).
  constructor.
Qed.

Lemma distinct_ciphers_fit_the_buffer_witness :
  exists r s' evs,
    tlshd_gnutls_priority_init full_build priority_env initial_state
    = Some (r, s') /\
    trace s' = trace initial_state ++ evs /\
    (forall p, In (Some p) (compiled_strings evs) ->
               (String.length p <= 160)%nat).
Proof.
  apply (distinct_ciphers_fit_the_buffer full_build priority_env
           library_ciphers 8 initial_state);
    [reflexivity|right; reflexivity|apply library_ciphers_distinct].
Defined.

Lemma priority_init_succeeds_iff_all_compile_witness :
  exists s',
    tlshd_gnutls_priority_init full_build priority_env initial_state
    = Some (0, s') /\
    tlshd_gnutls_priority s' = Some 2%nat /\
    tlshd_gnutls_priority_psk s' = Some 3%nat /\
    live_priorities s' = [3%nat; 2%nat].
Proof.
  destruct (priority_init_succeeds_iff_all_compile full_build priority_env
              library_ciphers 8 initial_state)
    as (r & s' & Hrun & _ & Hiff & Hok);
    [reflexivity|right; reflexivity|vm_compute; lia|].
  assert (E : r = 0).
  { apply Hiff. repeat split; try reflexivity. lia. }
  subst r. exists s'. split; [exact Hrun|]. exact (Hok eq_refl).
Defined.

Lemma heap_fresh_initial : heap_fresh initial_state.
Proof. intros h H. destruct H. Qed.

Lemma priority_init_then_deinit_releases_everything_witness :
  exists s1 s2,
    tlshd_gnutls_priority_init full_build priority_env initial_state
    = Some (0, s1) /\
    tlshd_gnutls_priority_deinit s1 = Some (tt, s2) /\
    live_priorities s2 = [].
Proof.
  destruct (tlshd_gnutls_priority_init full_build priority_env initial_state)
    as [[r s1]|] eqn:Hrun; [|vm_compute in Hrun; discriminate Hrun].
  assert (E : r = 0).
  { vm_compute in Hrun. inversion Hrun. reflexivity. }
  subst r.
  destruct (priority_init_then_deinit_releases_everything full_build
              priority_env library_ciphers initial_state s1)
    as (s2 & Hde & Hlive & _);
    [reflexivity|reflexivity|apply heap_fresh_initial|exact Hrun|].
  exists s1, s2. split; [reflexivity|]. split; [exact Hde|exact Hlive].
Defined.

Lemma psk_compile_failure_leaves_released_priority_witness :
  exists s1 h,
    tlshd_gnutls_priority_init full_build psk_refused_env initial_state
    = Some (- EIO, s1) /\
    tlshd_gnutls_priority s1 = Some h /\
    ~ In h (live_priorities s1) /\
    tlshd_gnutls_priority_psk s1 = None /\
    tlshd_gnutls_priority_deinit s1 = None.
Proof.
  apply (psk_compile_failure_leaves_released_priority full_build
           psk_refused_env [] initial_state);
    [reflexivity|reflexivity|vm_compute; lia|reflexivity
    |vm_compute; intros H; discriminate H].
Defined.

Lemma priority_set_follows_auth_mode_witness :
  exists s1 p evs,
    tlshd_gnutls_priority_init full_build priority_env initial_state
    = Some (0, s1) /\
    tlshd_gnutls_priority_set priority_env (sample_parms HANDSHAKE_AUTH_PSK) s1
    = Some (GNUTLS_E_SUCCESS,
            with_trace s1 (trace s1 ++ [EvPrioritySet (Some p)])) /\
    trace s1 = trace initial_state ++ evs /\
    In (p, Some (priority_prefix
                 +++ cipher_segment (filter (ktls_supported full_build)
                                            library_ciphers)
                 +++ psk_suffix))
       (allocations 1%nat evs).
Proof.
  destruct (tlshd_gnutls_priority_init full_build priority_env initial_state)
    as [[r s1]|] eqn:Hrun; [|vm_compute in Hrun; discriminate Hrun].
  assert (E : r = 0).
  { vm_compute in Hrun. inversion Hrun. reflexivity. }
  subst r.
  destruct (priority_set_follows_auth_mode full_build priority_env
              library_ciphers (sample_parms HANDSHAKE_AUTH_PSK)
              initial_state s1)
    as (p & evs & Hset & Htr & Hin & _);
    [reflexivity|reflexivity|exact Hrun|].
  exists s1, p, evs. split; [reflexivity|]. split; [exact Hset|].
  split; [exact Htr|]. exact Hin.
Defined.

(** *** The server *)

Lemma unverified_chain_imports_nothing_witness :
  exists evs,
    tlshd_server_x509_verify_function bad_status_env initial_state
    = Some (GNUTLS_E_CERTIFICATE_ERROR,
            with_trace initial_state (trace initial_state ++ evs)) /\
    existsb is_keyring_create evs = false.
Proof.
  destruct (unverified_chain_imports_nothing bad_status_env initial_state)
    as (r & evs & Hrun & Hk & [Hr|Hr] & Hiff);
    [vm_compute; intros H; discriminate H| |].
  - exfalso. apply Hiff in Hr. vm_compute in Hr. discriminate Hr.
  - subst r. exists evs. split; [exact Hrun|exact Hk].
Defined.

Lemma keyring_imports_first_ten_certificates_witness :
  exists s' evs,
    tlshd_server_x509_verify_function fifteen_env initial_state
    = Some (GNUTLS_E_SUCCESS, s') /\
    trace s' = trace initial_state ++ evs /\
    filter is_keyring_create evs
    = map (fun c => EvKeyringCreateCert c (1000 + Z.of_nat (length c)))
          (firstn 10 fifteen_certs) /\
    length (filter is_keyring_create evs) = 10%nat.
Proof.
  apply (keyring_imports_first_ten_certificates fifteen_env fifteen_certs
           initial_state);
    [reflexivity|reflexivity|reflexivity|intros H; discriminate H].
Defined.

Lemma psk_callback_records_the_found_key_witness :
  (exists msg,
     tlshd_server_psk_cb alice_env "alice" initial_state
     = Some ((-1, None),
             with_trace initial_state
               (trace initial_state ++ [EvKeyctlSearch "alice";
                                        EvLog LOG_ERROR msg]))) /\
  (exists msg,
     tlshd_server_psk_cb wide_serial_env "carol" initial_state
     = Some ((-1, None),
             with_trace initial_state
               (trace initial_state ++ [EvKeyctlSearch "carol";
                                        EvLog LOG_ERROR msg]))) /\
  (exists s',
     tlshd_server_psk_cb no_cert_env "bob" initial_state
     = Some ((0, Some (bytes_from x5a 16)), s') /\
     tlshd_num_remote_peerids s' = 1 /\
     tlshd_remote_peerid s' = 77 :: repeat 0 9 /\
     trace s' = trace initial_state ++ [EvKeyctlSearch "bob"]).
Proof.
  split; [|split].
  - destruct (psk_callback_records_the_found_key alice_env "alice"
                initial_state ltac:(intros H; discriminate H))
      as (_ & _ & H & _).
    apply H. left. reflexivity.
  - destruct (psk_callback_records_the_found_key wide_serial_env "carol"
                initial_state ltac:(intros H; discriminate H))
      as (_ & Hwide & H & _).
    apply H. left. rewrite Hwide; [reflexivity|].
    split; [intros E; discriminate E|reflexivity].
  - destruct (psk_callback_records_the_found_key no_cert_env "bob"
                initial_state ltac:(intros H; discriminate H))
      as (_ & _ & _ & H).
    apply H; [intros E; discriminate E|reflexivity].
Defined.

Lemma x509_handshake_stops_before_session_witness :
  tlshd_config_get_server_cert no_keyring_cert_env
  = (true, Some sample_server_cert) /\
  tlshd_server_x509_handshake no_keyring_cert_env idle_helper
    keyring_parms initial_state
  = Some (tt,
          with_trace initial_state
            (trace initial_state
             ++ [EvCredAlloc;
                 EvLog LOG_DEBUG "System trust: Loaded %d certificate(s).";
                 EvKeyringGetCert 1234 false;
                 EvCredFree])) /\
  tlshd_server_x509_handshake no_session_env idle_helper
    (sample_parms HANDSHAKE_AUTH_X509) initial_state
  = Some (tt,
          with_server_privkey
            (with_server_cert
               (with_trace initial_state
                  (trace initial_state
                   ++ [EvCredAlloc;
                       EvLog LOG_DEBUG
                             "System trust: Loaded %d certificate(s).";
                       EvConfigGetServerCert true;
                       EvConfigGetServerPrivkey true;
                       EvGnutlsError (-25); EvCredFree]))
               sample_server_cert)
            sample_server_privkey).
Proof.
  split; [reflexivity|]. split.
  - destruct (x509_handshake_stops_before_session no_keyring_cert_env
                idle_helper keyring_parms initial_state)
      as (_ & _ & _ & _ & _ & H).
    rewrite H; [reflexivity|reflexivity|intros E; discriminate E
               |intros E; discriminate E|reflexivity].
  - destruct (x509_handshake_stops_before_session no_session_env
                idle_helper (sample_parms HANDSHAKE_AUTH_X509) initial_state)
      as (_ & _ & _ & _ & H & _).
    rewrite H; [reflexivity|reflexivity|intros E; discriminate E
               |reflexivity|reflexivity|intros E; discriminate E].
Defined.

Lemma psk_handshake_stops_before_session_witness :
  tlshd_server_psk_handshake no_session_env idle_helper
    (sample_parms HANDSHAKE_AUTH_PSK) initial_state
  = Some (tt,
          with_trace initial_state
            (trace initial_state
             ++ [EvCredAlloc; EvGnutlsError (-25); EvCredFree])).
Proof.
  destruct (psk_handshake_stops_before_session no_session_env idle_helper
              (sample_parms HANDSHAKE_AUTH_PSK) initial_state) as (_ & H).
  apply H; [reflexivity|vm_compute; intros E; discriminate E].
Defined.

Lemma handshake_runs_helper_between_setup_and_cleanup_witness :
  tlshd_server_x509_handshake no_cert_env idle_helper
    (sample_parms HANDSHAKE_AUTH_X509) initial_state
  = Some (tt,
          with_server_privkey
            (with_server_cert
               (with_trace initial_state
                  (trace initial_state
                   ++ [EvCredAlloc;
                       EvLog LOG_DEBUG
                             "System trust: Loaded %d certificate(s).";
                       EvConfigGetServerCert true;
                       EvConfigGetServerPrivkey true;
                       EvSessionInit; EvTransportSetInt 3;
                       EvSessionDeinit; EvCredFree]))
               sample_server_cert)
            sample_server_privkey) /\
  tlshd_server_psk_handshake no_cert_env idle_helper
    (sample_parms HANDSHAKE_AUTH_PSK) initial_state
  = Some (tt,
          with_trace initial_state
            (trace initial_state
             ++ [EvCredAlloc; EvSessionInit; EvTransportSetInt 3;
                 EvSessionDeinit; EvCredFree])).
Proof.
  split.
  - destruct (handshake_runs_helper_between_setup_and_cleanup no_cert_env
                idle_helper (sample_parms HANDSHAKE_AUTH_X509) initial_state)
      as (H & _).
    rewrite H;
      [reflexivity|reflexivity|intros E; discriminate E
      |reflexivity|reflexivity|reflexivity].
  - destruct (handshake_runs_helper_between_setup_and_cleanup no_cert_env
                idle_helper (sample_parms HANDSHAKE_AUTH_PSK) initial_state)
      as (_ & H).
    rewrite H; reflexivity.
Defined.

Lemma serverhello_lifecycle_is_nested_witness :
  exists parms' s' evs,
    tlshd_serverhello_handshake no_session_env idle_helper
      (sample_parms HANDSHAKE_AUTH_X509) initial_state
    = Some (parms', s') /\
    trace s' = trace initial_state ++ evs /\
    filter lifecycle evs
    = [EvGlobalInit; EvCredAlloc; EvConfigGetServerCert true;
       EvConfigGetServerPrivkey true; EvCredFree; EvGlobalDeinit] /\
    tlshd_server_cert s' = sample_server_cert /\
    tlshd_server_privkey s' = sample_server_privkey.
Proof.
  destruct (serverhello_lifecycle_is_nested no_session_env idle_helper
              (sample_parms HANDSHAKE_AUTH_X509) initial_state)
    as (parms' & s' & evs & Hrun & Htr & _);
    [|apply wf_initial|].
  { intros session _ s _. exists tt, s, [].
    split; [reflexivity|]. split; [rewrite app_nil_r; reflexivity|reflexivity]. }
  exists parms', s', evs. split; [exact Hrun|]. split; [exact Htr|].
  vm_compute in Hrun. inversion Hrun; subst parms' s'. clear Hrun.
  cbn [trace initial_state app] in Htr. subst evs. repeat split.
Defined.

Lemma no_handshake_without_auth_mode_witness :
  tlshd_serverhello_handshake no_library_env idle_helper
    (sample_parms HANDSHAKE_AUTH_X509) initial_state
  = Some (sample_parms HANDSHAKE_AUTH_X509,
          with_trace initial_state
            (trace initial_state ++ [EvGnutlsError (-50)])) /\
  tlshd_serverhello_handshake no_cert_env idle_helper
    (sample_parms HANDSHAKE_AUTH_UNAUTH) initial_state
  = Some (sample_parms HANDSHAKE_AUTH_UNAUTH,
          with_trace initial_state
            (trace initial_state
             ++ [EvGlobalInit;
                 EvLog LOG_DEBUG "System config file: %s";
                 EvLog LOG_DEBUG "Unrecognized auth mode (%d)";
                 EvGlobalDeinit])).
Proof.
  split.
  - apply (proj1 (no_handshake_without_auth_mode no_library_env idle_helper
                    (sample_parms HANDSHAKE_AUTH_X509) initial_state)).
    vm_compute. intros E. discriminate E.
  - apply (proj2 (no_handshake_without_auth_mode no_cert_env idle_helper
                    (sample_parms HANDSHAKE_AUTH_UNAUTH) initial_state));
      [reflexivity|right; reflexivity].
Defined.

Lemma callbacks_keep_identities_within_array_witness :
  exists r s',
    tlshd_server_x509_verify_function fifteen_env initial_state
    = Some (r, s') /\ wf s'.
Proof.
  destruct (callbacks_keep_identities_within_array fifteen_env initial_state
              wf_initial) as (_ & H & _).
  exact H.
Defined.

(** The library has offloaded sending: the installer sets TCP_ULP and
    installs the receive direction on the incoming descriptor. *)
Example send_offloaded_install :
  exists s' i,
    tlshd_initialize_ktls full_build send_offloaded_env initial_state
    = Some (0, s') /\
    trace s'
    = [EvSetsockopt 3 SOL_TCP TCP_ULP (OptString "tls") 4;
       EvLog LOG_DEBUG "Library has enabled send kTLS for this session.";
       EvRecordGetState true;
       EvSetsockopt 4 SOL_TLS TLS_RX (OptCryptoInfo i) 40].
Proof. eexists _, _. split; vm_compute; reflexivity. Qed.
